(** * Val-Halla: snapshot diff and group reconciliation

    A shallow embedding of [src/core/backup_manager.py] (the membership
    diff of [backup_group] and [compare_backups]) and of
    [src/core/rebuild_manager.py] (the dry-run preview and the throttled
    rebuild loop with cancel / pause / resume), with the properties of
    the specification stated over them.

    Conventions of the embedding:
    - Python [int] identifiers are [Z], counters are [nat];
    - a nullable column ([Optional[str]]) is an [option string];
    - a string-valued key of a JSON object that the code reads with a
      default is a [JsonStr]: absent, null, or a string;
    - a Python [dict] keyed by user id is a [gmap Z _], a [set] of user
      ids is a [gset Z];
    - every [await] is a suspension point: the environment answers the
      operation (a value or a raised exception) and may, while the
      coroutine is suspended, call [cancel], [pause] or [resume] on the
      manager;
    - time stamps ([started_at], [completed_at], [timestamp]) and log
      lines are left out; [60.0 / invites_per_minute] is an exact
      rational. *)

From Stdlib Require Import ZArith QArith_base.
From stdpp Require Import base gmap sets list strings pretty sorting.

Local Open Scope Z_scope.

(** ** Data model *)

(** [src/models/backup.py], class [BackupMember]: the columns the two
    managers read. *)
Module BackupMember.
Record t := mk {
  user_id : Z;
  nickname : string;
  card : option string;
  role : string;
  title : option string
}.
End BackupMember.

(** [src/models/member.py], class [Member]: the live member table. *)
Module Member.
Record t := mk {
  user_id : Z;
  nickname : string;
  card : option string
}.
End Member.

(** A string-valued key of a JSON object as Python sees it: the key is
    absent, or its value is null, or it is a string. *)
Inductive JsonStr :=
| Absent
| Null
| Str (s : string).

(** One entry of the list answered by [get_group_member_list]: a JSON
    object. [card] and [title] are only ever read as
    [m.get(key) or ''], for which an absent key and a null value are
    one case, [None]. [nickname] and [role] are read with a default,
    [m.get(key, default)], which stands in for an absent key only, so
    for them the three cases are kept apart. *)
Module OneBotMember.
Record t := mk {
  user_id : Z;
  nickname : JsonStr;
  card : option string;
  role : JsonStr;
  title : option string
}.
End OneBotMember.

(** Python's [x or ''] on an optional string: null becomes the empty
    string. *)
Definition or_empty (x : option string) : string :=
  match x with
  | Some s => s
  | None => EmptyString
  end.

(** Python's [d.get(key, default)]: the default is used for an absent
    key; the value of a key that is there is returned as it is, [None]
    for a null. *)
Definition get_default (x : JsonStr) (default : string) : option string :=
  match x with
  | Absent => Some default
  | Null => None
  | Str s => Some s
  end.

(** ** Backup manager: the membership diff *)

Module BackupManager.

(** [{m.user_id: m for m in members}]: a later row replaces an earlier
    one with the same user id. *)
Definition by_user_id {A : Type} (key : A → Z) (members : list A) : gmap Z A :=
  fold_left (λ acc m, <[key m := m]> acc) members ∅.

(** [set(m.get("user_id") for m in members_data)]. *)
Definition id_set {A : Type} (key : A → Z) (members : list A) : gset Z :=
  fold_left (λ acc m, acc ∪ {[key m]}) members ∅.

(** [src/models/member.py], class [MemberHistory], as [backup_group]
    constructs it: [nickname] is whatever the constructor was given,
    [None] included. *)
Record MemberHistory := {
  history_user_id : Z;
  history_nickname : option string;
  history_action : string
}.

(** The result of the diff step of [backup_group] (lines 143-172 and
    the counts of lines 201-202); [history] are the records added to
    the session, in order, before anything is committed. *)
Record MemberChanges := {
  joined_ids : gset Z;
  left_ids : gset Z;
  history : list MemberHistory;
  new_members : nat;
  left_members : nat
}.

(** [backup_group], lines 143-172: [old_rows] is what
    [_get_current_members] selects from the member table,
    [members_data] what the remote answered. *)
Definition backup_group_diff (old_rows : list Member.t)
    (members_data : list OneBotMember.t) : MemberChanges :=
  let old_members := by_user_id Member.user_id old_rows in
  let old_user_ids : gset Z := dom old_members in
  let new_user_ids := id_set OneBotMember.user_id members_data in
  let joined_ids := new_user_ids ∖ old_user_ids in
  let left_ids := old_user_ids ∖ new_user_ids in
  let joins :=
    omap (λ user_id,
            (λ member_data,
               {| history_user_id := user_id;
                  history_nickname :=
                    get_default (OneBotMember.nickname member_data) EmptyString;
                  history_action := "join" |})
            <$> find (λ m, bool_decide (OneBotMember.user_id m = user_id))
                     members_data)
         (elements joined_ids) in
  let leaves :=
    omap (λ user_id,
            (λ old_member,
               {| history_user_id := user_id;
                  history_nickname := Some (Member.nickname old_member);
                  history_action := "leave" |})
            <$> old_members !! user_id)
         (elements left_ids) in
  {| joined_ids := joined_ids;
     left_ids := left_ids;
     history := joins ++ leaves;
     new_members := size joined_ids;
     left_members := size left_ids |}.

(** The three sets computed by [compare_backups], lines 396-404. *)
Record IdSets := {
  joined : gset Z;
  left : gset Z;
  remained : gset Z
}.

Definition compare_sets (members_1 members_2 : list BackupMember.t) : IdSets :=
  let users_1 := by_user_id BackupMember.user_id members_1 in
  let users_2 := by_user_id BackupMember.user_id members_2 in
  let ids_1 : gset Z := dom users_1 in
  let ids_2 : gset Z := dom users_2 in
  {| joined := ids_2 ∖ ids_1;
     left := ids_1 ∖ ids_2;
     remained := ids_1 ∩ ids_2 |}.

Record CardChange := {
  cc_user_id : Z;
  old_card : option string;
  new_card : option string
}.

(** The dictionary returned by [compare_backups]. *)
Record Comparison := {
  cmp_joined : list (Z * BackupMember.t);
  cmp_left : list (Z * BackupMember.t);
  cmp_remained : nat;
  card_changed : list CardChange
}.

(** [compare_backups], lines 393-422; [members_1] and [members_2] are
    the rows [get_backup_members] loads for the two backups. The card
    test is Python's [m1.card != m2.card] on the stored values. The
    subscripts [users_1[user_id]] cannot miss: the ids come from the
    key sets of the two dictionaries. *)
Definition compare_backups (members_1 members_2 : list BackupMember.t)
    : Comparison :=
  let users_1 := by_user_id BackupMember.user_id members_1 in
  let users_2 := by_user_id BackupMember.user_id members_2 in
  let sets := compare_sets members_1 members_2 in
  let card_changed :=
    omap (λ user_id,
            match users_1 !! user_id, users_2 !! user_id with
            | Some m1, Some m2 =>
                if bool_decide (BackupMember.card m1 ≠ BackupMember.card m2)
                then Some {| cc_user_id := user_id;
                             old_card := BackupMember.card m1;
                             new_card := BackupMember.card m2 |}
                else None
            | _, _ => None
            end)
         (elements (remained sets)) in
  {| cmp_joined :=
       omap (λ uid, pair uid <$> users_2 !! uid) (elements (joined sets));
     cmp_left :=
       omap (λ uid, pair uid <$> users_1 !! uid) (elements (left sets));
     cmp_remained := size (remained sets);
     card_changed := card_changed |}.

End BackupManager.

(** ** Rebuild manager: data *)

Module RebuildStatus.
Inductive t := PENDING | RUNNING | PAUSED | COMPLETED | FAILED | CANCELLED.
#[global] Instance eq_dec : EqDecision t.
Proof. solve_decision. Defined.
End RebuildStatus.

Module InviteStatus.
Inductive t := PENDING | SUCCESS | FAILED | SKIPPED.
#[global] Instance eq_dec : EqDecision t.
Proof. solve_decision. Defined.
End InviteStatus.

Module InviteResult.
Record t := mk {
  user_id : Z;
  nickname : string;
  status : InviteStatus.t;
  message : string
}.
End InviteResult.

Module RebuildProgress.
Record t := mk {
  total : nat;
  processed : nat;
  success : nat;
  failed : nat;
  skipped : nat;
  status : RebuildStatus.t;
  current_user : option Z;
  results : list InviteResult.t;
  error_message : string
}.

(** [RebuildProgress(total=n, status=RUNNING)]: the other fields take
    the dataclass defaults. *)
Definition started (n : nat) : t :=
  mk n 0 0 0 0 RebuildStatus.RUNNING None [] EmptyString.

Definition set_status (s : RebuildStatus.t) (p : t) : t :=
  mk (total p) (processed p) (success p) (failed p) (skipped p) s
     (current_user p) (results p) (error_message p).

Definition set_current_user (u : option Z) (p : t) : t :=
  mk (total p) (processed p) (success p) (failed p) (skipped p) (status p)
     u (results p) (error_message p).

Definition set_error_message (e : string) (p : t) : t :=
  mk (total p) (processed p) (success p) (failed p) (skipped p) (status p)
     (current_user p) (results p) e.

(** [self._progress.processed += 1]. *)
Definition incr_processed (p : t) : t :=
  mk (total p) (S (processed p)) (success p) (failed p) (skipped p)
     (status p) (current_user p) (results p) (error_message p).

Definition incr_success (p : t) : t :=
  mk (total p) (processed p) (S (success p)) (failed p) (skipped p)
     (status p) (current_user p) (results p) (error_message p).

Definition incr_failed (p : t) : t :=
  mk (total p) (processed p) (success p) (S (failed p)) (skipped p)
     (status p) (current_user p) (results p) (error_message p).

Definition incr_skipped (p : t) : t :=
  mk (total p) (processed p) (success p) (failed p) (S (skipped p))
     (status p) (current_user p) (results p) (error_message p).

(** [self._progress.results.append(result)]. *)
Definition append_result (r : InviteResult.t) (p : t) : t :=
  mk (total p) (processed p) (success p) (failed p) (skipped p)
     (status p) (current_user p) (results p ++ [r]) (error_message p).
End RebuildProgress.

(** The fields of [RebuildManager.__init__] that the methods read, and
    the three state fields. The job record [_progress] is one shared
    object: the value [_rebuild_group] returns is this very object, so a
    status written through the manager is the status of the returned
    job. *)
Record RebuildManager := {
  invites_per_minute : Z;
  restore_admins : bool;
  restore_cards : bool;
  restore_titles : bool;
  send_welcome : bool;
  continue_on_error : bool;
  invite_interval : Q;
  _progress : option RebuildProgress.t;
  _cancelled : bool;
  _paused : bool
}.

(** [RebuildManager.__init__]: [60.0 / invites_per_minute] raises
    [ZeroDivisionError] for 0. *)
Definition RebuildManager_init (invites_per_minute : Z)
    (restore_admins restore_cards restore_titles send_welcome
     continue_on_error : bool) : option RebuildManager :=
  if invites_per_minute =? 0 then None
  else Some {| invites_per_minute := invites_per_minute;
               restore_admins := restore_admins;
               restore_cards := restore_cards;
               restore_titles := restore_titles;
               send_welcome := send_welcome;
               continue_on_error := continue_on_error;
               invite_interval :=
                 Qdiv (Qmake 60 1) (inject_Z invites_per_minute);
               _progress := None;
               _cancelled := false;
               _paused := false |}.

Definition set_progress (p : option RebuildProgress.t) (self : RebuildManager)
    : RebuildManager :=
  {| invites_per_minute := invites_per_minute self;
     restore_admins := restore_admins self;
     restore_cards := restore_cards self;
     restore_titles := restore_titles self;
     send_welcome := send_welcome self;
     continue_on_error := continue_on_error self;
     invite_interval := invite_interval self;
     _progress := p;
     _cancelled := _cancelled self;
     _paused := _paused self |}.

Definition set_flags (cancelled paused : bool) (self : RebuildManager)
    : RebuildManager :=
  {| invites_per_minute := invites_per_minute self;
     restore_admins := restore_admins self;
     restore_cards := restore_cards self;
     restore_titles := restore_titles self;
     send_welcome := send_welcome self;
     continue_on_error := continue_on_error self;
     invite_interval := invite_interval self;
     _progress := _progress self;
     _cancelled := cancelled;
     _paused := paused |}.

Definition set_restore (cards titles admins : bool) (self : RebuildManager)
    : RebuildManager :=
  {| invites_per_minute := invites_per_minute self;
     restore_admins := admins;
     restore_cards := cards;
     restore_titles := titles;
     send_welcome := send_welcome self;
     continue_on_error := continue_on_error self;
     invite_interval := invite_interval self;
     _progress := _progress self;
     _cancelled := _cancelled self;
     _paused := _paused self |}.

(** [RebuildManager.cancel], lines 145-150. *)
Definition cancel (self : RebuildManager) : RebuildManager :=
  set_progress
    (RebuildProgress.set_status RebuildStatus.CANCELLED <$> _progress self)
    (set_flags true (_paused self) self).

(** [RebuildManager.pause], lines 152-157. *)
Definition pause (self : RebuildManager) : RebuildManager :=
  set_progress
    (RebuildProgress.set_status RebuildStatus.PAUSED <$> _progress self)
    (set_flags (_cancelled self) true self).

(** [RebuildManager.resume], lines 159-164. *)
Definition resume (self : RebuildManager) : RebuildManager :=
  set_progress
    (RebuildProgress.set_status RebuildStatus.RUNNING <$> _progress self)
    (set_flags (_cancelled self) false self).

(** The external controls of the in-flight job. *)
Inductive Control := Cancel | Pause | Resume.

Definition apply_control (self : RebuildManager) (c : Control) : RebuildManager :=
  match c with
  | Cancel => cancel self
  | Pause => pause self
  | Resume => resume self
  end.

Definition apply_controls (cs : list Control) (self : RebuildManager)
    : RebuildManager :=
  fold_left apply_control cs self.

(** ** Operations and the environment *)

(** What the manager asks of its surroundings: the calls on the OneBot
    client, [asyncio.sleep], and the caller's progress callback (which
    receives the job record). *)
Module Op.
Inductive t :=
| get_group_member_list (group_id : Z) (no_cache : bool)
| get_login_info
| get_friend_list
| set_group_card (group_id user_id : Z) (card : string)
| set_group_special_title (group_id user_id : Z) (special_title : string)
| set_group_admin (group_id user_id : Z) (enable : bool)
| send_group_msg (group_id : Z) (message : string)
| sleep (seconds : Q)
| progress_callback (progress : RebuildProgress.t).

(** The operations that change remote state. *)
Definition mutating (o : t) : bool :=
  match o with
  | set_group_card _ _ _ | set_group_special_title _ _ _
  | set_group_admin _ _ _ | send_group_msg _ _ => true
  | _ => false
  end.

(** The read calls of the client. *)
Definition read_call (o : t) : bool :=
  match o with
  | get_group_member_list _ _ | get_login_info | get_friend_list => true
  | _ => false
  end.

(** The calls on the OneBot client. *)
Definition client_call (o : t) : bool := read_call o || mutating o.
End Op.

(** The value an operation answers: the member list, the [user_id]
    entry of the login info (absent: [None]), the user ids of the friend
    list, or nothing of interest. *)
Inductive Answer :=
| Members (members : list OneBotMember.t)
| Login (user_id : option Z)
| Friends (user_ids : list Z)
| Done.

(** The answer to one operation: the value, or the message of the
    exception it raised; the controls other tasks applied to the manager
    while the coroutine was suspended; the environment afterwards. *)
Record Reply (Env : Type) := {
  outcome : string + Answer;
  controls : list Control;
  next_env : Env
}.
Arguments outcome {Env} _.
Arguments controls {Env} _.
Arguments next_env {Env} _.

Class Environment (Env : Type) := {
  respond : Op.t → Env → Reply Env
}.

(** One suspension: the operation, the job record as a reader sees it
    when the coroutine suspends, and the controls that arrived before
    the coroutine went on. *)
Record Event := {
  op : Op.t;
  seen : option RebuildProgress.t;
  arrived : list Control
}.

(** How a computation ends: a value, a raised exception, or a pause loop
    that was still polling when the bound on polls ran out. *)
Inductive Res (A : Type) :=
| Ok (a : A)
| Raise (e : string)
| Polling.
Arguments Ok {A} _.
Arguments Raise {A} _.
Arguments Polling {A}.

Definition newline : string := String (Ascii.ascii_of_nat 10) EmptyString.

Section Engine.
Context {Env : Type} `{Environment Env}.

Record World := {
  self : RebuildManager;
  env : Env;
  trace : list Event
}.

Definition M (A : Type) : Type := World → Res A * World.

Definition ret {A : Type} (a : A) : M A := λ w, (Ok a, w).

Definition bind {A B : Type} (m : M A) (k : A → M B) : M B := λ w,
  match m w with
  | (Ok a, w') => k a w'
  | (Raise e, w') => (Raise e, w')
  | (Polling, w') => (Polling, w')
  end.

Definition raise {A : Type} (e : string) : M A := λ w, (Raise e, w).

(** [try: m  except Exception as e: handler(e)]. *)
Definition try_except {A : Type} (m : M A) (handler : string → M A) : M A := λ w,
  match m w with
  | (Raise e, w') => handler e w'
  | r => r
  end.

Definition gets {A : Type} (f : RebuildManager → A) : M A := λ w, (Ok (f (self w)), w).

Definition modify (f : RebuildManager → RebuildManager) : M unit := λ w,
  (Ok tt, {| self := f (self w); env := env w; trace := trace w |}).

(** A write through [self._progress]. *)
Definition modify_progress (f : RebuildProgress.t → RebuildProgress.t) : M unit :=
  modify (λ s, set_progress (f <$> _progress s) s).

(** A read through [self._progress]; on [None] Python raises. *)
Definition get_progress : M RebuildProgress.t := λ w,
  match _progress (self w) with
  | Some p => (Ok p, w)
  | None => (Raise "AttributeError", w)
  end.

(** [await o]: the event is recorded, the environment answers, and the
    controls that arrived meanwhile have been applied on return. *)
Definition await (o : Op.t) : M Answer := λ w,
  let r := respond o (env w) in
  let w' := {| self := apply_controls (controls r) (self w);
               env := next_env r;
               trace := trace w ++ [{| op := o; seen := _progress (self w);
                                       arrived := controls r |}] |} in
  match outcome r with
  | inl e => (Raise e, w')
  | inr a => (Ok a, w')
  end.

(** The three read calls of the client, with the use the manager makes
    of the answer; an answer of another shape makes that use raise. *)
Definition get_group_member_list (group_id : Z) (no_cache : bool)
    : M (list OneBotMember.t) :=
  bind (await (Op.get_group_member_list group_id no_cache))
       (λ a, match a with
             | Members members => ret members
             | _ => raise "TypeError"
             end).

Definition get_login_info : M (option Z) :=
  bind (await Op.get_login_info)
       (λ a, match a with
             | Login user_id => ret user_id
             | _ => raise "TypeError"
             end).

Definition get_friend_list : M (list Z) :=
  bind (await Op.get_friend_list)
       (λ a, match a with
             | Friends user_ids => ret user_ids
             | _ => raise "TypeError"
             end).

End Engine.
Arguments World : clear implicits.

Notation "x <- m ;; k" := (bind m (λ x, k))
  (at level 100, m at next level, right associativity, only parsing).
Notation "m ;;; k" := (bind m (λ _, k))
  (at level 100, right associativity, only parsing).

(** ** Rebuild manager: dry run *)

Record Detail := {
  detail_type : string;
  detail_current : option string;
  detail_backup : string;
  detail_action : string
}.

Record Change := {
  change_user_id : Z;
  change_nickname : string;
  change_action : string;
  change_reason : string;
  change_details : list Detail
}.

Record Stats := {
  total_backup_members : nat;
  current_members : nat;
  will_skip_bot : nat;
  will_skip_already_in : nat;
  will_skip_not_friend : nat;
  will_restore_card : nat;
  will_restore_title : nat;
  will_restore_admin : nat;
  cannot_invite : nat
}.

(** The dictionary returned by [_dry_run_rebuild]; the [message] text
    is left out, and of [summary] the restore flags, [total_changes]
    and [warning] are kept. *)
Record Preview := {
  dry_run : bool;
  statistics : Stats;
  changes : list Change;
  summary_restore_cards : bool;
  summary_restore_titles : bool;
  summary_restore_admins : bool;
  total_changes : nat;
  warning : option string
}.

(** Python's truth value of a string. *)
Definition nonempty (s : string) : bool :=
  match s with
  | EmptyString => false
  | String _ _ => true
  end.

(** Lines 374-384: the card difference of a member present in the
    target group. *)
Definition card_detail (current_member : OneBotMember.t)
    (member : BackupMember.t) : list Detail :=
  let current_card := or_empty (OneBotMember.card current_member) in
  let backup_card := or_empty (BackupMember.card member) in
  if bool_decide (current_card ≠ backup_card) then
    [{| detail_type := "card";
        detail_current := Some current_card;
        detail_backup := backup_card;
        detail_action :=
          if nonempty backup_card
          then "将名片从 '" +:+ current_card +:+ "' 改为 '" +:+ backup_card +:+ "'"
          else "清空名片（当前: '" +:+ current_card +:+ "'）" |}]
  else [].

(** Lines 387-397. *)
Definition title_detail (current_member : OneBotMember.t)
    (member : BackupMember.t) : list Detail :=
  let current_title := or_empty (OneBotMember.title current_member) in
  let backup_title := or_empty (BackupMember.title member) in
  if bool_decide (current_title ≠ backup_title) then
    [{| detail_type := "title";
        detail_current := Some current_title;
        detail_backup := backup_title;
        detail_action :=
          if nonempty backup_title
          then "将头衔从 '" +:+ current_title +:+ "' 改为 '" +:+ backup_title +:+ "'"
          else "清空头衔（当前: '" +:+ current_title +:+ "'）" |}]
  else [].

(** Lines 400-409; [current_role] is [None] when the live role is
    null, which is neither ["admin"] nor ["owner"]. *)
Definition admin_detail (current_member : OneBotMember.t)
    (member : BackupMember.t) : list Detail :=
  let current_role := get_default (OneBotMember.role current_member) "member" in
  if bool_decide (current_role ≠ Some "admin"%string)
     && bool_decide (current_role ≠ Some "owner"%string) then
    [{| detail_type := "admin";
        detail_current := current_role;
        detail_backup := "admin";
        detail_action := "将 " +:+ BackupMember.nickname member +:+ " 设为管理员" |}]
  else [].

Definition add_stats (s : Stats) (bot already_in not_friend card title admin
    cannot : nat) : Stats :=
  {| total_backup_members := total_backup_members s;
     current_members := current_members s;
     will_skip_bot := (will_skip_bot s + bot)%nat;
     will_skip_already_in := (will_skip_already_in s + already_in)%nat;
     will_skip_not_friend := (will_skip_not_friend s + not_friend)%nat;
     will_restore_card := (will_restore_card s + card)%nat;
     will_restore_title := (will_restore_title s + title)%nat;
     will_restore_admin := (will_restore_admin s + admin)%nat;
     cannot_invite := (cannot_invite s + cannot)%nat |}.

Definition change_entry (member : BackupMember.t) (action reason : string)
    (details : list Detail) : Change :=
  {| change_user_id := BackupMember.user_id member;
     change_nickname := BackupMember.nickname member;
     change_action := action;
     change_reason := reason;
     change_details := details |}.

(** Lines 352-447, the body of the loop over the backup members: the
    counters it adds to [stats] and the entry it appends to [changes]. *)
Definition dry_run_member (self : RebuildManager) (bot_user_id : option Z)
    (current_map : gmap Z OneBotMember.t) (friend_ids : gset Z)
    (member : BackupMember.t) (stats : Stats) : Stats * Change :=
  let user_id := BackupMember.user_id member in
  if bool_decide (Some user_id = bot_user_id) then
    (add_stats stats 1 0 0 0 0 0 0,
     change_entry member "skip" "Bot自身" [])
  else
    match current_map !! user_id with
    | Some current_member =>
        let card :=
          if restore_cards self then card_detail current_member member else [] in
        let title :=
          if restore_titles self then title_detail current_member member else [] in
        let admin :=
          if restore_admins self
             && bool_decide (BackupMember.role member = "admin")
          then admin_detail current_member member else [] in
        let member_changes := card ++ title ++ admin in
        (add_stats stats 0 1 0 (length card) (length title) (length admin) 0,
         match member_changes with
         | _ :: _ =>
             change_entry member "restore" "已在群内，将恢复信息" member_changes
         | [] => change_entry member "skip" "已在群内，无需更改" []
         end)
    | None =>
        if bool_decide (user_id ∉ friend_ids) then
          (add_stats stats 0 0 1 0 0 0 1,
           change_entry member "cannot_invite" "非好友，无法邀请" [])
        else
          (add_stats stats 0 0 0 0 0 0 1,
           change_entry member "need_invite"
             "是好友，但OneBot标准不支持直接邀请入群" [])
    end.

(** The loop of lines 352-447. *)
Definition dry_run_loop (self : RebuildManager) (bot_user_id : option Z)
    (current_map : gmap Z OneBotMember.t) (friend_ids : gset Z)
    (backup_members : list BackupMember.t) (stats : Stats) : Stats * list Change :=
  fold_left
    (λ acc member,
       let r := dry_run_member self bot_user_id current_map friend_ids
                               member acc.1 in
       (r.1, acc.2 ++ [r.2]))
    backup_members (stats, []).

Section DryRun.
Context {Env : Type} `{Environment Env}.

(** [_dry_run_rebuild], lines 296-464. *)
Definition _dry_run_rebuild (group_id : Z) (backup_members : list BackupMember.t)
    : M Preview :=
  current_map <-
    try_except
      (current_members <- get_group_member_list group_id true ;;
       ret (BackupManager.by_user_id OneBotMember.user_id current_members))
      (λ e, raise ("获取群成员失败: " +:+ e)) ;;
  let current_user_ids : gset Z := dom current_map in
  bot_user_id <- try_except get_login_info (λ _, ret None) ;;
  friend_ids <-
    try_except
      (friends <- get_friend_list ;;
       ret (list_to_set friends : gset Z))
      (λ _, ret ∅) ;;
  self <- gets id ;;
  let stats0 :=
    {| total_backup_members := length backup_members;
       current_members := size current_user_ids;
       will_skip_bot := 0; will_skip_already_in := 0;
       will_skip_not_friend := 0; will_restore_card := 0;
       will_restore_title := 0; will_restore_admin := 0;
       cannot_invite := 0 |} in
  let r := dry_run_loop self bot_user_id current_map friend_ids
                        backup_members stats0 in
  let stats := r.1 in
  ret {| dry_run := true;
         statistics := stats;
         changes := r.2;
         summary_restore_cards := restore_cards self;
         summary_restore_titles := restore_titles self;
         summary_restore_admins := restore_admins self;
         total_changes :=
           (will_restore_card stats + will_restore_title stats
            + will_restore_admin stats)%nat;
         warning :=
           if (0 <? cannot_invite stats)%nat
           then Some "OneBot 11 标准不支持直接邀请成员入群，只能恢复已在目标群内成员的信息"
           else None |}.

End DryRun.

(** ** Rebuild manager: execution *)

Definition invite_result (member : BackupMember.t) (status : InviteStatus.t)
    (message : string) : InviteResult.t :=
  InviteResult.mk (BackupMember.user_id member) (BackupMember.nickname member)
                  status message.

(** How one turn of the member loop ends: [continue] or the fall
    through to the next member (with the local set [current_user_ids]),
    or [break]. *)
Inductive LoopCtl :=
| NextMember (current_user_ids : gset Z)
| Break.

(** The dictionary [rebuild_group] returns after an execution. *)
Record Report := {
  report_status : RebuildStatus.t;
  report_total : nat;
  success_count : nat;
  failed_count : nat;
  skipped_count : nat;
  report_results : list InviteResult.t
}.

Section Rebuild.
Context {Env : Type} `{Environment Env}.

(** [_invite_member], lines 672-718. *)
Definition _invite_member (group_id : Z) (member : BackupMember.t)
    : M InviteResult.t :=
  try_except
    (friends <- get_friend_list ;;
     let friend_ids : gset Z := list_to_set friends in
     if bool_decide (BackupMember.user_id member ∉ friend_ids) then
       ret (invite_result member InviteStatus.SKIPPED "非好友,无法邀请")
     else
       ret (invite_result member InviteStatus.SUCCESS "已标记待邀请"))
    (λ e, ret (invite_result member InviteStatus.FAILED e)).

(** [_restore_member_info], lines 720-786. Each call has its own
    handler, so nothing reaches the outer [except] of line 783. *)
Definition _restore_member_info (group_id : Z) (member : BackupMember.t)
    : M (list string) :=
  rc <- gets restore_cards ;;
  restored_card <-
    (if rc : bool then
       let backup_card := or_empty (BackupMember.card member) in
       try_except
         (await (Op.set_group_card group_id (BackupMember.user_id member)
                                   backup_card) ;;;
          ret (if nonempty backup_card
               then ["名片'" +:+ backup_card +:+ "'"]
               else ["清空名片"%string]))
         (λ _, ret [])
     else ret []) ;;
  rt <- gets restore_titles ;;
  restored_title <-
    (if rt : bool then
       let backup_title := or_empty (BackupMember.title member) in
       try_except
         (await (Op.set_group_special_title group_id
                   (BackupMember.user_id member) backup_title) ;;;
          ret (if nonempty backup_title
               then ["头衔'" +:+ backup_title +:+ "'"]
               else ["清空头衔"%string]))
         (λ _, ret [])
     else ret []) ;;
  ra <- gets restore_admins ;;
  restored_admin <-
    (if (ra : bool) && bool_decide (BackupMember.role member = "admin") then
       try_except
         (await (Op.set_group_admin group_id (BackupMember.user_id member) true) ;;;
          ret ["管理员权限"%string])
         (λ _, ret [])
     else ret []) ;;
  ret (restored_card ++ restored_title ++ restored_admin).

(** Lines 568-571: [while self._paused: await asyncio.sleep(1); if
    self._cancelled: break]. [polls] bounds the number of turns. *)
Fixpoint wait_while_paused (polls : nat) : M unit :=
  paused <- gets _paused ;;
  if paused : bool then
    match polls with
    | O => λ w, (Polling, w)
    | S polls' =>
        await (Op.sleep (Qmake 1 1)) ;;;
        cancelled <- gets _cancelled ;;
        if cancelled : bool then ret tt else wait_while_paused polls'
    end
  else ret tt.

(** Lines 637-642: the progress callback, if one was given, and the
    rate control. *)
Definition notify_and_throttle (progress_callback : bool) : M unit :=
  (if progress_callback then
     p <- get_progress ;;
     await (Op.progress_callback p) ;;;
     ret tt
   else ret tt) ;;;
  interval <- gets invite_interval ;;
  await (Op.sleep interval) ;;;
  ret tt.

(** Lines 573-642: one member, after the cancel and pause checks. *)
Definition handle_member (target_group_id : Z) (bot_user_id : option Z)
    (progress_callback : bool) (current_user_ids : gset Z)
    (member : BackupMember.t) : M LoopCtl :=
  modify_progress
    (RebuildProgress.set_current_user (Some (BackupMember.user_id member))) ;;;
  if bool_decide (Some (BackupMember.user_id member) = bot_user_id) then
    let result := invite_result member InviteStatus.SKIPPED "Bot 自身" in
    modify_progress RebuildProgress.incr_skipped ;;;
    modify_progress RebuildProgress.incr_processed ;;;
    modify_progress (RebuildProgress.append_result result) ;;;
    ret (NextMember current_user_ids)
  else if bool_decide (BackupMember.user_id member ∈ current_user_ids) then
    restore_details <- _restore_member_info target_group_id member ;;
    result <-
    (match restore_details with
     | _ :: _ =>
         modify_progress RebuildProgress.incr_success ;;;
         ret (invite_result member InviteStatus.SUCCESS
                ("已在群内，恢复了: " +:+ String.concat ", " restore_details))
     | [] =>
         modify_progress RebuildProgress.incr_skipped ;;;
         ret (invite_result member InviteStatus.SKIPPED "已在群内，无需更改")
     end) ;;
    modify_progress RebuildProgress.incr_processed ;;;
    modify_progress (RebuildProgress.append_result result) ;;;
    ret (NextMember current_user_ids)
  else
    invite_result <- _invite_member target_group_id member ;;
    modify_progress (RebuildProgress.append_result invite_result) ;;;
    modify_progress RebuildProgress.incr_processed ;;;
    ctl <-
    (match InviteResult.status invite_result with
     | InviteStatus.SUCCESS =>
         modify_progress RebuildProgress.incr_success ;;;
         _restore_member_info target_group_id member ;;;
         ret (NextMember (current_user_ids ∪ {[BackupMember.user_id member]}))
     | InviteStatus.FAILED =>
         modify_progress RebuildProgress.incr_failed ;;;
         continue <- gets continue_on_error ;;
         if continue : bool then ret (NextMember current_user_ids)
         else
           modify_progress (RebuildProgress.set_status RebuildStatus.FAILED) ;;;
           modify_progress
             (RebuildProgress.set_error_message
                (InviteResult.message invite_result)) ;;;
           ret Break
     | _ =>
         modify_progress RebuildProgress.incr_skipped ;;;
         ret (NextMember current_user_ids)
     end) ;;
    match ctl with
    | Break => ret Break
    | NextMember ids =>
        notify_and_throttle progress_callback ;;;
        ret (NextMember ids)
    end.

(** Lines 562-642: one turn of [for member in all_members]. *)
Definition process_member (polls : nat) (target_group_id : Z)
    (bot_user_id : option Z) (progress_callback : bool)
    (current_user_ids : gset Z) (member : BackupMember.t) : M LoopCtl :=
  cancelled <- gets _cancelled ;;
  if cancelled : bool then
    modify_progress (RebuildProgress.set_status RebuildStatus.CANCELLED) ;;;
    ret Break
  else
    wait_while_paused polls ;;;
    handle_member target_group_id bot_user_id progress_callback
                  current_user_ids member.

(** [for member in all_members: ...], lines 562-642. *)
Fixpoint member_loop (polls : nat) (target_group_id : Z)
    (bot_user_id : option Z) (progress_callback : bool)
    (current_user_ids : gset Z) (all_members : list BackupMember.t) : M unit :=
  match all_members with
  | [] => ret tt
  | member :: rest =>
      ctl <- process_member polls target_group_id bot_user_id
                            progress_callback current_user_ids member ;;
      match ctl with
      | Break => ret tt
      | NextMember ids =>
          member_loop polls target_group_id bot_user_id progress_callback
                      ids rest
      end
  end.

(** Lines 554-560: ordinary members first, then administrators; owners
    are in neither list. *)
Definition all_members (members : list BackupMember.t) : list BackupMember.t :=
  let admins := filter (λ m, BackupMember.role m = "admin") members in
  let regular_members := filter (λ m, BackupMember.role m = "member") members in
  regular_members ++ admins.

(** Lines 520-552: the job record, the live roster, the bot's identity
    and the start notice. *)
Definition rebuild_prologue (target_group_id : Z) (members : list BackupMember.t)
    : M (gset Z * option Z) :=
  modify (λ s, set_flags false false
                 (set_progress (Some (RebuildProgress.started (length members))) s)) ;;;
  current_user_ids <-
    try_except
      (current_members <- get_group_member_list target_group_id true ;;
       ret (BackupManager.id_set OneBotMember.user_id current_members))
      (λ _, ret ∅) ;;
  bot_user_id <- try_except get_login_info (λ _, ret None) ;;
  welcome <- gets send_welcome ;;
  (if welcome : bool then
     try_except
       (await (Op.send_group_msg target_group_id
                 ("🔄 群组重建开始" +:+ newline +:+ "预计邀请 "
                  +:+ pretty (length members) +:+ " 位成员")) ;;;
        ret tt)
       (λ _, ret tt)
   else ret tt) ;;;
  ret (current_user_ids, bot_user_id).

(** Lines 644-670: the final status, and the completion notice. *)
Definition rebuild_epilogue (target_group_id : Z) : M RebuildProgress.t :=
  p <- get_progress ;;
  (if bool_decide (RebuildProgress.status p = RebuildStatus.RUNNING) then
     modify_progress (RebuildProgress.set_status RebuildStatus.COMPLETED)
   else ret tt) ;;;
  modify_progress (RebuildProgress.set_current_user None) ;;;
  welcome <- gets send_welcome ;;
  (if welcome : bool then
     p <- get_progress ;;
     try_except
       (await (Op.send_group_msg target_group_id
                 ("✅ 群组重建完成" +:+ newline
                  +:+ "成功: " +:+ pretty (RebuildProgress.success p) +:+ newline
                  +:+ "失败: " +:+ pretty (RebuildProgress.failed p) +:+ newline
                  +:+ "跳过: " +:+ pretty (RebuildProgress.skipped p))) ;;;
        ret tt)
       (λ _, ret tt)
   else ret tt) ;;;
  get_progress.

(** [_rebuild_group], lines 503-670. *)
Definition _rebuild_group (polls : nat) (target_group_id : Z)
    (members : list BackupMember.t) (progress_callback : bool)
    : M RebuildProgress.t :=
  start <- rebuild_prologue target_group_id members ;;
  member_loop polls target_group_id start.2 progress_callback start.1
              (all_members members) ;;;
  rebuild_epilogue target_group_id.

(** [rebuild_group], lines 211-294. [backup] is the group id of the
    backup row with id [backup_id], if there is one, and
    [backup_members] are its member rows. *)
Definition rebuild_group (polls : nat) (group_id backup_id : Z)
    (backup : option Z) (backup_members : list BackupMember.t)
    (target_group_id : option Z)
    (restore_cards restore_titles restore_admins dry_run : bool)
    : M (Preview + Report) :=
  let target_group_id := default group_id target_group_id in
  modify (set_restore restore_cards restore_titles restore_admins) ;;;
  match backup with
  | None => raise ("备份 " +:+ pretty backup_id +:+ " 不存在")
  | Some backup_group_id =>
      if bool_decide (backup_group_id ≠ group_id) then
        raise ("备份 " +:+ pretty backup_id +:+ " 不属于群组 " +:+ pretty group_id)
      else
        match backup_members with
        | [] => raise ("备份 " +:+ pretty backup_id +:+ " 中没有成员数据")
        | _ :: _ =>
            if dry_run then
              preview <- _dry_run_rebuild target_group_id backup_members ;;
              ret (inl preview)
            else
              progress <- _rebuild_group polls target_group_id backup_members false ;;
              ret (inr {| report_status := RebuildProgress.status progress;
                          report_total := RebuildProgress.total progress;
                          success_count := RebuildProgress.success progress;
                          failed_count := RebuildProgress.failed progress;
                          skipped_count := RebuildProgress.skipped progress;
                          report_results := RebuildProgress.results progress |})
        end
  end.

End Rebuild.

(** ** A scripted environment

    A closed environment for running the manager on concrete inputs:
    [roster] is the target group as it really is, and
    [get_group_member_list] answers it unless [roster_error] makes the
    call raise; the answers of the two other read calls are fixed;
    [set_group_card] raises for the listed users; every other operation
    succeeds; and the controls arrive by a schedule, whose k-th entry
    lists the controls applied during the k-th suspension. *)
Record Script := {
  roster : list OneBotMember.t;
  roster_error : option string;
  login : string + option Z;
  friends : string + list Z;
  card_rejected : list Z;
  schedule : list (list Control)
}.

Definition script_outcome (e : Script) (o : Op.t) : string + Answer :=
  match o with
  | Op.get_group_member_list _ _ =>
      match roster_error e with
      | Some error => inl error
      | None => inr (Members (roster e))
      end
  | Op.get_login_info => sum_map id Login (login e)
  | Op.get_friend_list => sum_map id Friends (friends e)
  | Op.set_group_card _ user_id _ =>
      if bool_decide (user_id ∈ card_rejected e) then inl "rejected"%string
      else inr Done
  | _ => inr Done
  end.

#[global] Instance script_environment : Environment Script := {|
  respond o e :=
    {| outcome := script_outcome e o;
       controls := hd [] (schedule e);
       next_env := {| roster := roster e; roster_error := roster_error e;
                      login := login e; friends := friends e;
                      card_rejected := card_rejected e;
                      schedule := tl (schedule e) |} |}
|}.

(** A manager as [__init__] leaves it, with 10 invites per minute. *)
Definition manager (restore_admins restore_cards restore_titles send_welcome
    continue_on_error : bool) : RebuildManager :=
  {| invites_per_minute := 10;
     restore_admins := restore_admins;
     restore_cards := restore_cards;
     restore_titles := restore_titles;
     send_welcome := send_welcome;
     continue_on_error := continue_on_error;
     invite_interval := Qdiv (Qmake 60 1) (inject_Z 10);
     _progress := None;
     _cancelled := false;
     _paused := false |}.

(** The world a call starts in: nothing has been awaited yet. *)
Definition start (self : RebuildManager) (e : Script) : World Script :=
  {| self := self; env := e; trace := [] |}.

Definition snapshot_member (user_id : Z) (card : string) : BackupMember.t :=
  BackupMember.mk user_id "n" (Some card) "member" None.

Definition live_member (user_id : Z) (card : string) : OneBotMember.t :=
  OneBotMember.mk user_id (Str "n") (Some card) (Str "member") None.

(** ** The preview buckets *)

Inductive Bucket :=
| SkipBotSelf
| RestoreInfo
| SkipNoChange
| CannotInviteNotFriend
| NeedsManualInvite.

(** The bucket an entry of [changes] stands for, read off its [action]
    and [reason]. *)
Definition bucket_of (c : Change) : option Bucket :=
  if String.eqb (change_action c) "restore" then Some RestoreInfo
  else if String.eqb (change_action c) "cannot_invite" then Some CannotInviteNotFriend
  else if String.eqb (change_action c) "need_invite" then Some NeedsManualInvite
  else if String.eqb (change_action c) "skip" then
    if String.eqb (change_reason c) "Bot自身" then Some SkipBotSelf
    else if String.eqb (change_reason c) "已在群内，无需更改" then Some SkipNoChange
    else None
  else None.

(** The live record of a user: the roster entry that carries the id
    (the last one, should the remote list an id twice). *)
Definition live_record (roster : list OneBotMember.t) (user_id : Z)
    : option OneBotMember.t :=
  last (filter (λ x, OneBotMember.user_id x = user_id) roster).

(** The priority order of the classification, given the test
    [differs] that decides between restore and no change needed for a
    member present in the target group. *)
Definition bucket_by (differs : OneBotMember.t → BackupMember.t → bool)
    (bot_user_id : option Z) (roster : list OneBotMember.t) (friends : list Z)
    (member : BackupMember.t) : Bucket :=
  if bool_decide (bot_user_id = Some (BackupMember.user_id member)) then SkipBotSelf
  else
    match live_record roster (BackupMember.user_id member) with
    | Some live =>
        if differs live member then RestoreInfo else SkipNoChange
    | None =>
        if bool_decide (BackupMember.user_id member ∈ friends)
        then NeedsManualInvite else CannotInviteNotFriend
    end.

(** *** In the words of the specification *)

(** The specification compares the admin role with the live value. It
    can be read in two ways: the role on record is compared with the
    live role, or what is compared is whether the role is that of an
    administrator. Both readings are kept. *)
Inductive AdminReading :=
| RoleValue
| AdminStatus.

Definition admin_role_differs (reading : AdminReading) (live : OneBotMember.t)
    (member : BackupMember.t) : bool :=
  let live_role := get_default (OneBotMember.role live) "member" in
  match reading with
  | RoleValue => bool_decide (live_role ≠ Some (BackupMember.role member))
  | AdminStatus =>
      negb (eqb (bool_decide (live_role = Some "admin"%string))
                (bool_decide (BackupMember.role member = "admin"%string)))
  end.

(** Any of card, title and admin role differs from the live value and
    the corresponding restore flag is enabled; card and title are
    compared after null and the empty string are identified. *)
Definition attribute_differs (reading : AdminReading) (self : RebuildManager)
    (live : OneBotMember.t) (member : BackupMember.t) : bool :=
  (restore_cards self
   && bool_decide (or_empty (OneBotMember.card live)
                   ≠ or_empty (BackupMember.card member)))
  || (restore_titles self
      && bool_decide (or_empty (OneBotMember.title live)
                      ≠ or_empty (BackupMember.title member)))
  || (restore_admins self && admin_role_differs reading live member).

(** The classification of the specification, in its priority order. *)
Definition spec_bucket (reading : AdminReading) (self : RebuildManager)
    (bot_user_id : option Z) (roster : list OneBotMember.t) (friends : list Z)
    (member : BackupMember.t) : Bucket :=
  bucket_by (attribute_differs reading self) bot_user_id roster friends member.

(** *** As the preview has it *)

(** An enabled attribute is due to be restored: the card or the title
    differs from the live one after null and the empty string are
    identified, or the snapshot records the role admin and the live
    member is neither administrator nor owner. The admin role is only
    ever granted: a live administrator whom the snapshot records as an
    ordinary member is not a difference. *)
Definition restore_due (self : RebuildManager) (live : OneBotMember.t)
    (member : BackupMember.t) : bool :=
  (restore_cards self
   && bool_decide (or_empty (OneBotMember.card live)
                   ≠ or_empty (BackupMember.card member)))
  || (restore_titles self
      && bool_decide (or_empty (OneBotMember.title live)
                      ≠ or_empty (BackupMember.title member)))
  || (restore_admins self
      && bool_decide (BackupMember.role member = "admin")
      && bool_decide (get_default (OneBotMember.role live) "member"
                      ≠ Some "admin"%string)
      && bool_decide (get_default (OneBotMember.role live) "member"
                      ≠ Some "owner"%string)).

(** The classification with [restore_due] as the test. *)
Definition preview_bucket (self : RebuildManager) (bot_user_id : option Z)
    (roster : list OneBotMember.t) (friends : list Z)
    (member : BackupMember.t) : Bucket :=
  bucket_by (restore_due self) bot_user_id roster friends member.

(** A member of the target group who is an administrator there. *)
Definition live_admin (user_id : Z) (card : string) : OneBotMember.t :=
  OneBotMember.mk user_id (Str "n") (Some card) (Str "admin") None.

(** The scenario of the specification: snapshot members 1, 2, 3 with
    cards A, B, C; the live group has 1 with card A' and 2 with card B;
    the friend list is 3. *)
Definition scenario_snapshot : list BackupMember.t :=
  [snapshot_member 1 "A"; snapshot_member 2 "B"; snapshot_member 3 "C"].

Definition scenario_roster : list OneBotMember.t :=
  [live_member 1 "A'"; live_member 2 "B"].

Definition scenario (schedule : list (list Control)) : Script :=
  {| roster := scenario_roster;
     roster_error := None;
     login := inr (Some 99);
     friends := inr [3];
     card_rejected := [];
     schedule := schedule |}.


(** What an event shows of the run: the operation, the controls that
    arrived with it, and the status and [processed] of the job record
    a reader saw. *)
Definition glimpse (ev : Event)
    : Op.t * list Control * option (RebuildStatus.t * nat) :=
  (op ev, arrived ev,
   (λ p, (RebuildProgress.status p, RebuildProgress.processed p)) <$> seen ev).

(** The throttle sleeps and the progress callbacks among the events. *)
Definition is_throttle_or_callback (ev : Event) : bool :=
  match op ev with
  | Op.sleep _ | Op.progress_callback _ => true
  | _ => false
  end.


(** ** Vocabulary of the properties *)

(** A job record with its status blanked: what the external controls
    cannot alter. *)
Definition job_frame (p : RebuildProgress.t) : RebuildProgress.t :=
  RebuildProgress.set_status RebuildStatus.PENDING p.

(** Two views of the job record that agree up to the status. *)
Definition job_eq (o o' : option RebuildProgress.t) : Prop :=
  job_frame <$> o = job_frame <$> o'.

(** Two managers with the same configuration. *)
Definition same_config (s s' : RebuildManager) : Prop :=
  invites_per_minute s' = invites_per_minute s
  ∧ restore_admins s' = restore_admins s
  ∧ restore_cards s' = restore_cards s
  ∧ restore_titles s' = restore_titles s
  ∧ send_welcome s' = send_welcome s
  ∧ continue_on_error s' = continue_on_error s
  ∧ invite_interval s' = invite_interval s.

(** The counter bookkeeping of a job over [n] members that handles the
    members of [order] one after the other: [total] is [n], the three
    outcome counters add up to [processed], which does not exceed
    [total], and the outcomes recorded so far are those of the first
    [processed] members of [order], one each. *)
Definition counters_ok (n : nat) (order : list BackupMember.t)
    (p : RebuildProgress.t) : Prop :=
  RebuildProgress.total p = n
  ∧ RebuildProgress.processed p
    = (RebuildProgress.success p + RebuildProgress.failed p
       + RebuildProgress.skipped p)%nat
  ∧ (RebuildProgress.processed p ≤ RebuildProgress.total p)%nat
  ∧ length (RebuildProgress.results p) = RebuildProgress.processed p
  ∧ InviteResult.user_id <$> RebuildProgress.results p
    = take (RebuildProgress.processed p) (BackupMember.user_id <$> order).

(** The job record an event shows satisfies [φ]. *)
Definition sees (φ : RebuildProgress.t → Prop) (ev : Event) : Prop :=
  ∃ p, seen ev = Some p ∧ φ p.

Section Steps.
Context {Env : Type}.

(** The manager [s'] comes from [s] by the suspensions [evs]: each
    event shows the job record of the manager at that point, and the
    controls that arrived with it were applied. *)
Fixpoint chain (s : RebuildManager) (evs : list Event) (s' : RebuildManager)
    : Prop :=
  match evs with
  | [] => s' = s
  | ev :: evs' =>
      seen ev = _progress s ∧ chain (apply_controls (arrived ev) s) evs' s'
  end.

(** [w'] comes from [w] by suspensions only: events that satisfy [P]
    were recorded and the controls that arrived were applied, nothing
    else was written. *)
Definition suspended (P : Event → Prop) (w w' : World Env) : Prop :=
  ∃ evs, trace w' = trace w ++ evs
         ∧ Forall P evs
         ∧ chain (self w) evs (self w').

End Steps.

(** The operations [_restore_member_info] issues for a member. *)
Definition restore_op (group_id user_id : Z) (o : Op.t) : Prop :=
  match o with
  | Op.set_group_card g u _ | Op.set_group_special_title g u _ =>
      g = group_id ∧ u = user_id
  | Op.set_group_admin g u enable => g = group_id ∧ u = user_id ∧ enable = true
  | _ => False
  end.

Section EventOf.
Context {Env : Type} `{Environment Env}.

(** The event [await o] records in the world [w]. *)
Definition event_of (o : Op.t) (w : World Env) : Event :=
  {| op := o; seen := _progress (self w);
     arrived := controls (respond o (env w)) |}.

End EventOf.

(** The result [_invite_member] makes of the answer to
    [get_friend_list]. *)
Definition invite_outcome (member : BackupMember.t) (answer : string + Answer)
    : InviteResult.t :=
  match answer with
  | inr (Friends friends) =>
      if bool_decide (BackupMember.user_id member ∈ friends)
      then invite_result member InviteStatus.SUCCESS "已标记待邀请"
      else invite_result member InviteStatus.SKIPPED "非好友,无法邀请"
  | inr _ => invite_result member InviteStatus.FAILED "TypeError"
  | inl e => invite_result member InviteStatus.FAILED e
  end.

Section JobVocabulary.
Context {Env : Type}.

(** The manager of [w] holds a job record that satisfies [φ]. *)
Definition job_at (φ : RebuildProgress.t → Prop) (w : World Env) : Prop :=
  ∃ p, _progress (self w) = Some p ∧ φ p.

(** Every event [w'] has beyond those of [w] shows a job record that
    satisfies [φ]. *)
Definition events_ok (φ : RebuildProgress.t → Prop) (w w' : World Env) : Prop :=
  ∃ evs, trace w' = trace w ++ evs ∧ Forall (sees φ) evs.

End JobVocabulary.

(** The value a computation returned, if it did. *)
Definition returned {A : Type} (r : Res A) : option A :=
  match r with
  | Ok a => Some a
  | _ => None
  end.

(** What a final job record says: status, processed, total, and the
    users and statuses of the outcomes on record. *)
Definition report_of (p : RebuildProgress.t)
    : RebuildStatus.t * nat * nat * list (Z * InviteStatus.t) :=
  (RebuildProgress.status p, RebuildProgress.processed p,
   RebuildProgress.total p,
   (λ r, (InviteResult.user_id r, InviteResult.status r))
     <$> RebuildProgress.results p).

(** The job record [p'] is [p] with the outcome [r] of one more member
    on record: [processed] and the counter that matches the status of
    [r] are incremented, [r] is appended, [total] is unchanged. *)
Definition recorded (r : InviteResult.t) (p p' : RebuildProgress.t) : Prop :=
  RebuildProgress.total p' = RebuildProgress.total p
  ∧ RebuildProgress.processed p' = S (RebuildProgress.processed p)
  ∧ RebuildProgress.results p' = RebuildProgress.results p ++ [r]
  ∧ (RebuildProgress.success p', RebuildProgress.failed p',
     RebuildProgress.skipped p')
    = match InviteResult.status r with
      | InviteStatus.SUCCESS =>
          (S (RebuildProgress.success p), RebuildProgress.failed p,
           RebuildProgress.skipped p)
      | InviteStatus.FAILED =>
          (RebuildProgress.success p, S (RebuildProgress.failed p),
           RebuildProgress.skipped p)
      | _ =>
          (RebuildProgress.success p, RebuildProgress.failed p,
           S (RebuildProgress.skipped p))
      end.

(** The events of lines 637-642: the progress callback, if one was
    supplied, called with the job record as it then is (which satisfies
    [φ]), followed by the throttle sleep of [interval] seconds. *)
Definition throttle_tail (progress_callback : bool) (interval : Q)
    (φ : RebuildProgress.t → Prop) (tail : list Event) : Prop :=
  ∃ s, op s = Op.sleep interval
       ∧ if progress_callback
         then ∃ c q, tail = [c; s] ∧ op c = Op.progress_callback q
                     ∧ seen c = Some q ∧ φ q
         else tail = [s].

(** A failed invite stops the job when [continue_on_error] is off. *)
Definition stops_job (self : RebuildManager) (r : InviteResult.t) : bool :=
  bool_decide (InviteResult.status r = InviteStatus.FAILED)
  && negb (continue_on_error self).

Section Returning.
Context {Env : Type} `{Environment Env}.

(** The caller's progress callback returns normally. *)
Definition callback_returns : Prop :=
  ∀ (q : RebuildProgress.t) (e : Env),
    ∃ a, outcome (respond (Op.progress_callback q) e) = inr a.

(** [asyncio.sleep] returns normally. *)
Definition sleep_returns : Prop :=
  ∀ (seconds : Q) (e : Env), ∃ a, outcome (respond (Op.sleep seconds) e) = inr a.

(** No control arrives during any suspension. *)
Definition quiet : Prop :=
  ∀ (o : Op.t) (e : Env), controls (respond o e) = [].

End Returning.

Section Awaited.
Context {Env : Type}.

(** Every event [w'] has beyond those of [w] satisfies [P]. *)
Definition awaited (P : Event → Prop) (w w' : World Env) : Prop :=
  ∃ evs, trace w' = trace w ++ evs ∧ Forall P evs.

End Awaited.

(** The world in which a turn of the loop is taken on the scenario: the
    job over the three snapshot members has started and nothing has
    been processed yet. *)
Definition scenario_turn (e : Script) : World Script :=
  {| self := set_progress (Some (RebuildProgress.started 3))
                          (manager false true false false true);
     env := e;
     trace := [] |}.

(** A scripted environment that nobody controls: the answers are those
    of the script, and no control ever arrives. *)
Record Unattended := { script : Script }.

#[global] Instance unattended_environment : Environment Unattended := {|
  respond o e :=
    {| outcome := script_outcome (script e) o;
       controls := [];
       next_env := e |}
|}.

(** ** Rebuild manager: the command-line entry *)

Section RebuildFromBackup.
Context {Env : Type} `{Environment Env}.

(** [rebuild_from_backup], lines 166-209. [backup_members] are the
    member rows of the backup [backup_id]; [exclude_users] is [None]
    when the argument is left out. *)
Definition rebuild_from_backup (polls : nat) (backup_id target_group_id : Z)
    (backup_members : list BackupMember.t) (exclude_users : option (list Z))
    (progress_callback : bool) : M RebuildProgress.t :=
  let exclude_users := default [] exclude_users in
  match backup_members with
  | [] => raise ("备份 " +:+ pretty backup_id +:+ " 中没有成员数据")
  | _ :: _ =>
      let members_to_invite :=
        filter (λ m, BackupMember.user_id m ∉ exclude_users) backup_members in
      _rebuild_group polls target_group_id members_to_invite progress_callback
  end.

End RebuildFromBackup.

(** ** Backup manager: retention *)

(** [src/models/backup.py], class [Backup]: the columns
    [cleanup_old_backups] reads; [created_at] is a time stamp. *)
Module Backup.
Record t := mk {
  id : Z;
  group_id : Z;
  created_at : Z;
  file_path : option string
}.
End Backup.

Module Retention.

(** Python's [l[k:]] for an integer [k]: a negative [k] counts from the
    end of the list. *)
Definition slice_from {A : Type} (k : Z) (l : list A) : list A :=
  if bool_decide (0 ≤ k) then drop (Z.to_nat k) l
  else drop (Z.to_nat (Z.of_nat (length l) + k)) l.

(** The [backups] table and the backup files on disk (their paths). *)
Record Store := {
  rows : list Backup.t;
  files : gset string
}.

(** Lines 445-454, one turn: the file of the backup, if it records one
    and the file exists, is unlinked, and the row is deleted. *)
Definition delete_backup (st : Store) (backup : Backup.t) : Store :=
  {| rows := filter (λ b, Backup.id b ≠ Backup.id backup) (rows st);
     files :=
       match Backup.file_path backup with
       | Some path => if nonempty path then files st ∖ {[path]} else files st
       | None => files st
       end |}.

(** [cleanup_old_backups], lines 424-457. [backups] is the answer to
    the query of lines 434-439: the backups of the group, the most
    recent first. *)
Definition cleanup_old_backups (backups : list Backup.t) (keep_count : Z)
    (st : Store) : Store :=
  if bool_decide (Z.of_nat (length backups) ≤ keep_count) then st
  else fold_left delete_backup (slice_from keep_count backups) st.

(** What the query of lines 434-439 answers on the table [table] for
    the group [group_id]: the rows of the group, in an order in which
    [created_at] never increases. *)
Definition selected (table : list Backup.t) (group_id : Z)
    (backups : list Backup.t) : Prop :=
  backups ≡ₚ filter (λ b, Backup.group_id b = group_id) table
  ∧ Sorted (λ b b', Backup.created_at b' ≤ Backup.created_at b) backups.

(** A table for examples: three backups of group 7 and one of group 8,
    with the query answer for group 7. *)
Definition example_store : Store :=
  {| rows := [Backup.mk 1 7 10 (Some "a"%string);
              Backup.mk 2 7 30 (Some "b"%string);
              Backup.mk 3 8 20 None;
              Backup.mk 4 7 20 (Some "c"%string)];
     files := {["a"%string; "b"%string; "c"%string]} |}.

Definition example_answer : list Backup.t :=
  [Backup.mk 2 7 30 (Some "b"%string);
   Backup.mk 4 7 20 (Some "c"%string);
   Backup.mk 1 7 10 (Some "a"%string)].

End Retention.

(** ** Vocabulary of the further properties *)

#[global] Instance bucket_eq_dec : EqDecision Bucket.
Proof. solve_decision. Defined.

(** The counters of a preview of [n] members agree with its entries:
    there is one entry per member; every member is counted once, as the
    bot itself, as already in the group, or as not invitable; each
    counter is the number of entries of its kind; the three restore
    counters add up to the number of itemised changes, each of them
    counting at most one change per member already in the group. *)
Definition stats_agree (n : nat) (s : Stats) (cs : list Change) : Prop :=
  length cs = n
  ∧ (will_skip_bot s + will_skip_already_in s + cannot_invite s)%nat = n
  ∧ will_skip_bot s
    = length (filter (λ c, bucket_of c = Some SkipBotSelf) cs)
  ∧ will_skip_already_in s
    = length (filter (λ c, bucket_of c = Some RestoreInfo
                           ∨ bucket_of c = Some SkipNoChange) cs)
  ∧ will_skip_not_friend s
    = length (filter (λ c, bucket_of c = Some CannotInviteNotFriend) cs)
  ∧ cannot_invite s
    = length (filter (λ c, bucket_of c = Some CannotInviteNotFriend
                           ∨ bucket_of c = Some NeedsManualInvite) cs)
  ∧ (will_restore_card s + will_restore_title s + will_restore_admin s)%nat
    = sum_list_with (λ c, length (change_details c)) cs
  ∧ (will_restore_card s ≤ will_skip_already_in s)%nat
  ∧ (will_restore_title s ≤ will_skip_already_in s)%nat
  ∧ (will_restore_admin s ≤ will_skip_already_in s)%nat
  ∧ (will_skip_not_friend s ≤ cannot_invite s)%nat.

#[global] Instance control_eq_dec : EqDecision Control.
Proof. solve_decision. Defined.

(** The status a control writes into the job record. *)
Definition status_after (c : Control) : RebuildStatus.t :=
  match c with
  | Cancel => RebuildStatus.CANCELLED
  | Pause => RebuildStatus.PAUSED
  | Resume => RebuildStatus.RUNNING
  end.


Section CancelVocabulary.
Context {Env : Type}.


End CancelVocabulary.

(** The calls [_restore_member_info] makes for a member, in order: one
    per enabled attribute, the administrator call only for a row with
    role admin. *)
Definition restore_plan (self : RebuildManager) (group_id : Z)
    (member : BackupMember.t) : list Op.t :=
  (if restore_cards self
   then [Op.set_group_card group_id (BackupMember.user_id member)
           (or_empty (BackupMember.card member))]
   else [])
  ++ (if restore_titles self
      then [Op.set_group_special_title group_id (BackupMember.user_id member)
              (or_empty (BackupMember.title member))]
      else [])
  ++ (if restore_admins self
         && bool_decide (BackupMember.role member = "admin"%string)
      then [Op.set_group_admin group_id (BackupMember.user_id member) true]
      else []).

(** The operations of the prologue and of the epilogue of a run on the
    group [group_id]: the roster and login reads and the notices. *)
Definition frame_op (group_id : Z) (o : Op.t) : Prop :=
  match o with
  | Op.get_group_member_list g no_cache => g = group_id ∧ no_cache = true
  | Op.get_login_info => True
  | Op.send_group_msg g _ => g = group_id
  | _ => False
  end.

(** An environment that is out of reach: every operation raises, and no
    control arrives. *)
Inductive Offline := offline.

#[global] Instance offline_environment : Environment Offline := {|
  respond o e :=
    {| outcome := inl "offline"%string; controls := []; next_env := e |}
|}.

(** * Properties *)

(** ** The membership diff *)

Module BackupManagerFacts.
Import BackupManager.

Section Index.
Context {A : Type} (key : A → Z).

Lemma by_user_id_snoc (l : list A) (x : A) :
  by_user_id key (l ++ [x]) = <[key x := x]> (by_user_id key l).
Proof. unfold by_user_id. by rewrite fold_left_app. Qed.

Lemma elem_of_dom_by_user_id (l : list A) (uid : Z) :
  uid ∈ dom (by_user_id key l) ↔ uid ∈ key <$> l.
Proof.
  induction l as [|x l IH] using rev_ind.
  - unfold by_user_id; simpl. rewrite dom_empty. set_solver.
  - rewrite by_user_id_snoc, dom_insert, fmap_app. simpl.
    rewrite elem_of_union, elem_of_singleton, elem_of_app, IH.
    rewrite list_elem_of_singleton. tauto.
Qed.

Lemma elem_of_id_set (l : list A) (uid : Z) :
  uid ∈ id_set key l ↔ uid ∈ key <$> l.
Proof.
  induction l as [|x l IH] using rev_ind.
  - unfold id_set; simpl. set_solver.
  - unfold id_set in *. rewrite fold_left_app, fmap_app. simpl.
    rewrite elem_of_union, elem_of_singleton, elem_of_app, IH.
    rewrite list_elem_of_singleton. tauto.
Qed.

(** A key of the dictionary maps to the last row that carries it. *)
Lemma by_user_id_lookup (l : list A) (uid : Z) :
  by_user_id key l !! uid = last (filter (λ x, key x = uid) l).
Proof.
  induction l as [|x l IH] using rev_ind; [done|].
  rewrite by_user_id_snoc, filter_app.
  destruct (decide (key x = uid)) as [Heq|Hne].
  - rewrite Heq, lookup_insert_eq.
    rewrite filter_cons_True, filter_nil by done. by rewrite last_snoc.
  - rewrite lookup_insert_ne by done.
    rewrite filter_cons_False, filter_nil by done. by rewrite app_nil_r.
Qed.

End Index.

(** Reading back the ids of a list of ids through a dictionary that has
    them all gives the list itself. *)
Lemma omap_lookup_ids {A : Type} (m : gmap Z A) (ids : list Z) :
  (∀ uid, uid ∈ ids → is_Some (m !! uid)) →
  (omap (λ uid, pair uid <$> m !! uid) ids).*1 = ids.
Proof.
  induction ids as [|i ids IH]; intros Hall; [done|].
  simpl. destruct (Hall i) as [x Hx]; [set_solver|].
  rewrite Hx. simpl. f_equal. apply IH. intros uid Hin. apply Hall. set_solver.
Qed.

(** C2. For two member collections [old] and [new], the diff of
    [compare_backups] (diffSnapshots) has joined = newKeys - oldKeys,
    left = oldKeys - newKeys, remained = oldKeys ∩ newKeys, with joined
    and left disjoint, and its answer lists exactly those ids; the diff
    inside [backup_group] (createSnapshot) computes joined and left the
    same way, again disjoint, and the old members it does not report as
    left are those of oldKeys ∩ newKeys. The keys of a collection are
    the user ids of its rows. *)
Theorem diff_sets_correct (old new : list BackupMember.t)
    (old_rows : list Member.t) (members_data : list OneBotMember.t) :
  let s := compare_sets old new in
  let r := compare_backups old new in
  let d := backup_group_diff old_rows members_data in
  (∀ uid, uid ∈ joined s ↔
     uid ∈ BackupMember.user_id <$> new ∧ uid ∉ BackupMember.user_id <$> old)
  ∧ (∀ uid, uid ∈ left s ↔
       uid ∈ BackupMember.user_id <$> old ∧ uid ∉ BackupMember.user_id <$> new)
  ∧ (∀ uid, uid ∈ remained s ↔
       uid ∈ BackupMember.user_id <$> old ∧ uid ∈ BackupMember.user_id <$> new)
  ∧ joined s ∩ left s = ∅
  ∧ (cmp_joined r).*1 = elements (joined s)
  ∧ (cmp_left r).*1 = elements (left s)
  ∧ cmp_remained r = size (remained s)
  ∧ (∀ uid, uid ∈ joined_ids d ↔
       uid ∈ OneBotMember.user_id <$> members_data
       ∧ uid ∉ Member.user_id <$> old_rows)
  ∧ (∀ uid, uid ∈ left_ids d ↔
       uid ∈ Member.user_id <$> old_rows
       ∧ uid ∉ OneBotMember.user_id <$> members_data)
  ∧ joined_ids d ∩ left_ids d = ∅
  ∧ (∀ uid, uid ∈ Member.user_id <$> old_rows ∧ uid ∉ left_ids d ↔
       uid ∈ Member.user_id <$> old_rows
       ∧ uid ∈ OneBotMember.user_id <$> members_data)
  ∧ new_members d = size (joined_ids d)
  ∧ left_members d = size (left_ids d).
Proof.
  intros s r d. subst s r d.
  unfold compare_backups, compare_sets, backup_group_diff. simpl.
  split_and!.
  - intros uid. rewrite elem_of_difference, !elem_of_dom_by_user_id. tauto.
  - intros uid. rewrite elem_of_difference, !elem_of_dom_by_user_id. tauto.
  - intros uid. rewrite elem_of_intersection, !elem_of_dom_by_user_id. tauto.
  - apply set_eq. intros uid.
    rewrite elem_of_intersection, !elem_of_difference, elem_of_empty. tauto.
  - apply omap_lookup_ids. intros uid Hin.
    apply elem_of_elements, elem_of_difference in Hin as [Hin _].
    by apply elem_of_dom.
  - apply omap_lookup_ids. intros uid Hin.
    apply elem_of_elements, elem_of_difference in Hin as [Hin _].
    by apply elem_of_dom.
  - reflexivity.
  - intros uid.
    rewrite elem_of_difference, elem_of_id_set, elem_of_dom_by_user_id. tauto.
  - intros uid.
    rewrite elem_of_difference, elem_of_id_set, elem_of_dom_by_user_id. tauto.
  - apply set_eq. intros uid.
    rewrite elem_of_intersection, !elem_of_difference, elem_of_empty. tauto.
  - intros uid.
    rewrite elem_of_difference, elem_of_id_set, elem_of_dom_by_user_id.
    destruct (decide (uid ∈ OneBotMember.user_id <$> members_data)); tauto.
  - reflexivity.
  - reflexivity.
Qed.

(** C8. [compare_backups] compares the stored card values as they are:
    for a member whose card is null in the old backup and the empty
    string in the new one, it reports a card change. *)
Theorem compare_backups_null_vs_empty_card :
  card_changed
    (compare_backups [BackupMember.mk 1 "n" None "member" None]
                     [BackupMember.mk 1 "n" (Some EmptyString) "member" None])
  = [{| cc_user_id := 1; old_card := None; new_card := Some EmptyString |}].
Proof. vm_compute. reflexivity. Qed.

End BackupManagerFacts.

(** ** The monad of the manager *)

Lemma manager_from_init (admins cards titles welcome continue : bool) :
  RebuildManager_init 10 admins cards titles welcome continue
  = Some (manager admins cards titles welcome continue).
Proof. reflexivity. Qed.

Section RunFacts.
Context {Env : Type} `{Environment Env}.

(** The controls leave the configuration of the manager alone. *)
Lemma apply_controls_config (cs : list Control) (s : RebuildManager) :
  restore_cards (apply_controls cs s) = restore_cards s
  ∧ restore_titles (apply_controls cs s) = restore_titles s
  ∧ restore_admins (apply_controls cs s) = restore_admins s
  ∧ send_welcome (apply_controls cs s) = send_welcome s
  ∧ continue_on_error (apply_controls cs s) = continue_on_error s
  ∧ invite_interval (apply_controls cs s) = invite_interval s.
Proof.
  revert s. induction cs as [|c cs IH]; intros s; [done|].
  unfold apply_controls in *. simpl. destruct (IH (apply_control s c)) as (?&?&?&?&?&?).
  destruct c; simpl in *; split_and!; congruence.
Qed.

(** What one [await] does to the world. *)
Lemma await_world (o : Op.t) (w : World Env) :
  (await o w).2 =
    {| self := apply_controls (controls (respond o (env w))) (self w);
       env := next_env (respond o (env w));
       trace := trace w ++ [{| op := o; seen := _progress (self w);
                               arrived := controls (respond o (env w)) |}] |}.
Proof. unfold await. by destruct (outcome (respond o (env w))). Qed.

Lemma await_result (o : Op.t) (w : World Env) :
  (await o w).1 =
    match outcome (respond o (env w)) with
    | inl e => Raise e
    | inr a => Ok a
    end.
Proof. unfold await. by destruct (outcome (respond o (env w))). Qed.

(** Stepping through a sequence. *)
Lemma bind_modify_progress {B : Type} (f : RebuildProgress.t → RebuildProgress.t)
    (k : unit → M B) (w : World Env) :
  bind (modify_progress f) k w = k tt (modify_progress f w).2.
Proof. reflexivity. Qed.

Lemma bind_gets {A B : Type} (f : RebuildManager → A) (k : A → M B)
    (w : World Env) :
  bind (gets f) k w = k (f (self w)) w.
Proof. reflexivity. Qed.

Lemma bind_ret {A B : Type} (a : A) (k : A → M B) (w : World Env) :
  bind (ret a) k w = k a w.
Proof. reflexivity. Qed.

Lemma bind_bind {A B C : Type} (m : M A) (k1 : A → M B) (k2 : B → M C)
    (w : World Env) :
  bind (bind m k1) k2 w = bind m (λ a, bind (k1 a) k2) w.
Proof. unfold bind. by destruct (m w) as [[a|e|] w1]. Qed.

Lemma bind_ok {A B : Type} (m : M A) (k : A → M B) (w w1 : World Env) (a : A) :
  m w = (Ok a, w1) → bind m k w = k a w1.
Proof. unfold bind. by intros ->. Qed.

Lemma bind_raise {A B : Type} (m : M A) (k : A → M B) (w w1 : World Env)
    (e : string) :
  m w = (Raise e, w1) → bind m k w = (Raise e, w1).
Proof. unfold bind. by intros ->. Qed.

Lemma bind_polling {A B : Type} (m : M A) (k : A → M B) (w w1 : World Env) :
  m w = (Polling, w1) → bind m k w = (Polling, w1).
Proof. unfold bind. by intros ->. Qed.

Lemma bind_get_progress {B : Type} (k : RebuildProgress.t → M B)
    (w : World Env) (p : RebuildProgress.t) :
  _progress (self w) = Some p → bind get_progress k w = k p w.
Proof. unfold bind, get_progress. by intros ->. Qed.

End RunFacts.

(** ** The dry run *)

Section DryRunFacts.
Context {Env : Type} `{Environment Env}.

(** The entry a member gets does not depend on the running counters. *)
Lemma dry_run_member_change (self : RebuildManager) (bot_user_id : option Z)
    (current_map : gmap Z OneBotMember.t) (friend_ids : gset Z)
    (member : BackupMember.t) (s s' : Stats) :
  (dry_run_member self bot_user_id current_map friend_ids member s).2
  = (dry_run_member self bot_user_id current_map friend_ids member s').2.
Proof. unfold dry_run_member. repeat case_match; done. Qed.

Lemma dry_run_fold_changes (self : RebuildManager) (bot_user_id : option Z)
    (current_map : gmap Z OneBotMember.t) (friend_ids : gset Z)
    (s0 : Stats) (ms : list BackupMember.t) (acc : Stats * list Change) :
  (fold_left
     (λ acc member,
        let r := dry_run_member self bot_user_id current_map friend_ids
                                member acc.1 in
        (r.1, acc.2 ++ [r.2]))
     ms acc).2
  = acc.2 ++ map (λ m, (dry_run_member self bot_user_id current_map
                                        friend_ids m s0).2) ms.
Proof.
  revert acc. induction ms as [|m ms IH]; intros acc; simpl.
  - by rewrite app_nil_r.
  - rewrite IH. simpl. rewrite <- app_assoc. simpl.
    by rewrite (dry_run_member_change _ _ _ _ _ acc.1 s0).
Qed.

Lemma dry_run_member_user_id (self : RebuildManager) (bot_user_id : option Z)
    (current_map : gmap Z OneBotMember.t) (friend_ids : gset Z)
    (member : BackupMember.t) (s : Stats) :
  change_user_id (dry_run_member self bot_user_id current_map friend_ids member s).2
  = BackupMember.user_id member.
Proof. unfold dry_run_member. repeat case_match; done. Qed.

Lemma detail_nil_card (live : OneBotMember.t) (m : BackupMember.t) :
  card_detail live m = []
  ↔ or_empty (OneBotMember.card live) = or_empty (BackupMember.card m).
Proof. unfold card_detail. case_bool_decide; split; intros; congruence. Qed.

Lemma detail_nil_title (live : OneBotMember.t) (m : BackupMember.t) :
  title_detail live m = []
  ↔ or_empty (OneBotMember.title live) = or_empty (BackupMember.title m).
Proof. unfold title_detail. case_bool_decide; split; intros; congruence. Qed.

(** The entry the loop body appends stands for the bucket of
    [preview_bucket]. *)
Lemma dry_run_member_bucket (self : RebuildManager) (bot_user_id : option Z)
    (roster : list OneBotMember.t) (friends : list Z)
    (member : BackupMember.t) (s : Stats) :
  bucket_of
    (dry_run_member self bot_user_id
       (BackupManager.by_user_id OneBotMember.user_id roster)
       (list_to_set friends) member s).2
  = Some (preview_bucket self bot_user_id roster friends member).
Proof.
  unfold dry_run_member, preview_bucket, bucket_by.
  rewrite BackupManagerFacts.by_user_id_lookup. fold (live_record roster (BackupMember.user_id member)).
  destruct (decide (Some (BackupMember.user_id member) = bot_user_id)) as [Hb|Hb].
  { rewrite !bool_decide_eq_true_2 by done. reflexivity. }
  rewrite (bool_decide_eq_false_2 (Some _ = bot_user_id)) by done.
  rewrite (bool_decide_eq_false_2 (bot_user_id = Some _)) by congruence.
  destruct (live_record roster (BackupMember.user_id member)) as [live|].
  - unfold restore_due.
    pose proof (detail_nil_card live member) as Hc.
    pose proof (detail_nil_title live member) as Ht.
    destruct (restore_cards self), (restore_titles self), (restore_admins self);
      simpl; unfold admin_detail;
      repeat (case_bool_decide; simpl);
      destruct (card_detail live member) eqn:Ec;
      destruct (title_detail live member) eqn:Et; simpl;
      try reflexivity;
      try (exfalso; intuition congruence).
  - destruct (decide (BackupMember.user_id member ∈ friends)) as [Hf|Hf].
    + rewrite bool_decide_eq_false_2 by (rewrite elem_of_list_to_set; tauto).
      rewrite bool_decide_eq_true_2 by done. reflexivity.
    + rewrite bool_decide_eq_true_2 by (by rewrite elem_of_list_to_set).
      rewrite bool_decide_eq_false_2 by done. reflexivity.
Qed.

End DryRunFacts.

Section DryRunTheorems.
Context {Env : Type} `{Environment Env}.

Lemma preview_bucket_config (s s' : RebuildManager) (bot_user_id : option Z)
    (roster : list OneBotMember.t) (friends : list Z) (m : BackupMember.t) :
  restore_cards s' = restore_cards s →
  restore_titles s' = restore_titles s →
  restore_admins s' = restore_admins s →
  preview_bucket s' bot_user_id roster friends m
  = preview_bucket s bot_user_id roster friends m.
Proof.
  intros Hc Ht Ha. unfold preview_bucket, bucket_by, restore_due.
  by rewrite Hc, Ht, Ha.
Qed.

(** C3, as the code has it. Whenever the roster of the target group
    can be fetched, the preview has exactly one entry per snapshot
    member, in order, and the entry stands for the bucket the priority
    order assigns: bot itself; present in the target group (restore if
    an enabled attribute is due to be restored, else no change
    needed); absent and not a friend; absent and a friend. An
    attribute is due in the sense of [restore_due]: card and title
    when they differ from the live value after null and the empty
    string are identified, the admin role only when the snapshot
    records it and the live member is neither administrator nor
    owner. On the scenario of the specification the entries are
    restore for 1, no change needed for 2 and needs manual invite for
    3. *)
Theorem dry_run_classification :
  (∀ (w : World Env) (group_id : Z) (backup_members : list BackupMember.t)
     (live : list OneBotMember.t),
     let r1 := respond (Op.get_group_member_list group_id true) (env w) in
     let r2 := respond Op.get_login_info (next_env r1) in
     let r3 := respond Op.get_friend_list (next_env r2) in
     let bot := match outcome r2 with inr (Login b) => b | _ => None end in
     let friends := match outcome r3 with inr (Friends f) => f | _ => [] end in
     outcome r1 = inr (Members live) →
     ∃ preview w',
       _dry_run_rebuild group_id backup_members w = (Ok preview, w')
       ∧ change_user_id <$> changes preview
         = BackupMember.user_id <$> backup_members
       ∧ bucket_of <$> changes preview
         = (λ m, Some (preview_bucket (self w) bot live friends m))
             <$> backup_members)
  ∧ (∃ preview w',
       _dry_run_rebuild 7 scenario_snapshot
         (start (manager false true false true true) (scenario []))
       = (Ok preview, w')
       ∧ (λ c, (change_user_id c, bucket_of c)) <$> changes preview
         = [(1, Some RestoreInfo); (2, Some SkipNoChange);
            (3, Some NeedsManualInvite)]).
Proof.
  split.
  - intros w group_id backup_members live r1 r2 r3 bot friends Hlive.
    destruct (apply_controls_config (controls r1) (self w)) as (Hc1&Ht1&Ha1&_).
    destruct (apply_controls_config (controls r2)
                (apply_controls (controls r1) (self w))) as (Hc2&Ht2&Ha2&_).
    destruct (apply_controls_config (controls r3)
                (apply_controls (controls r2)
                   (apply_controls (controls r1) (self w)))) as (Hc3&Ht3&Ha3&_).
    unfold _dry_run_rebuild, dry_run_loop, get_group_member_list,
      get_login_info, get_friend_list, bind, try_except, ret, gets, raise, await.
    fold r1. rewrite Hlive. cbn -[respond]. fold r1 r2.
    subst bot friends.
    destruct (outcome r2) as [e2|[| bot | |]]; cbn -[respond]; fold r1 r2 r3;
      destruct (outcome r3) as [e3|[| | friends |]]; cbn -[respond];
      (eexists _, _; split; [reflexivity|]); cbn -[respond];
      rewrite (dry_run_fold_changes _ _ _ _
                 {| total_backup_members := 0; current_members := 0;
                    will_skip_bot := 0; will_skip_already_in := 0;
                    will_skip_not_friend := 0; will_restore_card := 0;
                    will_restore_title := 0; will_restore_admin := 0;
                    cannot_invite := 0 |}); cbn -[respond];
      rewrite <- !list_fmap_compose;
      (split; apply list_fmap_ext; intros i m _; cbn -[respond];
       [apply dry_run_member_user_id|]).
    all: try change (∅ : gset Z) with (list_to_set (@nil Z) : gset Z).
    all: rewrite dry_run_member_bucket; f_equal;
      apply preview_bucket_config; congruence.
  - eexists _, _. split; [vm_compute; reflexivity|]. vm_compute. reflexivity.
Qed.
End DryRunTheorems.

(** ** Suspensions *)

Section SuspendFacts.
Context {Env : Type} `{Environment Env}.

Lemma same_config_refl (s : RebuildManager) : same_config s s.
Proof. by repeat split. Qed.

Lemma same_config_trans (s1 s2 s3 : RebuildManager) :
  same_config s1 s2 → same_config s2 s3 → same_config s1 s3.
Proof.
  unfold same_config. intros (?&?&?&?&?&?&?) (?&?&?&?&?&?&?).
  split_and!; congruence.
Qed.

Lemma apply_controls_same_config (cs : list Control) (s : RebuildManager) :
  same_config s (apply_controls cs s).
Proof.
  revert s. induction cs as [|c cs IH]; intros s; [apply same_config_refl|].
  eapply same_config_trans; [|apply (IH (apply_control s c))].
  destruct c; by repeat split.
Qed.

Lemma job_eq_trans (o1 o2 o3 : option RebuildProgress.t) :
  job_eq o1 o2 → job_eq o2 o3 → job_eq o1 o3.
Proof. unfold job_eq. congruence. Qed.

Lemma job_eq_set_status (st : RebuildStatus.t) (o : option RebuildProgress.t) :
  job_eq o (RebuildProgress.set_status st <$> o).
Proof. by destruct o. Qed.

Lemma apply_controls_job_eq (cs : list Control) (s : RebuildManager) :
  job_eq (_progress s) (_progress (apply_controls cs s)).
Proof.
  revert s. induction cs as [|c cs IH]; intros s; [done|].
  eapply job_eq_trans; [|apply (IH (apply_control s c))].
  destruct c; apply job_eq_set_status.
Qed.

(** A job record seen up to its status is a job record. *)
Lemma job_eq_some (p : RebuildProgress.t) (o : option RebuildProgress.t) :
  job_eq (Some p) o → ∃ p', o = Some p' ∧ job_frame p' = job_frame p.
Proof.
  unfold job_eq. destruct o as [p'|]; simpl; intros Heq; [|done].
  exists p'. split; [done|]. congruence.
Qed.

Lemma chain_app (s1 s2 s3 : RebuildManager) (evs1 evs2 : list Event) :
  chain s1 evs1 s2 → chain s2 evs2 s3 → chain s1 (evs1 ++ evs2) s3.
Proof.
  revert s1. induction evs1 as [|ev evs1 IH]; intros s1; simpl.
  - by intros ->.
  - intros [Hs Hc] H2. split; [done|]. by apply IH.
Qed.

(** Along a chain the configuration stays, and every event shows the
    job record of the start up to its status, as does the end. *)
Lemma chain_frame (s s' : RebuildManager) (evs : list Event) :
  chain s evs s' →
  same_config s s'
  ∧ job_eq (_progress s) (_progress s')
  ∧ Forall (λ ev, job_eq (_progress s) (seen ev)) evs.
Proof.
  revert s. induction evs as [|ev evs IH]; intros s; simpl.
  - intros ->. split; [apply same_config_refl|]. split; [done|constructor].
  - intros [Hs Hc]. destruct (IH _ Hc) as (Hcfg & Hj & Hall).
    pose proof (apply_controls_same_config (arrived ev) s) as Hcfg0.
    pose proof (apply_controls_job_eq (arrived ev) s) as Hj0.
    split; [by eapply same_config_trans|].
    split; [by eapply job_eq_trans|].
    constructor; [by rewrite Hs|].
    eapply Forall_impl; [exact Hall|]. intros ev' Hev'. by eapply job_eq_trans.
Qed.

(** Without controls nothing changes at all. *)
Lemma chain_quiet (s s' : RebuildManager) (evs : list Event) :
  Forall (λ ev, arrived ev = []) evs →
  chain s evs s' →
  s' = s ∧ Forall (λ ev, seen ev = _progress s) evs.
Proof.
  revert s. induction evs as [|ev evs IH]; intros s Hq; simpl.
  - by intros ->.
  - intros [Hs Hc]. inversion Hq as [|? ? Hq1 Hq2]; subst.
    rewrite Hq1 in Hc. simpl in Hc. destruct (IH _ Hq2 Hc) as [-> Hall].
    split; [done|]. by constructor.
Qed.

Lemma suspended_refl (P : Event → Prop) (w : World Env) : suspended P w w.
Proof. exists []. by rewrite app_nil_r. Qed.

Lemma suspended_trans (P : Event → Prop) (w1 w2 w3 : World Env) :
  suspended P w1 w2 → suspended P w2 w3 → suspended P w1 w3.
Proof.
  intros (evs1 & Ht1 & Hall1 & Hc1) (evs2 & Ht2 & Hall2 & Hc2).
  exists (evs1 ++ evs2). split; [by rewrite Ht2, Ht1, app_assoc|].
  split; [by apply Forall_app|]. by eapply chain_app.
Qed.

Lemma await_suspended (P : Event → Prop) (o : Op.t) (w : World Env) :
  P {| op := o; seen := _progress (self w);
       arrived := controls (respond o (env w)) |} →
  suspended P w (await o w).2.
Proof.
  intros HP. rewrite await_world. eexists. split; [reflexivity|].
  split; [by repeat constructor|]. by simpl.
Qed.

(** Sequencing: if [m] only suspends and each continuation only
    suspends, so does [bind m k]. *)
Lemma bind_suspended {A B : Type} (P : Event → Prop) (m : M A) (k : A → M B)
    (w : World Env) :
  suspended P w (m w).2 →
  (∀ a w1, m w = (Ok a, w1) → suspended P w1 (k a w1).2) →
  suspended P w (bind m k w).2.
Proof.
  intros Hm Hk. unfold bind.
  destruct (m w) as [[a|e|] w1] eqn:E; simpl in *; try done.
  eapply suspended_trans; [exact Hm|]. by apply Hk.
Qed.

Lemma try_except_suspended {A : Type} (P : Event → Prop) (m : M A)
    (h : string → M A) (w : World Env) :
  suspended P w (m w).2 →
  (∀ e w1, m w = (Raise e, w1) → suspended P w1 (h e w1).2) →
  suspended P w (try_except m h w).2.
Proof.
  intros Hm Hh. unfold try_except.
  destruct (m w) as [[a|e|] w1] eqn:E; simpl in *; try done.
  eapply suspended_trans; [exact Hm|]. by apply Hh.
Qed.

End SuspendFacts.

Section ClientFacts.
Context {Env : Type} `{Environment Env}.

Lemma get_group_member_list_suspended (P : Event → Prop) (g : Z) (b : bool)
    (w : World Env) :
  P {| op := Op.get_group_member_list g b; seen := _progress (self w);
       arrived := controls (respond (Op.get_group_member_list g b) (env w)) |} →
  suspended P w (get_group_member_list g b w).2.
Proof.
  intros HP. apply bind_suspended; [by apply await_suspended|].
  intros a w1 _. destruct a; apply suspended_refl.
Qed.

Lemma get_login_info_suspended (P : Event → Prop) (w : World Env) :
  P {| op := Op.get_login_info; seen := _progress (self w);
       arrived := controls (respond Op.get_login_info (env w)) |} →
  suspended P w (get_login_info w).2.
Proof.
  intros HP. apply bind_suspended; [by apply await_suspended|].
  intros a w1 _. destruct a; apply suspended_refl.
Qed.

Lemma get_friend_list_suspended (P : Event → Prop) (w : World Env) :
  P {| op := Op.get_friend_list; seen := _progress (self w);
       arrived := controls (respond Op.get_friend_list (env w)) |} →
  suspended P w (get_friend_list w).2.
Proof.
  intros HP. apply bind_suspended; [by apply await_suspended|].
  intros a w1 _. destruct a; apply suspended_refl.
Qed.

(** The dry run only suspends in the three read calls. *)
Lemma dry_run_suspended (group_id : Z) (backup_members : list BackupMember.t)
    (w : World Env) :
  suspended (λ ev, Op.read_call (op ev) = true) w
            (_dry_run_rebuild group_id backup_members w).2.
Proof.
  unfold _dry_run_rebuild.
  apply bind_suspended.
  { apply try_except_suspended.
    - apply bind_suspended; [by apply get_group_member_list_suspended|].
      intros; apply suspended_refl.
    - intros; apply suspended_refl. }
  intros current_map w1 _.
  apply bind_suspended.
  { apply try_except_suspended; [by apply get_login_info_suspended|].
    intros; apply suspended_refl. }
  intros bot w2 _.
  apply bind_suspended.
  { apply try_except_suspended.
    - apply bind_suspended; [by apply get_friend_list_suspended|].
      intros; apply suspended_refl.
    - intros; apply suspended_refl. }
  intros friends w3 _.
  apply bind_suspended; [apply suspended_refl|].
  intros s w4 _. apply suspended_refl.
Qed.

Lemma read_call_not_mutating (o : Op.t) :
  Op.read_call o = true → Op.mutating o = false.
Proof. by destruct o. Qed.

Lemma suspended_read_only (w w' : World Env) :
  suspended (λ ev, Op.read_call (op ev) = true) w w' →
  ∃ evs, trace w' = trace w ++ evs
         ∧ Forall (λ ev, Op.read_call (op ev) = true
                         ∧ Op.mutating (op ev) = false) evs.
Proof.
  intros (evs & Ht & Hall & _). exists evs. split; [done|].
  eapply Forall_impl; [exact Hall|]. intros ev Hr.
  split; [done|]. by apply read_call_not_mutating.
Qed.

(** C4. A dry run issues read calls only: whatever the environment
    answers, every operation [_dry_run_rebuild] awaits is one of
    [get_group_member_list], [get_login_info], [get_friend_list], none
    is a mutating call ([set_group_card], [set_group_special_title],
    [set_group_admin], [send_group_msg]); the same holds for
    [rebuild_group] called with [dry_run=True]. *)
Theorem dry_run_read_only (w : World Env) (polls : nat)
    (group_id backup_id : Z) (backup : option Z)
    (backup_members : list BackupMember.t) (target_group_id : option Z)
    (cards titles admins : bool) :
  (∃ evs,
     trace (_dry_run_rebuild group_id backup_members w).2 = trace w ++ evs
     ∧ Forall (λ ev, Op.read_call (op ev) = true
                     ∧ Op.mutating (op ev) = false) evs)
  ∧ (∃ evs,
       trace (rebuild_group polls group_id backup_id backup backup_members
                target_group_id cards titles admins true w).2
       = trace w ++ evs
       ∧ Forall (λ ev, Op.read_call (op ev) = true
                       ∧ Op.mutating (op ev) = false) evs).
Proof.
  split.
  - apply suspended_read_only, dry_run_suspended.
  - unfold rebuild_group, bind, modify, raise, ret. simpl.
    destruct backup as [g|]; [|by exists []; rewrite app_nil_r].
    case_bool_decide; [by exists []; rewrite app_nil_r|].
    destruct backup_members as [|m ms]; [by exists []; rewrite app_nil_r|].
    match goal with
    | |- context [_dry_run_rebuild ?g ?l ?w0] =>
        destruct (suspended_read_only w0 (_dry_run_rebuild g l w0).2
                    (dry_run_suspended g l w0)) as (evs & Ht & Hall);
        destruct (_dry_run_rebuild g l w0) as [[pv|e|] w1]
    end; simpl in *; by exists evs.
Qed.

End ClientFacts.

(** ** The member operations *)

Section MemberFacts.
Context {Env : Type} `{Environment Env}.

Lemma await_event (P : Event → Prop) (o : Op.t) (w : World Env) :
  P (event_of o w) → suspended P w (await o w).2.
Proof. apply await_suspended. Qed.

(** A guarded call [try: await o; return a  except: return b]. *)
Lemma guarded_call {A : Type} (o : Op.t) (a b : A) (w : World Env) :
  try_except (bind (await o) (λ _, ret a)) (λ _, ret b) w
  = (Ok (match outcome (respond o (env w)) with inr _ => a | inl _ => b end),
     (await o w).2).
Proof.
  unfold try_except, bind, ret, await.
  by destruct (outcome (respond o (env w))).
Qed.

Lemma bind_returns {A B : Type} (m : M A) (k : A → M B) :
  (∀ w : World Env, ∃ a, (m w).1 = Ok a) →
  (∀ a (w : World Env), ∃ b, (k a w).1 = Ok b) →
  ∀ w : World Env, ∃ b, (bind m k w).1 = Ok b.
Proof.
  intros Hm Hk w. unfold bind. destruct (Hm w) as [a Ha].
  destruct (m w) as [r w1]. simpl in Ha. subst r. apply Hk.
Qed.

(** [_restore_member_info] always returns, and only suspends in its
    three calls. *)
Lemma restore_returns (group_id : Z) (member : BackupMember.t) (w : World Env) :
  ∃ details, (_restore_member_info group_id member w).1 = Ok details.
Proof.
  revert w. unfold _restore_member_info.
  apply bind_returns; [by eexists|]. intros rc.
  apply bind_returns.
  { intros w. destruct rc; [rewrite guarded_call|]; by eexists. }
  intros l1. apply bind_returns; [by eexists|]. intros rt.
  apply bind_returns.
  { intros w. destruct rt; [rewrite guarded_call|]; by eexists. }
  intros l2. apply bind_returns; [by eexists|]. intros ra.
  apply bind_returns; [|by eexists].
  intros w. destruct (ra && _); [rewrite guarded_call|]; by eexists.
Qed.

Lemma restore_suspended (P : Event → Prop) (group_id : Z)
    (member : BackupMember.t) (w : World Env) :
  (∀ o w', restore_op group_id (BackupMember.user_id member) o →
           P (event_of o w')) →
  suspended P w (_restore_member_info group_id member w).2.
Proof.
  intros HP. unfold _restore_member_info.
  apply bind_suspended; [apply suspended_refl|]. intros rc w1 _.
  apply bind_suspended.
  { destruct rc; [|apply suspended_refl].
    rewrite guarded_call. simpl. apply await_event, HP. by simpl. }
  intros l1 w2 _.
  apply bind_suspended; [apply suspended_refl|]. intros rt w3 _.
  apply bind_suspended.
  { destruct rt; [|apply suspended_refl].
    rewrite guarded_call. simpl. apply await_event, HP. by simpl. }
  intros l2 w4 _.
  apply bind_suspended; [apply suspended_refl|]. intros ra w5 _.
  apply bind_suspended; [|intros; apply suspended_refl].
  destruct (ra && _); [|apply suspended_refl].
  rewrite guarded_call. simpl. apply await_event, HP. by simpl.
Qed.

(** With card restoring on, the first thing [_restore_member_info] does
    is to call [set_group_card] with the snapshot card. *)
Lemma restore_sets_card (group_id : Z) (member : BackupMember.t) (w : World Env) :
  restore_cards (self w) = true →
  ∃ evs,
    trace (_restore_member_info group_id member w).2
    = trace w
      ++ event_of (Op.set_group_card group_id (BackupMember.user_id member)
                     (or_empty (BackupMember.card member))) w
      :: evs.
Proof.
  intros Hrc. unfold _restore_member_info. unfold bind at 1. unfold gets at 1.
  simpl. rewrite Hrc. unfold bind at 1. rewrite guarded_call. simpl.
  set (w1 := (await _ w).2).
  assert (trace w1 = trace w ++ [event_of (Op.set_group_card group_id
            (BackupMember.user_id member) (or_empty (BackupMember.card member))) w])
    as Ht1 by (subst w1; by rewrite await_world).
  match goal with
  | |- context [bind ?m ?k w1] =>
      assert (suspended (λ _, True) w1 (bind m k w1).2) as (evs & Ht & _)
  end.
  { apply bind_suspended; [apply suspended_refl|]. intros rt w3 _.
    apply bind_suspended.
    { destruct rt; [|apply suspended_refl].
      rewrite guarded_call. simpl. by apply await_event. }
    intros l2 w4 _.
    apply bind_suspended; [apply suspended_refl|]. intros ra w5 _.
    apply bind_suspended; [|intros; apply suspended_refl].
    destruct (ra && _); [|apply suspended_refl].
    rewrite guarded_call. simpl. by apply await_event. }
  exists evs. rewrite Ht, Ht1, <- app_assoc. done.
Qed.

(** [_invite_member] always returns: it awaits [get_friend_list] once
    and turns the answer into the result. *)
Lemma invite_member_eq (group_id : Z) (member : BackupMember.t) (w : World Env) :
  _invite_member group_id member w
  = (Ok (invite_outcome member (outcome (respond Op.get_friend_list (env w)))),
     (await Op.get_friend_list w).2).
Proof.
  unfold _invite_member, get_friend_list, try_except, bind, ret, raise, await,
    invite_outcome.
  destruct (outcome (respond Op.get_friend_list (env w))) as [e|[]]; simpl; try done.
  destruct (decide (BackupMember.user_id member ∈ user_ids)) as [Hin|Hin].
  - rewrite bool_decide_eq_false_2 by (rewrite elem_of_list_to_set; tauto).
    by rewrite bool_decide_eq_true_2.
  - rewrite bool_decide_eq_true_2 by (by rewrite elem_of_list_to_set).
    by rewrite bool_decide_eq_false_2.
Qed.

(** The pause loop suspends in one-second sleeps only; it returns or is
    still polling; when the manager is not paused it does nothing. *)
Lemma wait_suspended (P : Event → Prop) (polls : nat) (w : World Env) :
  (∀ w', P (event_of (Op.sleep (Qmake 1 1)) w')) →
  suspended P w (wait_while_paused polls w).2.
Proof.
  intros HP. revert w. induction polls as [|polls IH]; intros w; simpl.
  - apply bind_suspended; [apply suspended_refl|]. intros paused w1 _.
    destruct paused; apply suspended_refl.
  - apply bind_suspended; [apply suspended_refl|]. intros paused w1 _.
    destruct paused; [|apply suspended_refl].
    apply bind_suspended; [apply await_event, HP|]. intros _ w2 _.
    apply bind_suspended; [apply suspended_refl|]. intros c w3 _.
    destruct c; [apply suspended_refl|apply IH].
Qed.

Lemma notify_suspended (P : Event → Prop) (progress_callback : bool)
    (w : World Env) :
  (∀ p w', P (event_of (Op.progress_callback p) w')) →
  (∀ w', P (event_of (Op.sleep (invite_interval (self w'))) w')) →
  suspended P w (notify_and_throttle progress_callback w).2.
Proof.
  intros Hcb Hsl. unfold notify_and_throttle.
  apply bind_suspended.
  { destruct progress_callback; [|apply suspended_refl].
    unfold bind at 1, get_progress.
    destruct (_progress (self w)) as [p|]; [|apply suspended_refl].
    apply bind_suspended; [apply await_event, Hcb|].
    intros; apply suspended_refl. }
  intros _ w1 _. rewrite bind_gets.
  apply bind_suspended; [apply await_event, Hsl|].
  intros; apply suspended_refl.
Qed.

Lemma wait_not_paused (polls : nat) (w : World Env) :
  _paused (self w) = false → wait_while_paused polls w = (Ok tt, w).
Proof.
  intros Hp. destruct polls; simpl; unfold bind, gets; simpl; by rewrite Hp.
Qed.

End MemberFacts.

(** ** The counters of the job *)

Section CounterFacts.
Context {Env : Type} `{Environment Env}.

Lemma frame_fields (p p' : RebuildProgress.t) :
  job_frame p' = job_frame p →
  RebuildProgress.total p' = RebuildProgress.total p
  ∧ RebuildProgress.processed p' = RebuildProgress.processed p
  ∧ RebuildProgress.success p' = RebuildProgress.success p
  ∧ RebuildProgress.failed p' = RebuildProgress.failed p
  ∧ RebuildProgress.skipped p' = RebuildProgress.skipped p
  ∧ RebuildProgress.results p' = RebuildProgress.results p.
Proof.
  unfold job_frame, RebuildProgress.set_status. intros Heq.
  injection Heq. intros. by split_and!.
Qed.

Lemma counters_frame (n : nat) (order : list BackupMember.t) (k : nat)
    (p p' : RebuildProgress.t) :
  job_frame p' = job_frame p →
  counters_ok n order p ∧ RebuildProgress.processed p = k →
  counters_ok n order p' ∧ RebuildProgress.processed p' = k.
Proof.
  intros Hf. destruct (frame_fields _ _ Hf) as (Ht & Hp & Hs & Hfa & Hsk & Hr).
  unfold counters_ok. rewrite Ht, Hp, Hs, Hfa, Hsk, Hr. done.
Qed.

(** Suspensions keep a property of the job that does not depend on the
    status, and every event they record shows it. *)
Lemma suspended_job (P : Event → Prop) (φ : RebuildProgress.t → Prop)
    (w w' : World Env) :
  (∀ p p', job_frame p' = job_frame p → φ p → φ p') →
  suspended P w w' → job_at φ w →
  job_at φ w' ∧ events_ok φ w w'.
Proof.
  intros Hφ (evs & Ht & _ & Hc) (p & Hp & Hok).
  destruct (chain_frame _ _ _ Hc) as (_ & Hj & Hall).
  rewrite Hp in Hj, Hall. split.
  - destruct (job_eq_some _ _ Hj) as (p' & Hp' & Hf). exists p'. eauto.
  - exists evs. split; [done|]. eapply Forall_impl; [exact Hall|].
    intros ev Hev. destruct (job_eq_some _ _ Hev) as (q & Hq & Hf).
    exists q. eauto.
Qed.

Lemma events_ok_refl (φ : RebuildProgress.t → Prop) (w : World Env) :
  events_ok φ w w.
Proof. exists []. by rewrite app_nil_r. Qed.

Lemma events_ok_trans (φ : RebuildProgress.t → Prop) (w1 w2 w3 : World Env) :
  events_ok φ w1 w2 → events_ok φ w2 w3 → events_ok φ w1 w3.
Proof.
  intros (evs1 & Ht1 & H1) (evs2 & Ht2 & H2). exists (evs1 ++ evs2).
  split; [by rewrite Ht2, Ht1, app_assoc|]. by apply Forall_app.
Qed.

(** A write to the job record records no event. *)
Lemma events_ok_modify (φ : RebuildProgress.t → Prop)
    (f : RebuildProgress.t → RebuildProgress.t) (w : World Env) :
  events_ok φ w (modify_progress f w).2.
Proof. exists []. simpl. by rewrite app_nil_r. Qed.

(** Recording the outcome of the next member keeps the bookkeeping. *)
Lemma counters_next (n : nat) (done rest : list BackupMember.t)
    (m : BackupMember.t) (r : InviteResult.t) (p p2 : RebuildProgress.t) :
  (length (done ++ m :: rest) ≤ n)%nat →
  counters_ok n (done ++ m :: rest) p →
  RebuildProgress.processed p = length done →
  RebuildProgress.total p2 = RebuildProgress.total p →
  RebuildProgress.processed p2 = S (RebuildProgress.processed p) →
  (RebuildProgress.success p2 + RebuildProgress.failed p2
   + RebuildProgress.skipped p2
   = S (RebuildProgress.success p + RebuildProgress.failed p
        + RebuildProgress.skipped p))%nat →
  RebuildProgress.results p2 = RebuildProgress.results p ++ [r] →
  InviteResult.user_id r = BackupMember.user_id m →
  counters_ok n (done ++ m :: rest) p2
  ∧ RebuildProgress.processed p2 = S (length done).
Proof.
  intros Hlen (Ht & Hsum & Hle & Hres & Hids) Hk Ht2 Hp2 Hs2 Hr2 Hu.
  rewrite length_app in Hlen. simpl in Hlen.
  split; [|lia]. unfold counters_ok. split_and!.
  - congruence.
  - lia.
  - lia.
  - rewrite Hr2, length_app. simpl. lia.
  - rewrite Hr2, fmap_app, Hids, Hp2, Hk, fmap_app. simpl.
    rewrite !take_app, !length_fmap, Nat.sub_diag.
    replace (S (length done) - length done)%nat with 1%nat by lia.
    rewrite !take_ge by (rewrite length_fmap; lia).
    simpl. rewrite (take_ge (_ <$> done)) by (rewrite length_fmap; lia).
    by rewrite take_0, app_nil_r, Hu.
Qed.

End CounterFacts.

Section CounterTurn.
Context {Env : Type} `{Environment Env}.
Context (n : nat) (done rest : list BackupMember.t) (m : BackupMember.t).

Local Abbreviation order := (done ++ m :: rest).
Local Abbreviation at_ k :=
  (λ p, counters_ok n order p ∧ RebuildProgress.processed p = k).

Lemma at_frame (k : nat) (p p' : RebuildProgress.t) :
  job_frame p' = job_frame p → at_ k p → at_ k p'.
Proof. apply counters_frame. Qed.

Lemma events_at_weaken (k : nat) (w w' : World Env) :
  events_ok (at_ k) w w' → events_ok (counters_ok n order) w w'.
Proof.
  intros (evs & Ht & Hall). exists evs. split; [done|].
  eapply Forall_impl; [exact Hall|]. intros ev (p & Hp & Hok & _). by exists p.
Qed.

(** Suspensions after a job in state [k] keep it there. *)
Lemma suspended_at (P : Event → Prop) (k : nat) (w w' : World Env) :
  suspended P w w' → job_at (at_ k) w →
  job_at (at_ k) w' ∧ events_ok (counters_ok n order) w w'.
Proof.
  intros Hs Hj. destruct (suspended_job P (at_ k) w w' (at_frame k) Hs Hj).
  split; [done|]. by eapply events_at_weaken.
Qed.

(** One turn of the loop body records exactly one outcome, for the
    member at hand, and keeps the bookkeeping at every suspension. *)
Lemma handle_member_counters (group_id : Z) (bot : option Z) (cb : bool)
    (ids : gset Z) (w : World Env) :
  (length order ≤ n)%nat →
  job_at (at_ (length done)) w →
  events_ok (counters_ok n order) w (handle_member group_id bot cb ids m w).2
  ∧ job_at (at_ (S (length done))) (handle_member group_id bot cb ids m w).2.
Proof.
  intros Hlen (p & Hp & Hok & Hk). unfold handle_member.
  rewrite bind_modify_progress.
  set (w0 := (modify_progress _ w).2).
  assert (job_at (at_ (length done)) w0) as Hj0.
  { eexists. split; [simpl; by rewrite Hp|]. split; done. }
  assert (events_ok (counters_ok n order) w w0) as He0 by apply events_ok_modify.
  clearbody w0. clear Hp Hok Hk p.
  case_bool_decide as Hbot.
  - (* the bot itself *)
    destruct Hj0 as (p & Hp & Hok & Hk).
    rewrite !bind_modify_progress. simpl. split; [done|].
    eexists. split; [simpl; by rewrite Hp|].
    eapply counters_next; eauto.
  - case_bool_decide as Hin.
    + (* present in the target group *)
      destruct (restore_returns group_id m w0) as [details Hd].
      pose proof (restore_suspended (λ _, True) group_id m w0 (λ _ _ _, I)) as Hs.
      destruct (_restore_member_info group_id m w0) as [r1 w1] eqn:E.
      simpl in Hd, Hs. subst r1. rewrite (bind_ok _ _ _ _ _ E).
      destruct (suspended_at _ _ _ _ Hs Hj0) as [(p & Hp & Hok & Hk) He1].
      destruct details as [|d ds]; rewrite bind_bind, !bind_modify_progress; simpl;
        (split; [by eapply events_ok_trans|]);
        (eexists; split; [simpl; by rewrite Hp|]);
        eapply counters_next; eauto.
    + (* the invite attempt *)
      rewrite (bind_ok _ _ _ _ _ (invite_member_eq group_id m w0)).
      set (r := invite_outcome m _).
      assert (InviteResult.user_id r = BackupMember.user_id m) as Hu.
      { subst r. unfold invite_outcome. repeat case_match; done. }
      pose proof (await_suspended (λ _, True) Op.get_friend_list w0 I) as Hs.
      set (w1 := (await Op.get_friend_list w0).2) in *. clearbody w1 r.
      destruct (suspended_at _ _ _ _ Hs Hj0) as [(p & Hp & Hok & Hk) He1].
      rewrite !bind_modify_progress.
      set (w2 := (modify_progress _ (modify_progress _ w1).2).2).
      assert (events_ok (counters_ok n order) w w2) as He2
        by (by eapply events_ok_trans).
      destruct (InviteResult.status r) eqn:Er.
      * (* PENDING does not occur; counted as skipped *)
        rewrite bind_bind, bind_modify_progress, bind_ret.
        set (w3 := (modify_progress _ w2).2).
        assert (job_at (at_ (S (length done))) w3) as Hj3.
        { eexists. split; [simpl; by rewrite Hp|].
          eapply counters_next; eauto; simpl; lia. }
        assert (suspended (λ _, True) w3
                  (bind (notify_and_throttle cb)
                        (λ _, ret (NextMember ids)) w3).2) as Hs3.
        { apply bind_suspended; [by apply notify_suspended|].
          intros; apply suspended_refl. }
        destruct (suspended_at _ _ _ _ Hs3 Hj3) as [Hj4 He4].
        split; [|done]. eapply events_ok_trans; [exact He2|exact He4].
      * (* SUCCESS *)
        rewrite bind_bind, bind_modify_progress.
        set (w3 := (modify_progress _ w2).2).
        assert (job_at (at_ (S (length done))) w3) as Hj3.
        { eexists. split; [simpl; by rewrite Hp|].
          eapply counters_next; eauto; simpl; lia. }
        rewrite bind_bind.
        destruct (restore_returns group_id m w3) as [details Hd].
        pose proof (restore_suspended (λ _, True) group_id m w3 (λ _ _ _, I)) as Hs3.
        destruct (_restore_member_info group_id m w3) as [r1 w4] eqn:E.
        simpl in Hd, Hs3. subst r1. rewrite (bind_ok _ _ _ _ _ E), bind_ret.
        destruct (suspended_at _ _ _ _ Hs3 Hj3) as [Hj4 He4].
        assert (suspended (λ _, True) w4
                  (bind (notify_and_throttle cb)
                        (λ _, ret (NextMember (ids ∪ {[BackupMember.user_id m]}))) w4).2)
          as Hs4.
        { apply bind_suspended; [by apply notify_suspended|].
          intros; apply suspended_refl. }
        destruct (suspended_at _ _ _ _ Hs4 Hj4) as [Hj5 He5].
        split; [|done].
        eapply events_ok_trans; [exact He2|].
        eapply events_ok_trans; [exact He4|exact He5].
      * (* FAILED *)
        rewrite bind_bind, bind_modify_progress.
        set (w3 := (modify_progress _ w2).2).
        assert (job_at (at_ (S (length done))) w3) as Hj3.
        { eexists. split; [simpl; by rewrite Hp|].
          eapply counters_next; eauto; simpl; lia. }
        rewrite bind_bind, bind_gets.
        destruct (continue_on_error (self w3)).
        -- rewrite bind_ret.
           assert (suspended (λ _, True) w3
                     (bind (notify_and_throttle cb)
                           (λ _, ret (NextMember ids)) w3).2) as Hs3.
           { apply bind_suspended; [by apply notify_suspended|].
             intros; apply suspended_refl. }
           destruct (suspended_at _ _ _ _ Hs3 Hj3) as [Hj4 He4].
           split; [|done]. eapply events_ok_trans; [exact He2|exact He4].
        -- rewrite bind_bind, bind_modify_progress, bind_bind,
             bind_modify_progress, bind_ret.
           simpl. split; [done|].
           eexists. split; [simpl; by rewrite Hp|].
           eapply counters_next; eauto; simpl; lia.
      * (* SKIPPED *)
        rewrite bind_bind, bind_modify_progress, bind_ret.
        set (w3 := (modify_progress _ w2).2).
        assert (job_at (at_ (S (length done))) w3) as Hj3.
        { eexists. split; [simpl; by rewrite Hp|].
          eapply counters_next; eauto; simpl; lia. }
        assert (suspended (λ _, True) w3
                  (bind (notify_and_throttle cb)
                        (λ _, ret (NextMember ids)) w3).2) as Hs3.
        { apply bind_suspended; [by apply notify_suspended|].
          intros; apply suspended_refl. }
        destruct (suspended_at _ _ _ _ Hs3 Hj3) as [Hj4 He4].
        split; [|done]. eapply events_ok_trans; [exact He2|exact He4].
Qed.
End CounterTurn.

Section CounterRun.
Context {Env : Type} `{Environment Env}.
Context (n : nat) (order : list BackupMember.t).

Lemma job_at_weaken (φ ψ : RebuildProgress.t → Prop) (w : World Env) :
  (∀ p, φ p → ψ p) → job_at φ w → job_at ψ w.
Proof. intros Himp (p & Hp & Hφ). exists p. auto. Qed.

(** One turn of the loop, with the cancel and pause checks. *)
Lemma process_member_counters (done rest : list BackupMember.t)
    (m : BackupMember.t) (polls : nat) (group_id : Z) (bot : option Z)
    (cb : bool) (ids : gset Z) (w : World Env) :
  order = done ++ m :: rest →
  (length order ≤ n)%nat →
  job_at (λ p, counters_ok n order p
               ∧ RebuildProgress.processed p = length done) w →
  events_ok (counters_ok n order) w
            (process_member polls group_id bot cb ids m w).2
  ∧ job_at (counters_ok n order) (process_member polls group_id bot cb ids m w).2
  ∧ ∀ ids', (process_member polls group_id bot cb ids m w).1
            = Ok (NextMember ids') →
            job_at (λ p, counters_ok n order p
                         ∧ RebuildProgress.processed p = S (length done))
                   (process_member polls group_id bot cb ids m w).2.
Proof.
  intros -> Hlen Hj. unfold process_member. rewrite bind_gets.
  destruct (_cancelled (self w)).
  - rewrite bind_modify_progress.
    split; [apply (events_ok_modify _ _ w)|]. simpl.
    destruct Hj as (p & Hp & Hok & Hk).
    split; [|done]. eexists. split; [simpl; by rewrite Hp|]. done.
  - pose proof (wait_suspended (λ _, True) polls w (λ _, I)) as Hs.
    destruct (suspended_at n done rest m _ _ _ _ Hs Hj) as [Hj1 He1].
    destruct (wait_while_paused polls w) as [[[]|e|] w1] eqn:E; simpl in *.
    + rewrite (bind_ok _ _ _ _ _ E).
      destruct (handle_member_counters n done rest m group_id bot cb ids w1
                  Hlen Hj1) as [He2 Hj2].
      split; [by eapply events_ok_trans|].
      split; [|done]. eapply job_at_weaken; [|exact Hj2]. by intros p [].
    + rewrite (bind_raise _ _ _ _ _ E). simpl.
      split; [done|]. split; [|done].
      eapply job_at_weaken; [|exact Hj1]. by intros p [].
    + rewrite (bind_polling _ _ _ _ E). simpl.
      split; [done|]. split; [|done].
      eapply job_at_weaken; [|exact Hj1]. by intros p [].
Qed.

(** The loop over the members. *)
Lemma member_loop_counters (polls : nat) (group_id : Z) (bot : option Z)
    (cb : bool) (rest done : list BackupMember.t) (ids : gset Z)
    (w : World Env) :
  order = done ++ rest →
  (length order ≤ n)%nat →
  job_at (λ p, counters_ok n order p
               ∧ RebuildProgress.processed p = length done) w →
  events_ok (counters_ok n order) w
            (member_loop polls group_id bot cb ids rest w).2
  ∧ job_at (counters_ok n order)
           (member_loop polls group_id bot cb ids rest w).2.
Proof.
  revert done ids w. induction rest as [|m rest IH]; intros done ids w Ho Hlen Hj.
  - simpl. split; [apply events_ok_refl|].
    eapply job_at_weaken; [|exact Hj]. by intros p [].
  - simpl.
    destruct (process_member_counters done rest m polls group_id bot cb ids w
                Ho Hlen Hj) as (He1 & Hj1 & Hnext).
    destruct (process_member polls group_id bot cb ids m w)
      as [[[ids'|]|e|] w1] eqn:E; simpl in *.
    + rewrite (bind_ok _ _ _ _ _ E).
      destruct (IH (done ++ [m]) ids' w1) as [He2 Hj2].
      * by rewrite <- app_assoc.
      * done.
      * rewrite length_app. simpl. rewrite Nat.add_1_r. by apply (Hnext ids').
      * split; [by eapply events_ok_trans|done].
    + by rewrite (bind_ok _ _ _ _ _ E).
    + by rewrite (bind_raise _ _ _ _ _ E).
    + by rewrite (bind_polling _ _ _ _ E).
Qed.

End CounterRun.

Section CounterTheorem.
Context {Env : Type} `{Environment Env}.

Lemma all_members_length (members : list BackupMember.t) :
  (length (all_members members) ≤ length members)%nat.
Proof.
  unfold all_members. rewrite length_app.
  induction members as [|m ms IH]; simpl; [lia|].
  rewrite !filter_cons.
  destruct (decide (BackupMember.role m = "member")) as [Hm|Hm];
    destruct (decide (BackupMember.role m = "admin")) as [Ha|Ha];
    simpl; try lia.
  rewrite Hm in Ha. discriminate.
Qed.

Lemma counters_ok_started (members : list BackupMember.t) :
  counters_ok (length members) (all_members members)
              (RebuildProgress.started (length members)).
Proof. unfold counters_ok. simpl. split_and!; try done. lia. Qed.

Lemma counters_ok_frame (n : nat) (order : list BackupMember.t)
    (p p' : RebuildProgress.t) :
  job_frame p' = job_frame p → counters_ok n order p → counters_ok n order p'.
Proof.
  intros Hf Hok. by destruct (counters_frame n order _ p p' Hf (conj Hok eq_refl)).
Qed.

Lemma bind_modify {B : Type} (f : RebuildManager → RebuildManager)
    (k : unit → M B) (w : World Env) :
  bind (modify f) k w = k tt (modify f w).2.
Proof. reflexivity. Qed.

(** The prologue always returns: each of its calls is guarded. *)
Lemma prologue_returns (group_id : Z) (members : list BackupMember.t)
    (w : World Env) :
  ∃ start, (rebuild_prologue group_id members w).1 = Ok start.
Proof.
  unfold rebuild_prologue. rewrite bind_modify.
  set (w0 := (modify _ w).2). clearbody w0. revert w0.
  apply bind_returns.
  { intros w0. unfold try_except, get_group_member_list, bind, ret, await.
    destruct (outcome (respond _ (env w0))) as [e|[]]; simpl; eauto. }
  intros ids. apply bind_returns.
  { intros w0. unfold try_except, get_login_info, bind, ret, await.
    destruct (outcome (respond _ (env w0))) as [e|[]]; simpl; eauto. }
  intros bot. apply bind_returns; [by eexists|]. intros welcome.
  apply bind_returns; [|by eexists].
  intros w0. destruct welcome; [rewrite guarded_call|]; by eexists.
Qed.

(** After the prologue the job record is the fresh one, up to what the
    controls did to its status. *)
Lemma prologue_counters (group_id : Z) (members : list BackupMember.t)
    (w : World Env) :
  let ok := counters_ok (length members) (all_members members) in
  events_ok ok w (rebuild_prologue group_id members w).2
  ∧ job_at (λ p, ok p ∧ RebuildProgress.processed p = 0%nat)
           (rebuild_prologue group_id members w).2.
Proof.
  intros ok. unfold rebuild_prologue. rewrite bind_modify.
  set (w0 := (modify _ w).2).
  assert (job_at (λ p, ok p ∧ RebuildProgress.processed p = 0%nat) w0) as Hj0.
  { eexists. split; [reflexivity|]. split; [apply counters_ok_started|done]. }
  assert (trace w0 = trace w) as Ht0 by done.
  clearbody w0.
  match goal with
  | |- context [bind ?m ?k w0] =>
      assert (suspended (λ _, True) w0 (bind m k w0).2) as Hs
  end.
  { apply bind_suspended.
    { apply try_except_suspended.
      - apply bind_suspended; [by apply get_group_member_list_suspended|].
        intros; apply suspended_refl.
      - intros; apply suspended_refl. }
    intros ids w1 _. apply bind_suspended.
    { apply try_except_suspended; [by apply get_login_info_suspended|].
      intros; apply suspended_refl. }
    intros bot w2 _. apply bind_suspended; [apply suspended_refl|].
    intros welcome w3 _. apply bind_suspended; [|intros; apply suspended_refl].
    destruct welcome; [|apply suspended_refl].
    rewrite guarded_call. by apply await_event. }
  destruct (suspended_job _ _ _ _
              (counters_frame (length members) (all_members members) 0)
              Hs Hj0) as [Hj1 (evs & Ht1 & Hall)].
  split; [|done]. exists evs. rewrite Ht1, Ht0. split; [done|].
  eapply Forall_impl; [exact Hall|]. intros ev (p & Hp & Hok & _). by exists p.
Qed.

(** The epilogue writes the status and the current user only. *)
Lemma epilogue_counters (n : nat) (order : list BackupMember.t)
    (group_id : Z) (w : World Env) :
  job_at (counters_ok n order) w →
  events_ok (counters_ok n order) w (rebuild_epilogue group_id w).2
  ∧ job_at (counters_ok n order) (rebuild_epilogue group_id w).2
  ∧ ∀ p, (rebuild_epilogue group_id w).1 = Ok p → counters_ok n order p.
Proof.
  intros (p & Hp & Hok). unfold rebuild_epilogue.
  rewrite (bind_get_progress _ _ _ Hp).
  set (w1 := ((if bool_decide (RebuildProgress.status p = RebuildStatus.RUNNING)
               then modify_progress
                      (RebuildProgress.set_status RebuildStatus.COMPLETED)
               else ret tt) w).2).
  assert (∃ p1, _progress (self w1) = Some p1 ∧ counters_ok n order p1
                ∧ trace w1 = trace w) as (p1 & Hp1 & Hok1 & Ht1).
  { subst w1. case_bool_decide; simpl; rewrite ?Hp; eauto. }
  replace (bind _ _ w) with
    (bind (modify_progress (RebuildProgress.set_current_user None))
       (λ _, bind (gets send_welcome)
          (λ welcome,
             bind (if welcome : bool then
                     bind get_progress
                       (λ p0, try_except
                          (bind (await (Op.send_group_msg group_id
                             ("✅ 群组重建完成" +:+ newline
                              +:+ "成功: " +:+ pretty (RebuildProgress.success p0)
                              +:+ newline
                              +:+ "失败: " +:+ pretty (RebuildProgress.failed p0)
                              +:+ newline
                              +:+ "跳过: " +:+ pretty (RebuildProgress.skipped p0))))
                             (λ _, ret tt))
                          (λ _, ret tt))
                   else ret tt)
               (λ _, get_progress))) w1)
    by (subst w1; by case_bool_decide).
  clearbody w1.
  rewrite bind_modify_progress, bind_gets.
  set (w2 := (modify_progress _ w1).2).
  assert (_progress (self w2) = Some (RebuildProgress.set_current_user None p1))
    as Hp2 by (simpl; by rewrite Hp1).
  assert (counters_ok n order (RebuildProgress.set_current_user None p1)) as Hok2
    by done.
  assert (trace w2 = trace w) as Ht2 by done.
  clearbody w2.
  destruct (send_welcome (self w2)).
  - rewrite (bind_bind get_progress), (bind_get_progress _ _ _ Hp2).
    rewrite (bind_ok _ _ _ _ _ (guarded_call _ _ _ _)).
    match goal with
    | |- context [await ?o w2] =>
        pose proof (await_suspended (λ _, True) o w2 I) as Hs;
        set (w3 := (await o w2).2) in *; clearbody w3
    end.
    destruct (suspended_job _ _ _ _ (counters_ok_frame n order) Hs
                (ex_intro _ _ (conj Hp2 Hok2)))
      as [(p3 & Hp3 & Hok3) (evs & Ht3 & Hall)].
    unfold get_progress. rewrite Hp3. simpl.
    split; [exists evs; by rewrite Ht3, Ht2|].
    split; [by exists p3|]. by intros ? [= <-].
  - rewrite bind_ret. unfold get_progress. rewrite Hp2. simpl.
    split; [exists []; by rewrite Ht2, app_nil_r|].
    split; [by eexists|]. by intros ? [= <-].
Qed.

(** C1. In every run of [_rebuild_group], whatever the environment
    answers and whichever controls arrive, the job record shown at each
    suspension (every awaited call, sleep and progress callback), the
    job record held by the manager when the run ends, and the record
    the run returns all satisfy: total = len(members), processed =
    success + failed + skipped, processed <= total, and the outcomes on
    record are exactly one per processed member, in processing
    order. *)
Theorem rebuild_counter_invariant (w : World Env) (polls : nat)
    (target_group_id : Z) (members : list BackupMember.t)
    (progress_callback : bool) :
  let run := _rebuild_group polls target_group_id members progress_callback w in
  let ok := counters_ok (length members) (all_members members) in
  (∃ evs, trace run.2 = trace w ++ evs ∧ Forall (sees ok) evs)
  ∧ (∃ p, _progress (self run.2) = Some p ∧ ok p)
  ∧ (∀ p, run.1 = Ok p → ok p).
Proof.
  intros run ok. subst run.
  change (events_ok ok w (_rebuild_group polls target_group_id members
                            progress_callback w).2
          ∧ job_at ok (_rebuild_group polls target_group_id members
                         progress_callback w).2
          ∧ ∀ p, (_rebuild_group polls target_group_id members
                    progress_callback w).1 = Ok p → ok p).
  unfold _rebuild_group.
  destruct (prologue_returns target_group_id members w) as [start Hst].
  destruct (prologue_counters target_group_id members w) as [He1 Hj1].
  destruct (rebuild_prologue target_group_id members w) as [r1 w1] eqn:E1.
  simpl in Hst, He1, Hj1. subst r1. rewrite (bind_ok _ _ _ _ _ E1).
  destruct (member_loop_counters (length members) (all_members members) polls
              target_group_id start.2 progress_callback (all_members members)
              [] start.1 w1 eq_refl (all_members_length members) Hj1)
    as [He2 Hj2].
  destruct (member_loop polls target_group_id start.2 progress_callback start.1
              (all_members members) w1) as [[[]|e|] w2] eqn:E2; simpl in *.
  - rewrite (bind_ok _ _ _ _ _ E2).
    destruct (epilogue_counters _ _ target_group_id w2 Hj2) as (He3 & Hj3 & Hr3).
    split; [|done]. eapply events_ok_trans; [exact He1|].
    eapply events_ok_trans; [exact He2|exact He3].
  - rewrite (bind_raise _ _ _ _ _ E2). simpl.
    split; [by eapply events_ok_trans|]. done.
  - rewrite (bind_polling _ _ _ _ E2). simpl.
    split; [by eapply events_ok_trans|]. done.
Qed.

End CounterTheorem.

(** ** Runs on the scenario *)

Section ScenarioRuns.

(** Witness of [dry_run_classification]: the scenario of the
    specification. *)
Lemma dry_run_classification_witness :
  ∃ preview w',
    _dry_run_rebuild 7 scenario_snapshot
      (start (manager false true false true true) (scenario []))
    = (Ok preview, w')
    ∧ change_user_id <$> changes preview = [1; 2; 3]
    ∧ bucket_of <$> changes preview
      = [Some RestoreInfo; Some SkipNoChange; Some NeedsManualInvite].
Proof.
  exact (proj1 dry_run_classification
           (start (manager false true false true true) (scenario []))
           7 scenario_snapshot scenario_roster eq_refl).
Defined.

(** C6. Cancelling while the job is paused does not stop the loop
    before the next member. Members 1, 2, 3; [pause] arrives during the
    roster fetch and [cancel] during the first poll of the pause loop,
    when nothing has been processed. The pause loop is left, and member
    1 is processed all the same: [set_group_card] is sent for it with
    the job already marked cancelled, and its outcome is recorded. Only
    the next turn of the loop stops the job. *)
Theorem cancel_while_paused_still_processes_member :
  let run :=
    _rebuild_group 5 7 scenario_snapshot false
      (start (manager false true false false true)
             (scenario [[Pause]; []; [Cancel]])) in
  glimpse <$> trace run.2
  = [(Op.get_group_member_list 7 true, [Pause],
      Some (RebuildStatus.RUNNING, 0%nat));
     (Op.get_login_info, [], Some (RebuildStatus.PAUSED, 0%nat));
     (Op.sleep (Qmake 1 1), [Cancel], Some (RebuildStatus.PAUSED, 0%nat));
     (Op.set_group_card 7 1 "A", [], Some (RebuildStatus.CANCELLED, 0%nat))]
  ∧ report_of <$> returned run.1
    = Some (RebuildStatus.CANCELLED, 1%nat, 3%nat, [(1, InviteStatus.SUCCESS)]).
Proof. vm_compute. split; reflexivity. Qed.

(** Counterexample to C3 as stated: member 1 is in the target group
    with the card of the snapshot; the snapshot records it with the
    role member, and in the live group it is an administrator. With
    the three restore flags on, the admin role differs from the live
    value under either reading of the specification, which therefore
    classifies the member as restore; the preview says no change
    needed, and lists no change. *)
Lemma live_admin_previewed_as_no_change :
  let self := manager true true true false true in
  let roster := [live_admin 1 "A"] in
  let w := start self {| roster := roster; roster_error := None;
                         login := inr (Some 99); friends := inr [3];
                         card_rejected := []; schedule := [] |} in
  let preview := _dry_run_rebuild 7 [snapshot_member 1 "A"] w in
  (∀ reading,
     spec_bucket reading self (Some 99) roster [3] (snapshot_member 1 "A")
     = RestoreInfo)
  ∧ preview_bucket self (Some 99) roster [3] (snapshot_member 1 "A")
    = SkipNoChange
  ∧ (λ pv, (λ c, (bucket_of c, change_details c)) <$> changes pv)
      <$> returned preview.1
    = Some [(Some SkipNoChange, [])].
Proof.
  split_and!; [by intros [] | reflexivity | vm_compute; reflexivity].
Qed.

(** Counterexample to C9 as stated: member 2 has card B in the snapshot
    and in the live group; the dry run classifies it as no change
    needed, but the execution calls [set_group_card] for it, a remote
    mutating call, and records a success. *)
Lemma restore_of_equal_card_calls_set_group_card :
  let w := start (manager false true false false true) (scenario []) in
  let preview := _dry_run_rebuild 7 [snapshot_member 2 "B"] w in
  let run := _rebuild_group 0 7 [snapshot_member 2 "B"] false w in
  (λ pv, bucket_of <$> changes pv) <$> returned preview.1
  = Some [Some SkipNoChange]
  ∧ op <$> trace run.2
    = [Op.get_group_member_list 7 true; Op.get_login_info;
       Op.set_group_card 7 2 "B"]
  ∧ existsb Op.mutating (op <$> trace run.2) = true
  ∧ report_of <$> returned run.1
    = Some (RebuildStatus.COMPLETED, 1%nat, 1%nat, [(2, InviteStatus.SUCCESS)]).
Proof. vm_compute. split_and!; reflexivity. Qed.

(** Counterexample to C5 as stated: with a progress callback supplied,
    member 1 (present in the target group) and member 99 (the bot
    itself) are both processed, and the run has neither a callback nor
    a throttle sleep. *)
Lemma no_callback_no_sleep_for_present_and_bot :
  let run :=
    _rebuild_group 0 7 [snapshot_member 1 "A"; snapshot_member 99 "bot"] true
      (start (manager false true false false true) (scenario [])) in
  report_of <$> returned run.1
  = Some (RebuildStatus.COMPLETED, 2%nat, 2%nat,
          [(1, InviteStatus.SUCCESS); (99, InviteStatus.SKIPPED)])
  ∧ filter (λ ev, is_throttle_or_callback ev = true) (trace run.2) = [].
Proof. vm_compute. split; reflexivity. Qed.



End ScenarioRuns.
(** ** One turn of the member loop *)

Section TurnFacts.
Context {Env : Type} `{Environment Env}.

(** The callback and the throttle. *)
Lemma notify_spec (cb : bool) (w : World Env) (p : RebuildProgress.t) :
  _progress (self w) = Some p →
  callback_returns → sleep_returns →
  ∃ w' tail,
    notify_and_throttle cb w = (Ok tt, w')
    ∧ trace w' = trace w ++ tail
    ∧ throttle_tail cb (invite_interval (self w)) (λ q, q = p) tail.
Proof.
  intros Hp Hcb Hsl. unfold notify_and_throttle.
  destruct cb.
  - rewrite bind_bind, (bind_get_progress _ _ _ Hp), bind_bind.
    destruct (Hcb p (env w)) as [a Ha].
    assert (await (Op.progress_callback p) w
            = (Ok a, (await (Op.progress_callback p) w).2)) as E.
    { unfold await. by rewrite Ha. }
    rewrite (bind_ok _ _ _ _ _ E), bind_ret, bind_gets.
    set (w1 := (await (Op.progress_callback p) w).2) in *.
    assert (invite_interval (self w1) = invite_interval (self w)) as Hi.
    { subst w1. rewrite await_world. simpl.
      by destruct (apply_controls_config (controls (respond (Op.progress_callback p) (env w)))
                     (self w)) as (_&_&_&_&_&?). }
    assert (trace w1 = trace w ++ [event_of (Op.progress_callback p) w]) as Ht1.
    { subst w1. by rewrite await_world. }
    clearbody w1. rewrite Hi.
    destruct (Hsl (invite_interval (self w)) (env w1)) as [b Hb].
    assert (await (Op.sleep (invite_interval (self w))) w1
            = (Ok b, (await (Op.sleep (invite_interval (self w))) w1).2)) as E2.
    { unfold await. by rewrite Hb. }
    rewrite (bind_ok _ _ _ _ _ E2).
    eexists _, _. split; [reflexivity|].
    split; [rewrite await_world; simpl; rewrite Ht1, <- app_assoc; reflexivity|].
    exists (event_of (Op.sleep (invite_interval (self w))) w1).
    split; [reflexivity|].
    exists (event_of (Op.progress_callback p) w), p. by split_and!.
  - rewrite bind_ret, bind_gets.
    destruct (Hsl (invite_interval (self w)) (env w)) as [b Hb].
    assert (await (Op.sleep (invite_interval (self w))) w
            = (Ok b, (await (Op.sleep (invite_interval (self w))) w).2)) as E2.
    { unfold await. by rewrite Hb. }
    rewrite (bind_ok _ _ _ _ _ E2).
    eexists _, _. split; [reflexivity|].
    split; [rewrite await_world; simpl; reflexivity|].
    exists (event_of (Op.sleep (invite_interval (self w))) w).
    split; reflexivity.
Qed.

Lemma suspended_chain (P : Event → Prop) (w w' : World Env)
    (p : RebuildProgress.t) :
  suspended P w w' → _progress (self w) = Some p →
  ∃ p' evs,
    trace w' = trace w ++ evs ∧ Forall P evs ∧ chain (self w) evs (self w')
    ∧ _progress (self w') = Some p' ∧ job_frame p' = job_frame p
    ∧ same_config (self w) (self w').
Proof.
  intros (evs & Ht & Hall & Hc) Hp.
  destruct (chain_frame _ _ _ Hc) as (Hcfg & Hj & _). rewrite Hp in Hj.
  destruct (job_eq_some _ _ Hj) as (p' & Hp' & Hf).
  exists p', evs. done.
Qed.

(** The turn for the bot itself: the outcome is recorded, nothing is
    awaited. *)
Lemma handle_member_bot (group_id : Z) (bot : option Z) (cb : bool)
    (ids : gset Z) (m : BackupMember.t) (w : World Env)
    (p : RebuildProgress.t) :
  _progress (self w) = Some p →
  Some (BackupMember.user_id m) = bot →
  let run := handle_member group_id bot cb ids m w in
  let r := invite_result m InviteStatus.SKIPPED "Bot 自身" in
  ∃ p',
    run.1 = Ok (NextMember ids)
    ∧ trace run.2 = trace w
    ∧ self run.2 = set_progress (Some p') (self w)
    ∧ recorded r p p'
    ∧ RebuildProgress.status p' = RebuildProgress.status p.
Proof.
  intros Hp Hbot run r. subst run. unfold handle_member.
  rewrite bind_modify_progress, bool_decide_eq_true_2 by done.
  rewrite !bind_modify_progress. simpl. rewrite Hp. simpl.
  eexists. split_and!; try reflexivity. by repeat split.
Qed.

(** The turn for a member already in the target group: the restore
    calls, then the outcome. *)
Lemma handle_member_present (group_id : Z) (bot : option Z) (cb : bool)
    (ids : gset Z) (m : BackupMember.t) (w : World Env)
    (p : RebuildProgress.t) :
  _progress (self w) = Some p →
  Some (BackupMember.user_id m) ≠ bot →
  BackupMember.user_id m ∈ ids →
  let run := handle_member group_id bot cb ids m w in
  let s0 := set_progress
              (Some (RebuildProgress.set_current_user
                       (Some (BackupMember.user_id m)) p)) (self w) in
  ∃ r p1 p' evs s1,
    run.1 = Ok (NextMember ids)
    ∧ trace run.2 = trace w ++ evs
    ∧ Forall (λ ev, restore_op group_id (BackupMember.user_id m) (op ev)) evs
    ∧ chain s0 evs s1
    ∧ _progress s1 = Some p1
    ∧ self run.2 = set_progress (Some p') s1
    ∧ recorded r p1 p'
    ∧ RebuildProgress.status p' = RebuildProgress.status p1
    ∧ InviteResult.user_id r = BackupMember.user_id m.
Proof.
  intros Hp Hbot Hin run s0. subst run. unfold handle_member.
  rewrite bind_modify_progress, bool_decide_eq_false_2 by done.
  rewrite bool_decide_eq_true_2 by done.
  set (w0 := (modify_progress _ w).2).
  assert (self w0 = s0) as Hs0 by (simpl; by rewrite Hp).
  assert (trace w0 = trace w) as Ht0 by done.
  assert (_progress (self w0) = Some (RebuildProgress.set_current_user
            (Some (BackupMember.user_id m)) p)) as Hp0 by (by rewrite Hs0).
  clearbody w0.
  destruct (restore_returns group_id m w0) as [details Hd].
  pose proof (restore_suspended
                (λ ev, restore_op group_id (BackupMember.user_id m) (op ev))
                group_id m w0 (λ _ _ Ho, Ho)) as Hs.
  destruct (_restore_member_info group_id m w0) as [r1 w1] eqn:E.
  simpl in Hd, Hs. subst r1. rewrite (bind_ok _ _ _ _ _ E).
  destruct (suspended_chain _ _ _ _ Hs Hp0)
    as (p1 & evs & Ht1 & Hall & Hc & Hp1 & _ & _).
  rewrite Hs0 in Hc. rewrite Ht0 in Ht1.
  destruct details as [|d ds]; rewrite bind_bind, !bind_modify_progress; simpl;
    rewrite Hp1; simpl;
    eexists _, p1, _, evs, (self w1);
    (split_and!; try done; by repeat split).
Qed.

(** The end of a turn that goes on to the next member. *)
Lemma turn_tail (cb : bool) (x : LoopCtl) (w : World Env)
    (p : RebuildProgress.t) :
  _progress (self w) = Some p →
  let run := bind (notify_and_throttle cb) (λ _, ret x) w in
  ∃ tail,
    trace run.2 = trace w ++ tail
    ∧ chain (self w) tail (self run.2)
    ∧ Forall (λ ev, is_throttle_or_callback ev = true) tail
    ∧ (callback_returns → sleep_returns →
       throttle_tail cb (invite_interval (self w)) (λ q, q = p) tail
       ∧ run.1 = Ok x).
Proof.
  intros Hp run.
  assert (suspended (λ ev, is_throttle_or_callback ev = true) w run.2)
    as (tail & Ht & Hall & Hc).
  { subst run. apply bind_suspended; [by apply notify_suspended|].
    intros; apply suspended_refl. }
  exists tail. split; [done|]. split; [done|]. split; [done|]. intros Hcb Hsl.
  destruct (notify_spec cb w p Hp Hcb Hsl) as (w' & tail' & E & Ht' & Htail).
  subst run. rewrite (bind_ok _ _ _ _ _ E) in *. simpl in *.
  rewrite Ht' in Ht. apply app_inv_head in Ht. by subst tail'.
Qed.

Lemma same_config_interval (s s' : RebuildManager) :
  same_config s s' → invite_interval s' = invite_interval s.
Proof. by intros (_&_&_&_&_&_&?). Qed.

Lemma same_config_continue (s s' : RebuildManager) :
  same_config s s' → continue_on_error s' = continue_on_error s.
Proof. by intros (_&_&_&_&_&?&_). Qed.

Lemma same_config_cards (s s' : RebuildManager) :
  same_config s s' → restore_cards s' = restore_cards s.
Proof. by intros (_&_&?&_). Qed.

(** The turn for a member that is not in the target group: the friend
    list is fetched, the outcome is recorded, and then either the job
    stops on the failure, or the restore calls follow a success and the
    callback and the throttle close the turn. *)
Lemma handle_member_invite (group_id : Z) (bot : option Z) (cb : bool)
    (ids : gset Z) (m : BackupMember.t) (w : World Env)
    (p : RebuildProgress.t) :
  _progress (self w) = Some p →
  Some (BackupMember.user_id m) ≠ bot →
  BackupMember.user_id m ∉ ids →
  let run := handle_member group_id bot cb ids m w in
  let s0 := set_progress
              (Some (RebuildProgress.set_current_user
                       (Some (BackupMember.user_id m)) p)) (self w) in
  let r := invite_outcome m (outcome (respond Op.get_friend_list (env w))) in
  let ev0 := {| op := Op.get_friend_list; seen := _progress s0;
                arrived := controls (respond Op.get_friend_list (env w)) |} in
  let s1 := apply_controls (arrived ev0) s0 in
  ∃ p1 p2 evs2 s3,
    _progress s1 = Some p1
    ∧ recorded r p1 p2
    ∧ RebuildProgress.status p2 = RebuildProgress.status p1
    ∧ trace run.2 = trace w ++ ev0 :: evs2
    ∧ chain (set_progress (Some p2) s1) evs2 s3
    ∧ if stops_job (self w) r
      then evs2 = [] ∧ run.1 = Ok Break
           ∧ self run.2
             = set_progress
                 (Some (RebuildProgress.set_error_message
                          (InviteResult.message r)
                          (RebuildProgress.set_status RebuildStatus.FAILED p2)))
                 s1
      else self run.2 = s3
           ∧ ∃ restores tail,
               evs2 = restores ++ tail
               ∧ Forall (λ ev, restore_op group_id (BackupMember.user_id m)
                                 (op ev)) restores
               ∧ Forall (λ ev, is_throttle_or_callback ev = true) tail
               ∧ (InviteResult.status r ≠ InviteStatus.SUCCESS → restores = [])
               ∧ (InviteResult.status r = InviteStatus.SUCCESS →
                  restore_cards (self w) = true →
                  ∃ ev, ev ∈ restores
                        ∧ op ev = Op.set_group_card group_id
                                    (BackupMember.user_id m)
                                    (or_empty (BackupMember.card m)))
               ∧ (callback_returns → sleep_returns →
                  throttle_tail cb (invite_interval (self w))
                                (λ q, job_frame q = job_frame p2) tail
                  ∧ ∃ ids', run.1 = Ok (NextMember ids')).
Proof.
  intros Hp Hbot Hin run s0 r ev0 s1. subst run. unfold handle_member.
  rewrite bind_modify_progress, bool_decide_eq_false_2 by done.
  rewrite bool_decide_eq_false_2 by done.
  set (w0 := (modify_progress _ w).2).
  assert (self w0 = s0) as Hs0 by (simpl; by rewrite Hp).
  assert (trace w0 = trace w) as Ht0 by done.
  assert (env w0 = env w) as He0 by done.
  clearbody w0.
  rewrite (bind_ok _ _ _ _ _ (invite_member_eq group_id m w0)).
  rewrite He0. fold r.
  set (w1 := (await Op.get_friend_list w0).2).
  assert (self w1 = s1) as Hs1.
  { subst w1 s1 ev0. rewrite await_world. simpl. by rewrite He0, Hs0. }
  assert (trace w1 = trace w ++ [ev0]) as Ht1.
  { subst w1 ev0. rewrite await_world. simpl. by rewrite He0, Hs0, Ht0. }
  assert (same_config (self w) s1) as Hcfg1.
  { subst s1. eapply same_config_trans; [|apply apply_controls_same_config].
    subst s0. by repeat split. }
  assert (∃ p1, _progress s1 = Some p1) as [p1 Hp1].
  { pose proof (apply_controls_job_eq (arrived ev0) s0) as Hj.
    destruct (job_eq_some _ _ Hj) as (p1 & Hp1 & _). by exists p1. }
  clearbody w1. rewrite !bind_modify_progress.
  set (w2 := (modify_progress _ (modify_progress _ w1).2).2).
  assert (self w2 = set_progress
            (Some (RebuildProgress.incr_processed
                     (RebuildProgress.append_result r p1))) s1) as Hs2.
  { subst w2. simpl. by rewrite Hs1, Hp1. }
  assert (trace w2 = trace w ++ [ev0]) as Ht2 by done.
  clearbody w2.
  unfold stops_job.
  destruct (InviteResult.status r) eqn:Er.
  - (* PENDING: counted as skipped *)
    rewrite bind_bind, bind_modify_progress, bind_ret.
    set (w3 := (modify_progress _ w2).2).
    set (p2 := RebuildProgress.incr_skipped
                 (RebuildProgress.incr_processed
                    (RebuildProgress.append_result r p1))).
    assert (self w3 = set_progress (Some p2) s1) as Hs3
      by (subst w3; simpl; by rewrite Hs2).
    assert (trace w3 = trace w ++ [ev0]) as Ht3 by done.
    clearbody w3.
    destruct (turn_tail cb (NextMember ids) w3 p2) as (tail & Ht & Hc & Htc & Hret);
      [by rewrite Hs3|].
    exists p1, p2, tail, (self (bind (notify_and_throttle cb)
                                 (λ _, ret (NextMember ids)) w3).2).
    rewrite bool_decide_eq_false_2 by done. simpl.
    split_and!; try done.
    + repeat split; simpl; by rewrite ?Er.
    + by rewrite Ht, Ht3, <- app_assoc.
    + by rewrite <- Hs3.
    + exists [], tail. split_and!; try done.
      intros Hcb Hsl. destruct (Hret Hcb Hsl) as [Htail Hok].
      rewrite Hs3 in Htail. simpl in Htail.
      rewrite (same_config_interval _ _ Hcfg1) in Htail.
      split; [|by exists ids].
      destruct Htail as (s & Hs & Hrest). exists s. split; [done|].
      destruct cb; [|done]. destruct Hrest as (c & q & ? & ? & ? & ->). eauto 10.
  - (* SUCCESS *)
    rewrite bind_bind, bind_modify_progress.
    set (w3 := (modify_progress _ w2).2).
    set (p2 := RebuildProgress.incr_success
                 (RebuildProgress.incr_processed
                    (RebuildProgress.append_result r p1))).
    assert (self w3 = set_progress (Some p2) s1) as Hs3
      by (subst w3; simpl; by rewrite Hs2).
    assert (trace w3 = trace w ++ [ev0]) as Ht3 by done.
    assert (_progress (self w3) = Some p2) as Hp3 by (by rewrite Hs3).
    clearbody w3. rewrite bind_bind.
    destruct (restore_returns group_id m w3) as [details Hd].
    pose proof (restore_suspended
                  (λ ev, restore_op group_id (BackupMember.user_id m) (op ev))
                  group_id m w3 (λ _ _ Ho, Ho)) as Hs.
    pose proof (restore_sets_card group_id m w3) as Hcard.
    destruct (_restore_member_info group_id m w3) as [r1 w4] eqn:E.
    simpl in Hd, Hs, Hcard. subst r1. rewrite (bind_ok _ _ _ _ _ E), bind_ret.
    destruct (suspended_chain _ _ _ _ Hs Hp3)
      as (p4 & restores & Ht4 & Hall & Hc4 & Hp4 & Hf4 & Hcfg4).
    destruct (turn_tail cb (NextMember (ids ∪ {[BackupMember.user_id m]})) w4 p4 Hp4)
      as (tail & Ht & Hc & Htc & Hret).
    eexists p1, p2, (restores ++ tail), _.
    rewrite bool_decide_eq_false_2 by done. simpl.
    split_and!; try done.
    + repeat split; simpl; by rewrite ?Er.
    + by rewrite Ht, Ht4, Ht3, <- !app_assoc.
    + rewrite <- Hs3. eapply chain_app; [exact Hc4|exact Hc].
    + exists restores, tail. split_and!; try done.
      * intros _ Hrc. assert (restore_cards (self w3) = true) as Hrc3.
        { rewrite Hs3. simpl. by rewrite (same_config_cards _ _ Hcfg1). }
        destruct (Hcard Hrc3) as (evs' & Ht').
        rewrite Ht4 in Ht'. apply app_inv_head in Ht'. subst restores.
        eexists. split; [apply list_elem_of_here|done].
      * intros Hcb Hsl. destruct (Hret Hcb Hsl) as [Htail Hok].
        rewrite (same_config_interval _ _ Hcfg4), Hs3 in Htail. simpl in Htail.
        rewrite (same_config_interval _ _ Hcfg1) in Htail.
        split; [|by eexists].
        destruct Htail as (s & Hs' & Hrest). exists s. split; [done|].
        destruct cb; [|done]. destruct Hrest as (c & q & ? & ? & ? & ->). eauto 10.
  - (* FAILED *)
    rewrite bind_bind, bind_modify_progress.
    set (w3 := (modify_progress _ w2).2).
    set (p2 := RebuildProgress.incr_failed
                 (RebuildProgress.incr_processed
                    (RebuildProgress.append_result r p1))).
    assert (self w3 = set_progress (Some p2) s1) as Hs3
      by (subst w3; simpl; by rewrite Hs2).
    assert (trace w3 = trace w ++ [ev0]) as Ht3 by done.
    clearbody w3. rewrite bind_bind, bind_gets.
    rewrite bool_decide_eq_true_2 by done. simpl.
    assert (continue_on_error (self w3) = continue_on_error (self w)) as Hce.
    { rewrite Hs3. simpl. by rewrite (same_config_continue _ _ Hcfg1). }
    rewrite Hce. destruct (continue_on_error (self w)); simpl.
    + rewrite bind_ret.
      destruct (turn_tail cb (NextMember ids) w3 p2) as (tail & Ht & Hc & Htc & Hret);
        [by rewrite Hs3|].
      eexists p1, p2, tail, _.
      split_and!; try done.
      * repeat split; simpl; by rewrite ?Er.
      * by rewrite Ht, Ht3, <- app_assoc.
      * rewrite <- Hs3. exact Hc.
      * exists [], tail. split_and!; try done.
        intros Hcb Hsl. destruct (Hret Hcb Hsl) as [Htail Hok].
        rewrite Hs3 in Htail. simpl in Htail.
        rewrite (same_config_interval _ _ Hcfg1) in Htail.
        split; [|by exists ids].
        destruct Htail as (s & Hs & Hrest). exists s. split; [done|].
        destruct cb; [|done]. destruct Hrest as (c & q & ? & ? & ? & ->). eauto 10.
    + exists p1, p2, [], (set_progress (Some p2) s1).
      split_and!; try done.
      * repeat split; simpl; by rewrite ?Er.
      * rewrite Hs3. reflexivity.
  - (* SKIPPED *)
    rewrite bind_bind, bind_modify_progress, bind_ret.
    set (w3 := (modify_progress _ w2).2).
    set (p2 := RebuildProgress.incr_skipped
                 (RebuildProgress.incr_processed
                    (RebuildProgress.append_result r p1))).
    assert (self w3 = set_progress (Some p2) s1) as Hs3
      by (subst w3; simpl; by rewrite Hs2).
    assert (trace w3 = trace w ++ [ev0]) as Ht3 by done.
    clearbody w3.
    destruct (turn_tail cb (NextMember ids) w3 p2) as (tail & Ht & Hc & Htc & Hret);
      [by rewrite Hs3|].
    exists p1, p2, tail, (self (bind (notify_and_throttle cb)
                                 (λ _, ret (NextMember ids)) w3).2).
    rewrite bool_decide_eq_false_2 by done. simpl.
    split_and!; try done.
    + repeat split; simpl; by rewrite ?Er.
    + by rewrite Ht, Ht3, <- app_assoc.
    + by rewrite <- Hs3.
    + exists [], tail. split_and!; try done.
      intros Hcb Hsl. destruct (Hret Hcb Hsl) as [Htail Hok].
      rewrite Hs3 in Htail. simpl in Htail.
      rewrite (same_config_interval _ _ Hcfg1) in Htail.
      split; [|by exists ids].
      destruct Htail as (s & Hs & Hrest). exists s. split; [done|].
      destruct cb; [|done]. destruct Hrest as (c & q & ? & ? & ? & ->). eauto 10.
Qed.

End TurnFacts.

Section TurnTheorems.
Context {Env : Type} `{Environment Env}.

Lemma recorded_frame (r : InviteResult.t) (u : option Z)
    (p p1 p' : RebuildProgress.t) :
  job_frame p1 = job_frame (RebuildProgress.set_current_user u p) →
  recorded r p1 p' → recorded r p p'.
Proof.
  intros Hf. destruct (frame_fields _ _ Hf) as (Ht & Hp & Hs & Hfa & Hsk & Hr).
  simpl in *. unfold recorded. by rewrite Ht, Hp, Hs, Hfa, Hsk, Hr.
Qed.

Lemma chain_job (s s' : RebuildManager) (evs : list Event)
    (p p' : RebuildProgress.t) :
  chain s evs s' → _progress s = Some p → _progress s' = Some p' →
  job_frame p' = job_frame p.
Proof.
  intros Hc Hp Hp'. destruct (chain_frame _ _ _ Hc) as (_ & Hj & _).
  rewrite Hp, Hp' in Hj. unfold job_eq in Hj. simpl in Hj. congruence.
Qed.

Lemma chain_some (s s' : RebuildManager) (evs : list Event)
    (p : RebuildProgress.t) :
  chain s evs s' → _progress s = Some p →
  ∃ p', _progress s' = Some p' ∧ job_frame p' = job_frame p.
Proof.
  intros Hc Hp. destruct (chain_frame _ _ _ Hc) as (_ & Hj & _).
  rewrite Hp in Hj. by apply job_eq_some.
Qed.

Lemma process_member_running (polls : nat) (group_id : Z) (bot : option Z)
    (cb : bool) (ids : gset Z) (m : BackupMember.t) (w : World Env) :
  _cancelled (self w) = false → _paused (self w) = false →
  process_member polls group_id bot cb ids m w
  = handle_member group_id bot cb ids m w.
Proof.
  intros Hc Hp. unfold process_member. rewrite bind_gets, Hc.
  by rewrite (bind_ok _ _ _ _ _ (wait_not_paused polls w Hp)).
Qed.

Lemma restore_op_client (g u : Z) (o : Op.t) :
  restore_op g u o → Op.client_call o = true.
Proof. by destruct o. Qed.

(** C5, as the code has it. Take any turn of the member loop that
    finds the job neither cancelled nor paused, with a callback and a
    sleep that return. The turn records exactly one outcome for the
    member: [processed] and the counter matching the outcome are
    incremented. If the member is the bot itself the turn awaits
    nothing, and if the member is already in the target group it awaits
    the restore calls only; either way the loop goes straight on to the
    next member. Otherwise the member goes through the invite attempt:
    unless a failure stops the job, the turn ends with the progress
    callback (if one was supplied, called with the updated record)
    followed by a sleep of 60 / invites_per_minute seconds. *)
Theorem member_turn_bookkeeping_and_throttle (w : World Env) (polls : nat)
    (group_id : Z) (bot : option Z) (cb : bool) (ids : gset Z)
    (m : BackupMember.t) (p : RebuildProgress.t) :
  _progress (self w) = Some p →
  _cancelled (self w) = false →
  _paused (self w) = false →
  invite_interval (self w)
  = Qdiv (Qmake 60 1) (inject_Z (invites_per_minute (self w))) →
  callback_returns → sleep_returns →
  let run := process_member polls group_id bot cb ids m w in
  ∃ r p' evs,
    _progress (self run.2) = Some p'
    ∧ recorded r p p'
    ∧ InviteResult.user_id r = BackupMember.user_id m
    ∧ trace run.2 = trace w ++ evs
    ∧ if bool_decide (Some (BackupMember.user_id m) = bot) then
        run.1 = Ok (NextMember ids) ∧ evs = []
      else if bool_decide (BackupMember.user_id m ∈ ids) then
        run.1 = Ok (NextMember ids)
        ∧ Forall (λ ev, restore_op group_id (BackupMember.user_id m) (op ev)) evs
      else if stops_job (self w) r then
        run.1 = Ok Break ∧ op <$> evs = [Op.get_friend_list]
      else
        ∃ calls tail ids',
          evs = calls ++ tail
          ∧ Forall (λ ev, Op.client_call (op ev) = true) calls
          ∧ throttle_tail cb
              (Qdiv (Qmake 60 1) (inject_Z (invites_per_minute (self w))))
              (λ q, RebuildProgress.processed q
                    = S (RebuildProgress.processed p)) tail
          ∧ run.1 = Ok (NextMember ids').
Proof.
  intros Hp Hc Hpa Hint Hcb Hsl run. subst run.
  rewrite (process_member_running _ _ _ _ _ _ _ Hc Hpa).
  case_bool_decide as Hbot; [|case_bool_decide as Hin].
  - destruct (handle_member_bot group_id bot cb ids m w p Hp Hbot)
      as (p' & Hr & Ht & Hs & Hrec & _).
    exists (invite_result m InviteStatus.SKIPPED "Bot 自身"), p', [].
    rewrite Hs, Ht, app_nil_r. by split_and!.
  - destruct (handle_member_present group_id bot cb ids m w p Hp Hbot Hin)
      as (r & p1 & p' & evs & s1 & Hr & Ht & Hall & Hch & Hp1 & Hs & Hrec & _ & Hu).
    exists r, p', evs. rewrite Hs. split_and!; try done.
    eapply recorded_frame; [|exact Hrec].
    eapply chain_job; [exact Hch| |exact Hp1]. reflexivity.
  - destruct (handle_member_invite group_id bot cb ids m w p Hp Hbot Hin)
      as (p1 & p2 & evs2 & s3 & Hp1 & Hrec & Hst & Ht & Hch & Hcase).
    set (r := invite_outcome m _) in *.
    set (ev0 := {| op := Op.get_friend_list |}) in *.
    assert (InviteResult.user_id r = BackupMember.user_id m) as Hu.
    { subst r. unfold invite_outcome. repeat case_match; done. }
    assert (recorded r p p2) as Hrec2.
    { eapply recorded_frame; [|exact Hrec].
      pose proof (apply_controls_job_eq (arrived ev0)
                    (set_progress
                       (Some (RebuildProgress.set_current_user
                                (Some (BackupMember.user_id m)) p)) (self w)))
        as Hj.
      destruct (job_eq_some _ _ Hj) as (q & Hq & Hf).
      assert (Some q = Some p1) as Heq by (rewrite <- Hq; exact Hp1).
      by injection Heq as <-. }
    destruct (stops_job (self w) r) eqn:Estop.
    + destruct Hcase as (-> & Hr & Hs).
      eexists r, _, [ev0]. rewrite Hs, Estop. simpl.
      split_and!; try done.
    + destruct Hcase as (Hs & restores & tail & -> & Hall & _ & _ & _ & Hret).
      destruct (Hret Hcb Hsl) as [Htail [ids' Hok]].
      destruct (chain_some _ _ _ p2 Hch eq_refl) as (p' & Hp' & Hf).
      exists r, p', (ev0 :: restores ++ tail). rewrite Hs, Estop.
      split_and!; try done.
      * destruct (frame_fields _ _ Hf) as (Ht' & Hpr & Hsu & Hfa & Hsk & Hre).
        destruct Hrec2 as (?&?&?&?). unfold recorded.
        by rewrite Ht', Hpr, Hsu, Hfa, Hsk, Hre.
      * exists (ev0 :: restores), tail, ids'. split_and!; try done.
        -- constructor; [done|]. eapply Forall_impl; [exact Hall|].
           intros ev. apply restore_op_client.
        -- rewrite <- Hint. destruct Htail as (s & Hs' & Hrest).
           exists s. split; [done|]. destruct cb; [|done].
           destruct Hrest as (c & q & ? & ? & ? & Hfq).
           exists c, q. split_and!; try done.
           destruct (frame_fields _ _ Hfq) as (_ & -> & _).
           by destruct Hrec2 as (_ & ? & _).
Qed.




End TurnTheorems.

(** ** Restoring a member whose card is already right *)

Section RestoreTheorem.
Context {Env : Type} `{Environment Env}.

(** C9. For a member present in the target group whose live card equals
    the snapshot card (null and the empty string identified) and none of
    whose other enabled attributes differs, the dry run records no
    change needed; in execution mode, with card restoring on, the turn
    of that member nevertheless begins with a [set_group_card] call
    that sends the snapshot card again: the execution never reads the
    live card. *)
Theorem restore_of_equal_card (w : World Env) (group_id : Z)
    (bot_user_id : option Z) (progress_callback : bool)
    (roster : list OneBotMember.t) (friends : list Z)
    (live : OneBotMember.t) (member : BackupMember.t) :
  Some (BackupMember.user_id member) ≠ bot_user_id →
  live_record roster (BackupMember.user_id member) = Some live →
  restore_cards (self w) = true →
  or_empty (OneBotMember.card live) = or_empty (BackupMember.card member) →
  (restore_titles (self w) = true →
   or_empty (OneBotMember.title live) = or_empty (BackupMember.title member)) →
  (restore_admins (self w) = true → BackupMember.role member = "admin"%string →
   get_default (OneBotMember.role live) "member" = Some "admin"%string
   ∨ get_default (OneBotMember.role live) "member" = Some "owner"%string) →
  (∀ s, bucket_of
          (dry_run_member (self w) bot_user_id
             (BackupManager.by_user_id OneBotMember.user_id roster)
             (list_to_set friends) member s).2
        = Some SkipNoChange)
  ∧ ∃ ev evs,
      trace (handle_member group_id bot_user_id progress_callback
               (BackupManager.id_set OneBotMember.user_id roster) member w).2
      = trace w ++ ev :: evs
      ∧ op ev = Op.set_group_card group_id (BackupMember.user_id member)
                  (or_empty (BackupMember.card member)).
Proof.
  intros Hbot Hlive Hrc Hcard Htitle Hadmin. split.
  - intros s. rewrite dry_run_member_bucket. unfold preview_bucket, bucket_by.
    rewrite bool_decide_eq_false_2 by congruence.
    rewrite Hlive. unfold restore_due. rewrite Hrc.
    rewrite (bool_decide_eq_false_2 (or_empty (OneBotMember.card live) ≠ _))
      by (intros Hne; by apply Hne).
    simpl. destruct (restore_titles (self w)).
    + rewrite bool_decide_eq_false_2 by (intros Hne; by apply Hne, Htitle).
      simpl. destruct (restore_admins (self w)); [|done]. simpl.
      repeat case_bool_decide; simpl; try done.
      destruct Hadmin as [Ha|Ha]; done.
    + simpl. destruct (restore_admins (self w)); [|done]. simpl.
      repeat case_bool_decide; simpl; try done.
      destruct Hadmin as [Ha|Ha]; done.
  - unfold handle_member.
    rewrite bind_modify_progress, bool_decide_eq_false_2 by done.
    rewrite bool_decide_eq_true_2.
    2:{ apply BackupManagerFacts.elem_of_id_set, list_elem_of_fmap.
        exists live. apply last_Some_elem_of, list_elem_of_filter in Hlive.
        destruct Hlive as [Hk Hin]. by split. }
    set (w0 := (modify_progress _ w).2).
    assert (restore_cards (self w0) = true) as Hrc0.
    { subst w0. simpl. by destruct (_progress (self w)). }
    destruct (restore_sets_card group_id member w0 Hrc0) as [evs Ht].
    destruct (restore_returns group_id member w0) as [details Hd].
    destruct (_restore_member_info group_id member w0) as [r1 w1] eqn:E.
    simpl in Hd, Ht. subst r1. rewrite (bind_ok _ _ _ _ _ E).
    exists (event_of (Op.set_group_card group_id (BackupMember.user_id member)
                        (or_empty (BackupMember.card member))) w0), evs.
    split; [|reflexivity]. rewrite <- Ht.
    destruct details; rewrite bind_bind, !bind_modify_progress; reflexivity.
Qed.

End RestoreTheorem.

Section ScenarioTurns.

Lemma script_callback_returns : @callback_returns Script _.
Proof. intros q e. by exists Done. Defined.

Lemma script_sleep_returns : @sleep_returns Script _.
Proof. intros s e. by exists Done. Defined.

(** Witness of [member_turn_bookkeeping_and_throttle]: the turn for
    member 3 of the scenario, who is absent from the target group and a
    friend, with a progress callback. *)
Lemma member_turn_bookkeeping_and_throttle_witness :
  let w := scenario_turn (scenario []) in
  let run := process_member 0 7 (Some 99) true ∅ (snapshot_member 3 "C") w in
  ∃ r p' evs,
    _progress (self run.2) = Some p'
    ∧ recorded r (RebuildProgress.started 3) p'
    ∧ InviteResult.user_id r = 3
    ∧ trace run.2 = trace w ++ evs
    ∧ if stops_job (self w) r then
        run.1 = Ok Break ∧ op <$> evs = [Op.get_friend_list]
      else
        ∃ calls tail ids',
          evs = calls ++ tail
          ∧ Forall (λ ev, Op.client_call (op ev) = true) calls
          ∧ throttle_tail true (Qdiv (Qmake 60 1) (inject_Z 10))
              (λ q, RebuildProgress.processed q = 1%nat) tail
          ∧ run.1 = Ok (NextMember ids').
Proof.
  exact (member_turn_bookkeeping_and_throttle
           (scenario_turn (scenario [])) 0 7 (Some 99) true ∅
           (snapshot_member 3 "C") (RebuildProgress.started 3)
           eq_refl eq_refl eq_refl eq_refl
           script_callback_returns script_sleep_returns).
Defined.



(** Witness of [restore_of_equal_card]: member 2 of the scenario, whose
    card is B in the snapshot and in the target group. *)
Lemma restore_of_equal_card_witness :
  let w := scenario_turn (scenario []) in
  (∀ s, bucket_of
          (dry_run_member (self w) (Some 99)
             (BackupManager.by_user_id OneBotMember.user_id scenario_roster)
             (list_to_set [3]) (snapshot_member 2 "B") s).2
        = Some SkipNoChange)
  ∧ ∃ ev evs,
      trace (handle_member 7 (Some 99) false
               (BackupManager.id_set OneBotMember.user_id scenario_roster)
               (snapshot_member 2 "B") w).2
      = trace w ++ ev :: evs
      ∧ op ev = Op.set_group_card 7 2 "B".
Proof.
  refine (restore_of_equal_card (scenario_turn (scenario [])) 7 (Some 99) false
            scenario_roster [3] (live_member 2 "B") (snapshot_member 2 "B")
            _ eq_refl eq_refl eq_refl _ _).
  - discriminate.
  - discriminate.
  - discriminate.
Defined.

End ScenarioTurns.
(** ** Runs without controls *)

Section AwaitedFacts.
Context {Env : Type} `{Environment Env}.
Context (P : Event → Prop) (HP : ∀ (o : Op.t) (w : World Env), P (event_of o w)).

Lemma awaited_refl (w : World Env) : awaited P w w.
Proof. exists []. by rewrite app_nil_r. Qed.

Lemma awaited_trans (w1 w2 w3 : World Env) :
  awaited P w1 w2 → awaited P w2 w3 → awaited P w1 w3.
Proof.
  intros (evs1 & Ht1 & H1) (evs2 & Ht2 & H2). exists (evs1 ++ evs2).
  split; [by rewrite Ht2, Ht1, app_assoc|]. by apply Forall_app.
Qed.

Lemma suspended_awaited (w w' : World Env) : suspended P w w' → awaited P w w'.
Proof. intros (evs & Ht & Hall & _). by exists evs. Qed.

Lemma bind_awaited {A B : Type} (m : M A) (k : A → M B) (w : World Env) :
  awaited P w (m w).2 →
  (∀ a w1, awaited P w1 (k a w1).2) →
  awaited P w (bind m k w).2.
Proof.
  intros Hm Hk. unfold bind.
  destruct (m w) as [[a|e|] w1]; simpl in *; try done.
  eapply awaited_trans; [exact Hm|]. apply Hk.
Qed.

Lemma modify_progress_awaited (f : RebuildProgress.t → RebuildProgress.t)
    (w : World Env) :
  awaited P w (modify_progress f w).2.
Proof. exists []. simpl. by rewrite app_nil_r. Qed.

Lemma restore_awaited (group_id : Z) (m : BackupMember.t) (w : World Env) :
  awaited P w (_restore_member_info group_id m w).2.
Proof. apply suspended_awaited, restore_suspended. intros; apply HP. Qed.

Lemma notify_awaited (cb : bool) (w : World Env) :
  awaited P w (notify_and_throttle cb w).2.
Proof. apply suspended_awaited, notify_suspended; intros; apply HP. Qed.

Lemma invite_awaited (group_id : Z) (m : BackupMember.t) (w : World Env) :
  awaited P w (_invite_member group_id m w).2.
Proof.
  rewrite invite_member_eq. simpl.
  apply suspended_awaited, await_suspended, (HP Op.get_friend_list w).
Qed.

(** Every event of a turn is the event of an awaited operation. *)
Lemma handle_member_awaited (group_id : Z) (bot : option Z) (cb : bool)
    (ids : gset Z) (m : BackupMember.t) (w : World Env) :
  awaited P w (handle_member group_id bot cb ids m w).2.
Proof.
  unfold handle_member.
  apply bind_awaited; [apply modify_progress_awaited|]. intros _ w0.
  case_bool_decide.
  { repeat (apply bind_awaited; [apply modify_progress_awaited|]; intros _ ?).
    apply awaited_refl. }
  case_bool_decide.
  { apply bind_awaited; [apply restore_awaited|]. intros details w1.
    apply bind_awaited.
    { destruct details;
        (apply bind_awaited; [apply modify_progress_awaited|]; intros _ ?);
        apply awaited_refl. }
    intros r wr.
    repeat (apply bind_awaited; [apply modify_progress_awaited|]; intros _ ?).
    apply awaited_refl. }
  apply bind_awaited; [apply invite_awaited|]. intros r w1.
  repeat (apply bind_awaited; [apply modify_progress_awaited|]; intros _ ?).
  apply bind_awaited.
  { destruct (InviteResult.status r).
    - apply bind_awaited; [apply modify_progress_awaited|]. intros _ ?.
      apply awaited_refl.
    - apply bind_awaited; [apply modify_progress_awaited|]. intros _ ?.
      apply bind_awaited; [apply restore_awaited|]. intros; apply awaited_refl.
    - apply bind_awaited; [apply modify_progress_awaited|]. intros _ ?.
      apply bind_awaited; [apply awaited_refl|]. intros c ?.
      destruct c; [apply awaited_refl|].
      repeat (apply bind_awaited; [apply modify_progress_awaited|]; intros _ ?).
      apply awaited_refl.
    - apply bind_awaited; [apply modify_progress_awaited|]. intros _ ?.
      apply awaited_refl. }
  intros ctl wc. destruct ctl; [|apply awaited_refl].
  apply bind_awaited; [apply notify_awaited|]. intros; apply awaited_refl.
Qed.

End AwaitedFacts.

Section QuietRun.
Context {Env : Type} `{Environment Env}.
Context (Hq : quiet) (Hcb : callback_returns) (Hsl : sleep_returns).

Local Abbreviation calm := (λ ev : Event, arrived ev = []).

Lemma calm_event (o : Op.t) (w : World Env) : calm (event_of o w).
Proof. apply Hq. Qed.

(** Events recorded without controls leave the manager as it was and
    show its job record. *)
Lemma calm_chain (w w' : World Env) (s s' : RebuildManager)
    (evs : list Event) :
  awaited calm w w' → trace w' = trace w ++ evs → chain s evs s' →
  s' = s ∧ Forall (λ ev, seen ev = _progress s) evs.
Proof.
  intros (evs' & Ht' & Hall) Ht Hch. rewrite Ht' in Ht.
  apply app_inv_head in Ht. subst evs'. by apply chain_quiet.
Qed.

Lemma calm_tail (w w' : World Env) (ev : Event) (evs : list Event) :
  awaited calm w w' → trace w' = trace w ++ ev :: evs →
  calm ev ∧ awaited calm {| self := self w; env := env w;
                            trace := trace w ++ [ev] |} w'.
Proof.
  intros (evs' & Ht' & Hall) Ht. rewrite Ht' in Ht.
  apply app_inv_head in Ht. subst evs'.
  inversion Hall as [|? ? Hev Hrest]; subst. split; [done|].
  exists evs. simpl. by rewrite <- app_assoc.
Qed.

Local Abbreviation running :=
  (λ ev : Event,
     RebuildProgress.status <$> seen ev = Some RebuildStatus.RUNNING).

(** One turn without controls: the job stays running and goes on, or
    fails and stops. *)
Lemma quiet_turn (polls : nat) (group_id : Z) (bot : option Z) (cb : bool)
    (ids : gset Z) (m : BackupMember.t) (w : World Env)
    (p : RebuildProgress.t) :
  _progress (self w) = Some p →
  RebuildProgress.status p = RebuildStatus.RUNNING →
  _cancelled (self w) = false → _paused (self w) = false →
  let run := process_member polls group_id bot cb ids m w in
  ∃ p' evs,
    _progress (self run.2) = Some p'
    ∧ trace run.2 = trace w ++ evs
    ∧ Forall running evs
    ∧ _cancelled (self run.2) = false ∧ _paused (self run.2) = false
    ∧ ((∃ ids', run.1 = Ok (NextMember ids')
                ∧ RebuildProgress.status p' = RebuildStatus.RUNNING)
       ∨ (run.1 = Ok Break
          ∧ RebuildProgress.status p' = RebuildStatus.FAILED)).
Proof.
  intros Hp Hst Hc Hpa run. subst run.
  rewrite (process_member_running _ _ _ _ _ _ _ Hc Hpa).
  pose proof (handle_member_awaited calm calm_event group_id bot cb ids m w) as Haw.
  destruct (decide (Some (BackupMember.user_id m) = bot)) as [Hbot|Hbot];
    [|destruct (decide (BackupMember.user_id m ∈ ids)) as [Hin|Hin]].
  - destruct (handle_member_bot group_id bot cb ids m w p Hp Hbot)
      as (p' & Hr & Ht & Hs & _ & Hst').
    exists p', []. rewrite Hs, Ht, app_nil_r. simpl.
    split_and!; try done. left. exists ids. split; [done|]. congruence.
  - destruct (handle_member_present group_id bot cb ids m w p Hp Hbot Hin)
      as (r & p1 & p' & evs & s1 & Hr & Ht & _ & Hch & Hp1 & Hs & _ & Hst' & _).
    destruct (calm_chain _ _ _ _ _ Haw Ht Hch) as [-> Hseen].
    simpl in Hp1. injection Hp1 as <-.
    exists p', evs. rewrite Hs. simpl. split_and!; try done.
    + eapply Forall_impl; [exact Hseen|]. intros ev Hev. cbv beta.
      rewrite Hev. simpl. by rewrite Hst.
    + left. exists ids. split; [done|]. by rewrite Hst'.
  - destruct (handle_member_invite group_id bot cb ids m w p Hp Hbot Hin)
      as (p1 & p2 & evs2 & s3 & Hp1 & Hrec & Hst2 & Ht & Hch & Hcase).
    destruct (calm_tail _ _ _ _ Haw Ht) as [Hev0 Haw2].
    cbv beta in Hev0. simpl in Hev0. simpl in Hp1, Hch, Hcase.
    rewrite Hev0 in Hp1, Hch, Hcase. simpl in Hp1, Hch, Hcase.
    injection Hp1 as <-. simpl in Hst2.
    assert (trace (handle_member group_id bot cb ids m w).2
            = (trace w ++ [{| op := Op.get_friend_list;
                              seen := Some (RebuildProgress.set_current_user
                                              (Some (BackupMember.user_id m)) p);
                              arrived := controls (respond Op.get_friend_list
                                                     (env w)) |}]) ++ evs2)
      as Ht2 by (by rewrite <- app_assoc).
    destruct (calm_chain _ _ _ _ _ Haw2 Ht2 Hch) as [-> Hseen].
    destruct (stops_job (self w) _).
    + destruct Hcase as (-> & Hr & Hs).
      eexists _, _. rewrite Hs. simpl. split_and!; try done.
      * repeat constructor. cbv beta. simpl. by rewrite Hst.
      * by right.
    + destruct Hcase as (Hs & restores & tail & -> & _ & _ & _ & _ & Hret).
      destruct (Hret Hcb Hsl) as [_ [ids' Hok]].
      eexists p2, (_ :: restores ++ tail). rewrite Hs. simpl.
      split_and!; try done.
      * constructor; [cbv beta; simpl; by rewrite Hst|].
        eapply Forall_impl; [exact Hseen|]. intros ev Hev. cbv beta.
        rewrite Hev. simpl. by rewrite Hst2, Hst.
      * left. exists ids'. split; [done|]. by rewrite Hst2.
Qed.


(** The prologue without controls leaves a fresh running job. *)
Lemma quiet_prologue (group_id : Z) (members : list BackupMember.t)
    (w : World Env) :
  ∃ start w1 evs,
    rebuild_prologue group_id members w = (Ok start, w1)
    ∧ self w1
      = set_flags false false
          (set_progress (Some (RebuildProgress.started (length members)))
                        (self w))
    ∧ trace w1 = trace w ++ evs
    ∧ Forall running evs.
Proof.
  destruct (prologue_returns group_id members w) as [start Hst].
  assert (suspended calm
            {| self := set_flags false false
                         (set_progress
                            (Some (RebuildProgress.started (length members)))
                            (self w));
               env := env w; trace := trace w |}
            (rebuild_prologue group_id members w).2) as (evs & Ht & Hall & Hch).
  { unfold rebuild_prologue. rewrite bind_modify.
    apply bind_suspended.
    { apply try_except_suspended.
      - apply bind_suspended;
          [apply get_group_member_list_suspended, (calm_event _ _)|].
        intros; apply suspended_refl.
      - intros; apply suspended_refl. }
    intros ids w1 _. apply bind_suspended.
    { apply try_except_suspended;
        [apply get_login_info_suspended, (calm_event _ _)|].
      intros; apply suspended_refl. }
    intros bot w2 _. apply bind_suspended; [apply suspended_refl|].
    intros welcome w3 _. apply bind_suspended; [|intros; apply suspended_refl].
    destruct welcome; [|apply suspended_refl].
    rewrite guarded_call. apply await_event, calm_event. }
  destruct (rebuild_prologue group_id members w) as [r1 w1]. simpl in *. subst r1.
  destruct (chain_quiet _ _ _ Hall Hch) as [Hs Hseen]. simpl in *.
  exists start, w1, evs. split_and!; try done.
  eapply Forall_impl; [exact Hseen|]. intros ev Hev. cbv beta.
  by rewrite Hev.
Qed.


End QuietRun.

Section StatusTheorem.
Context {Env : Type} `{Environment Env}.


End StatusTheorem.

Section UnattendedRuns.

Lemma unattended_quiet : @quiet Unattended _.
Proof. intros o e. reflexivity. Defined.

Lemma unattended_callback_returns : @callback_returns Unattended _.
Proof. intros q e. by exists Done. Defined.

Lemma unattended_sleep_returns : @sleep_returns Unattended _.
Proof. intros s e. by exists Done. Defined.


End UnattendedRuns.

(** * Further properties *)

(** ** The comparison of two backups and the history of a backup *)

Module BackupManagerMore.
Import BackupManager BackupManagerFacts.

Lemma omap_none {A B : Type} (f : A → option B) (l : list A) :
  (∀ x, x ∈ l → f x = None) → omap f l = [].
Proof.
  induction l as [|x l IH]; intros Hall; [done|].
  simpl. rewrite (Hall x) by set_solver. apply IH. intros y Hy. apply Hall. set_solver.
Qed.

Lemma omap_length_le {A B : Type} (f : A → option B) (l : list A) :
  (length (omap f l) ≤ length l)%nat.
Proof.
  unfold omap. induction l as [|x l IH]; simpl; [lia|]. destruct (f x); simpl; lia.
Qed.

(** X1. Comparing a backup with itself: nobody joined, nobody left, no card
    changed, and every distinct user remained. *)
Theorem compare_backups_same (members : list BackupMember.t) :
  let r := compare_backups members members in
  cmp_joined r = [] ∧ cmp_left r = [] ∧ card_changed r = []
  ∧ cmp_remained r
    = size (list_to_set (BackupMember.user_id <$> members) : gset Z).
Proof.
  intros r. subst r. unfold compare_backups, compare_sets. simpl.
  rewrite !difference_diag_L, elements_empty. simpl.
  split_and!; try done.
  - apply omap_none. intros uid _.
    destruct (by_user_id BackupMember.user_id members !! uid); [|done].
    by rewrite bool_decide_eq_false_2 by (intros Hne; by apply Hne).
  - f_equal. apply set_eq. intros uid.
    rewrite intersection_idemp_L, elem_of_dom_by_user_id, elem_of_list_to_set. done.
Qed.

(** X2. Swapping the two backups swaps the roles: who joined one way left
    the other way, the same number of users remained, and the same card
    changes are reported with old and new exchanged (the lists are
    compared up to their order, which is the iteration order of a
    Python set). *)
Theorem compare_backups_swap (members_1 members_2 : list BackupMember.t) :
  let r := compare_backups members_1 members_2 in
  let r' := compare_backups members_2 members_1 in
  cmp_joined r' ≡ₚ cmp_left r
  ∧ cmp_left r' ≡ₚ cmp_joined r
  ∧ cmp_remained r' = cmp_remained r
  ∧ card_changed r'
    ≡ₚ (λ c, {| cc_user_id := cc_user_id c; old_card := new_card c;
                new_card := old_card c |}) <$> card_changed r.
Proof.
  intros r r'. subst r r'. unfold compare_backups, compare_sets. simpl.
  split_and!; try done.
  - f_equal. apply (comm_L (∩)).
  - match goal with |- ?a ≡ₚ ?b => assert (a = b) as ->; [|done] end.
    set (u1 := by_user_id BackupMember.user_id members_1).
    set (u2 := by_user_id BackupMember.user_id members_2).
    rewrite (comm_L (∩) (dom u2) (dom u1)).
    induction (elements (dom u1 ∩ dom u2 : gset Z)) as [|uid l IH]; [done|].
    cbn [omap list_omap].
    destruct (u1 !! uid) as [m1|], (u2 !! uid) as [m2|]; try done.
    destruct (decide (BackupMember.card m1 = BackupMember.card m2)) as [Heq|Hne].
    + rewrite !bool_decide_eq_false_2 by (intros Hn; apply Hn; congruence). done.
    + rewrite !bool_decide_eq_true_2 by congruence. rewrite fmap_cons. by f_equal.
Qed.

(** X3. What [card_changed] lists: exactly the users present in both
    backups whose stored cards differ, once each, with the two cards;
    should a backup hold several rows for a user, its last row counts. *)
Theorem card_changed_spec (members_1 members_2 : list BackupMember.t) :
  let r := compare_backups members_1 members_2 in
  (∀ c, c ∈ card_changed r ↔
     ∃ m1 m2,
       last (filter (λ m, BackupMember.user_id m = cc_user_id c) members_1) = Some m1
       ∧ last (filter (λ m, BackupMember.user_id m = cc_user_id c) members_2) = Some m2
       ∧ BackupMember.card m1 ≠ BackupMember.card m2
       ∧ old_card c = BackupMember.card m1
       ∧ new_card c = BackupMember.card m2)
  ∧ NoDup (cc_user_id <$> card_changed r)
  ∧ (length (card_changed r) ≤ cmp_remained r)%nat.
Proof.
  intros r. subst r. unfold compare_backups, compare_sets. simpl.
  set (u1 := by_user_id BackupMember.user_id members_1).
  set (u2 := by_user_id BackupMember.user_id members_2).
  set (f := λ user_id : Z,
         match u1 !! user_id, u2 !! user_id with
         | Some m1, Some m2 =>
             if bool_decide (BackupMember.card m1 ≠ BackupMember.card m2)
             then Some {| cc_user_id := user_id;
                          old_card := BackupMember.card m1;
                          new_card := BackupMember.card m2 |}
             else None
         | _, _ => None
         end).
  assert (∀ uid c, f uid = Some c → cc_user_id c = uid) as Hid.
  { intros uid c. unfold f.
    destruct (u1 !! uid), (u2 !! uid); try done.
    case_bool_decide; [|done]. by intros [= <-]. }
  split_and!.
  - intros c. rewrite list_elem_of_omap. split.
    + intros (uid & Hin & Hf). pose proof (Hid _ _ Hf) as <-.
      unfold f in Hf.
      destruct (u1 !! cc_user_id c) as [m1|] eqn:E1; [|done].
      destruct (u2 !! cc_user_id c) as [m2|] eqn:E2; [|done].
      case_bool_decide; [|done]. injection Hf as <-. simpl in *.
      exists m1, m2. subst u1 u2. rewrite by_user_id_lookup in E1, E2. done.
    + intros (m1 & m2 & H1 & H2 & Hne & Ho & Hn).
      exists (cc_user_id c).
      rewrite <- by_user_id_lookup in H1, H2. fold u1 in H1. fold u2 in H2.
      split.
      * apply elem_of_elements, elem_of_intersection.
        split; apply elem_of_dom; by eexists.
      * unfold f. rewrite H1, H2, bool_decide_eq_true_2 by done.
        destruct c; simpl in *; by subst.
  - assert (NoDup (elements (dom u1 ∩ dom u2 : gset Z))) as Hnd
      by apply NoDup_elements.
    induction (elements (dom u1 ∩ dom u2 : gset Z)) as [|uid l IH]; [constructor|].
    apply NoDup_cons in Hnd as [Hnin Hnd]. simpl.
    destruct (f uid) as [c|] eqn:Ef; [|by apply IH].
    simpl. apply NoDup_cons. split; [|by apply IH].
    rewrite (Hid _ _ Ef). intros Hin. apply Hnin.
    apply list_elem_of_fmap in Hin as (c' & Hc' & Hin).
    apply list_elem_of_omap in Hin as (uid' & Hin & Hf').
    rewrite Hc', (Hid _ _ Hf'). done.
  - unfold size, set_size. simpl. apply omap_length_le.
Qed.

Lemma constant_fmap {A B : Type} (l : list A) (f : A → B) (b : B) :
  (∀ x, x ∈ l → f x = b) → f <$> l = replicate (length l) b.
Proof.
  induction l as [|x l IH]; intros Hall; [done|].
  simpl. rewrite (Hall x) by apply list_elem_of_here. f_equal.
  apply IH. intros y Hy. apply Hall. by apply list_elem_of_further.
Qed.

Lemma omap_keys {A B : Type} (f : A → option B) (g : B → A) (l : list A) :
  (∀ x, x ∈ l → ∃ y, f x = Some y ∧ g y = x) → g <$> omap f l = l.
Proof.
  induction l as [|x l IH]; intros Hall; [done|].
  destruct (Hall x) as (y & Hy & Hg); [set_solver|].
  cbn [omap list_omap]. rewrite Hy, fmap_cons, Hg. f_equal.
  apply IH. intros z Hz. apply Hall. set_solver.
Qed.

Lemma id_set_list_to_set {A : Type} (key : A → Z) (l : list A) :
  id_set key l = list_to_set (key <$> l).
Proof.
  apply set_eq. intros uid. by rewrite elem_of_id_set, elem_of_list_to_set.
Qed.

Lemma dom_by_user_id {A : Type} (key : A → Z) (l : list A) :
  dom (by_user_id key l) = (list_to_set (key <$> l) : gset Z).
Proof.
  apply set_eq. intros uid. by rewrite elem_of_dom_by_user_id, elem_of_list_to_set.
Qed.

(** X4. The history records [backup_group] adds to the session, before
    anything is committed: one join record for every user who joined,
    then one leave record for every user who left, and nothing else,
    so no user gets two records and the records are as many as
    [new_members] and [left_members] say. The look-ups of lines 153
    and 164 cannot miss. *)
Theorem backup_group_history (old_rows : list Member.t)
    (members_data : list OneBotMember.t) :
  let d := backup_group_diff old_rows members_data in
  history_user_id <$> history d
  = elements (joined_ids d) ++ elements (left_ids d)
  ∧ history_action <$> history d
    = replicate (new_members d) "join"%string
      ++ replicate (left_members d) "leave"%string
  ∧ length (history d) = (new_members d + left_members d)%nat
  ∧ NoDup (history_user_id <$> history d)
  ∧ (∀ h, h ∈ history d →
       (history_action h = "join"%string ∧ history_user_id h ∈ joined_ids d)
       ∨ (history_action h = "leave"%string
          ∧ history_user_id h ∈ left_ids d)).
Proof.
  intros d. subst d. unfold backup_group_diff. simpl.
  set (old_members := by_user_id Member.user_id old_rows).
  set (new_user_ids := id_set OneBotMember.user_id members_data).
  set (joined := new_user_ids ∖ dom old_members).
  set (gone := dom old_members ∖ new_user_ids).
  set (joins := omap _ (elements joined)).
  set (leaves := omap _ (elements gone)).
  assert (history_user_id <$> joins = elements joined) as Hj.
  { apply omap_keys. intros uid Hin.
    apply elem_of_elements, elem_of_difference in Hin as [Hin _].
    apply elem_of_id_set, list_elem_of_fmap in Hin as (m & Hm & Hin).
    destruct (find (λ m0, bool_decide (OneBotMember.user_id m0 = uid))
                   members_data) as [m'|] eqn:Ef.
    + eexists. split; [reflexivity|]. done.
    + exfalso. apply list_elem_of_In in Hin. apply (find_none _ _ Ef) in Hin.
      by rewrite bool_decide_eq_true_2 in Hin. }
  assert (history_user_id <$> leaves = elements gone) as Hl.
  { apply omap_keys. intros uid Hin.
    apply elem_of_elements, elem_of_difference in Hin as [Hin _].
    apply elem_of_dom in Hin as [row Hrow].
    rewrite Hrow. eexists. split; [reflexivity|]. done. }
  assert (∀ h, h ∈ joins → history_action h = "join"%string) as Haj.
  { intros h Hh. apply list_elem_of_omap in Hh as (uid & _ & Hf).
    destruct (find _ members_data); [|done]. by injection Hf as <-. }
  assert (∀ h, h ∈ leaves → history_action h = "leave"%string) as Hal.
  { intros h Hh. apply list_elem_of_omap in Hh as (uid & _ & Hf).
    destruct (old_members !! uid); [|done]. by injection Hf as <-. }
  assert (length joins = size joined) as Hnj
    by (by rewrite <- (length_fmap history_user_id), Hj).
  assert (length leaves = size gone) as Hnl
    by (by rewrite <- (length_fmap history_user_id), Hl).
  split_and!.
  - by rewrite fmap_app, Hj, Hl.
  - rewrite fmap_app, <- Hnj, <- Hnl. f_equal.
    + apply (constant_fmap joins). exact Haj.
    + apply (constant_fmap leaves). exact Hal.
  - by rewrite length_app, Hnj, Hnl.
  - rewrite fmap_app, Hj, Hl. apply NoDup_app. split_and!.
    + apply NoDup_elements.
    + intros uid Hin Hin'. apply elem_of_elements in Hin, Hin'.
      apply elem_of_difference in Hin as [_ Hin].
      apply elem_of_difference in Hin' as [Hin' _]. done.
    + apply NoDup_elements.
  - intros h Hh. apply elem_of_app in Hh as [Hh|Hh].
    + left. split; [by apply Haj|].
      apply elem_of_elements. rewrite <- Hj. by apply list_elem_of_fmap_2.
    + right. split; [by apply Hal|].
      apply elem_of_elements. rewrite <- Hl. by apply list_elem_of_fmap_2.
Qed.

(** X5. The member count adds up: the distinct users of the roster and the
    users who left are as many as the distinct users on record and the
    users who joined. When neither the table nor the roster lists a
    user twice, the roster length is the old count plus the joins minus
    the leaves. *)
Theorem backup_group_member_count (old_rows : list Member.t)
    (members_data : list OneBotMember.t) :
  let d := backup_group_diff old_rows members_data in
  (size (list_to_set (OneBotMember.user_id <$> members_data) : gset Z)
   + left_members d
   = size (list_to_set (Member.user_id <$> old_rows) : gset Z)
     + new_members d)%nat
  ∧ (NoDup (Member.user_id <$> old_rows) →
     NoDup (OneBotMember.user_id <$> members_data) →
     (length members_data + left_members d
      = length old_rows + new_members d)%nat).
Proof.
  intros d.
  assert (size (list_to_set (OneBotMember.user_id <$> members_data) : gset Z)
          + left_members d
          = size (list_to_set (Member.user_id <$> old_rows) : gset Z)
            + new_members d)%nat as Hsize.
  { subst d. unfold backup_group_diff. simpl.
    rewrite id_set_list_to_set, dom_by_user_id.
    rewrite <- !size_union_alt. f_equal. apply (comm_L (∪)). }
  split; [exact Hsize|]. intros Hold Hnew.
  rewrite !size_list_to_set, !length_fmap in Hsize by done. exact Hsize.
Qed.

Lemma backup_group_member_count_witness :
  let old_rows := [Member.mk 1 "a" None; Member.mk 2 "b" None] in
  let members_data :=
    [OneBotMember.mk 2 (Str "x") None (Str "member") None;
     OneBotMember.mk 3 (Str "x") None (Str "member") None;
     OneBotMember.mk 4 (Str "x") None (Str "member") None] in
  let d := backup_group_diff old_rows members_data in
  (length members_data + left_members d
   = length old_rows + new_members d)%nat.
Proof.
  refine (proj2 (backup_group_member_count
                   [Member.mk 1 "a" None; Member.mk 2 "b" None]
                   [OneBotMember.mk 2 (Str "x") None (Str "member") None;
                    OneBotMember.mk 3 (Str "x") None (Str "member") None;
                    OneBotMember.mk 4 (Str "x") None (Str "member") None]) _ _).
  - apply (bool_decide_unpack _). vm_compute. exact I.
  - apply (bool_decide_unpack _). vm_compute. exact I.
Defined.
End BackupManagerMore.

(** ** Retention *)

Module RetentionFacts.
Import Retention.

Lemma filter_all {A : Type} (P : A → Prop) `{∀ x, Decision (P x)} (l : list A) :
  (∀ x, x ∈ l → P x) → filter P l = l.
Proof.
  induction l as [|x l IH]; intros Hall; [done|].
  rewrite filter_cons_True by (apply Hall; set_solver).
  f_equal. apply IH. intros y Hy. apply Hall. set_solver.
Qed.

Lemma filter_none {A : Type} (P : A → Prop) `{∀ x, Decision (P x)} (l : list A) :
  (∀ x, x ∈ l → ¬ P x) → filter P l = [].
Proof.
  induction l as [|x l IH]; intros Hall; [done|].
  rewrite filter_cons_False by (apply Hall; set_solver).
  apply IH. intros y Hy. apply Hall. set_solver.
Qed.

Lemma filter_ext_in {A : Type} (P Q : A → Prop) `{∀ x, Decision (P x)}
    `{∀ x, Decision (Q x)} (l : list A) :
  (∀ x, x ∈ l → P x ↔ Q x) → filter P l = filter Q l.
Proof.
  induction l as [|x l IH]; intros Hall; [done|].
  rewrite !filter_cons. rewrite IH by (intros y Hy; apply Hall; by right).
  destruct (decide (P x)) as [Hp|Hp], (decide (Q x)) as [Hq|Hq]; try done.
  - exfalso. apply Hq, (Hall x); [by left|done].
  - exfalso. apply Hp, (Hall x); [by left|done].
Qed.

Lemma NoDup_fmap_eq {A B : Type} (f : A → B) (l : list A) (x y : A) :
  NoDup (f <$> l) → x ∈ l → y ∈ l → f x = f y → x = y.
Proof.
  induction l as [|z l IH]; intros Hnd Hx Hy Heq; [set_solver|].
  rewrite fmap_cons in Hnd. apply NoDup_cons in Hnd as [Hz Hnd].
  apply elem_of_cons in Hx as [->|Hx]; apply elem_of_cons in Hy as [->|Hy].
  - done.
  - exfalso. apply Hz. rewrite Heq. by apply list_elem_of_fmap_2.
  - exfalso. apply Hz. rewrite <- Heq. by apply list_elem_of_fmap_2.
  - by apply IH.
Qed.

Lemma fold_delete_rows (deleted : list Backup.t) (st : Store) :
  rows (fold_left delete_backup deleted st)
  = filter (λ b, Backup.id b ∉ Backup.id <$> deleted) (rows st).
Proof.
  revert st. induction deleted as [|d ds IH]; intros st.
  - symmetry. apply filter_all. intros b _. apply not_elem_of_nil.
  - cbn [fold_left]. rewrite IH. unfold delete_backup at 1. cbn [rows].
    rewrite list_filter_filter. apply list_filter_iff. intros b.
    rewrite fmap_cons, not_elem_of_cons. tauto.
Qed.

Lemma fold_delete_files (deleted : list Backup.t) (st : Store) (f : string) :
  f ∈ files (fold_left delete_backup deleted st) ↔
  f ∈ files st ∧ ¬ (f ≠ EmptyString ∧ Some f ∈ Backup.file_path <$> deleted).
Proof.
  revert st. induction deleted as [|d ds IH]; intros st.
  - simpl. rewrite elem_of_nil. tauto.
  - cbn [fold_left]. rewrite IH, fmap_cons, elem_of_cons.
    unfold delete_backup at 1. cbn [files].
    destruct (Backup.file_path d) as [path|]; [|split; [intros [? ?]|intros [? ?]];
      (split; [done|]; intros [? Hc]); [destruct Hc; [done|tauto]|tauto]].
    destruct path as [|a path]; cbn [nonempty].
    + split; intros [Hf Hnot]; (split; [done|]); intros [Hf0 Hc].
      * destruct Hc as [Heq|Hin]; [by injection Heq|tauto].
      * tauto.
    + rewrite elem_of_difference, elem_of_singleton.
      split.
      * intros [[Hf Hne] Hnot]. split; [done|]. intros [Hf0 [Heq|Hin]].
        -- by injection Heq.
        -- tauto.
      * intros [Hf Hnot]. split; [split; [done|]|].
        -- intros ->. apply Hnot. split; [done|]. by left.
        -- intros [Hf0 Hin]. apply Hnot. split; [done|]. by right.
Qed.


#[local] Instance created_at_trans :
  Transitive (λ b b' : Backup.t, Backup.created_at b' ≤ Backup.created_at b).
Proof. intros x y z. lia. Qed.

(** The effect of a clean-up that deletes the backups from position [n]
    of the query answer on. *)
Lemma delete_from_spec (st : Store) (group_id : Z) (backups : list Backup.t)
    (n : nat) :
  NoDup (Backup.id <$> rows st) →
  selected (rows st) group_id backups →
  let st' := fold_left delete_backup (drop n backups) st in
  let kept := take n backups in
  let deleted := drop n backups in
  filter (λ b, Backup.group_id b = group_id) (rows st') ≡ₚ kept
  ∧ filter (λ b, Backup.group_id b ≠ group_id) (rows st')
    = filter (λ b, Backup.group_id b ≠ group_id) (rows st)
  ∧ (∀ b b', b ∈ kept → b' ∈ deleted →
       Backup.created_at b' ≤ Backup.created_at b)
  ∧ (∀ f, f ∈ files st' ↔
       f ∈ files st
       ∧ ¬ (f ≠ EmptyString ∧ Some f ∈ Backup.file_path <$> deleted))
  ∧ selected (rows st') group_id kept.
Proof.
  intros Hnd [Hperm Hsorted] st' kept deleted.
  assert (backups = kept ++ deleted) as Hsplit
    by (subst kept deleted; by rewrite take_drop).
  apply Sorted_StronglySorted in Hsorted; [|apply _].
  assert (∀ b, b ∈ backups → b ∈ rows st ∧ Backup.group_id b = group_id)
    as Hin.
  { intros b Hb. rewrite Hperm in Hb.
    apply list_elem_of_filter in Hb. tauto. }
  assert (NoDup (Backup.id <$> backups)) as Hndb.
  { rewrite Hperm. apply (NoDup_fmap_2_strong _).
    - intros x y Hx Hy Heq.
      apply list_elem_of_filter in Hx as [_ Hx].
      apply list_elem_of_filter in Hy as [_ Hy].
      by apply (NoDup_fmap_eq Backup.id (rows st)).
    - apply NoDup_filter. by apply NoDup_fmap_1 in Hnd. }
  assert (rows st'
          = filter (λ b, Backup.id b ∉ Backup.id <$> deleted) (rows st))
    as Hrows by apply fold_delete_rows.
  assert (filter (λ b, Backup.group_id b = group_id) (rows st') ≡ₚ kept)
    as Hkept.
  { rewrite Hrows, list_filter_filter.
    rewrite (list_filter_iff _ (λ b, (Backup.id b ∉ Backup.id <$> deleted)
                                     ∧ Backup.group_id b = group_id))
      by (intros; tauto).
    rewrite <- list_filter_filter, <- Hperm, Hsplit at 1. rewrite filter_app.
    rewrite Hsplit, fmap_app in Hndb. apply NoDup_app in Hndb as (_ & Hdisj & _).
    rewrite (filter_all _ kept), (filter_none _ deleted), app_nil_r; [done| |].
    - intros b Hb Hnot. apply Hnot. apply list_elem_of_fmap_2. exact Hb.
    - intros b Hb. apply Hdisj. apply list_elem_of_fmap_2. exact Hb. }
  split_and!.
  - exact Hkept.
  - rewrite Hrows, list_filter_filter. apply filter_ext_in. intros b Hb.
    split; [tauto|]. intros Hg. split; [done|]. intros Hid.
    apply list_elem_of_fmap in Hid as (d & Hd & Hdin).
    assert (d ∈ backups) as Hdb
      by (rewrite Hsplit; apply elem_of_app; by right).
    destruct (Hin d Hdb) as [Hdr Hdg].
    apply Hg. rewrite (NoDup_fmap_eq Backup.id (rows st) b d); done.
  - intros b b' Hb Hb'. rewrite Hsplit in Hsorted.
    apply (StronglySorted_app_1_elem_of _ _ _ _ _ Hsorted Hb Hb').
  - intros f. apply fold_delete_files.
  - split; [by symmetry|]. rewrite Hsplit in Hsorted.
    apply StronglySorted_Sorted. by apply StronglySorted_app_1_l in Hsorted.
Qed.

(** With [keep_count] not negative, the clean-up deletes the backups
    from position [keep_count] on, if any. *)
Lemma cleanup_eq (backups : list Backup.t) (keep_count : Z) (st : Store) :
  0 ≤ keep_count →
  cleanup_old_backups backups keep_count st
  = fold_left delete_backup (drop (Z.to_nat keep_count) backups) st.
Proof.
  intros Hk. unfold cleanup_old_backups, slice_from.
  rewrite (bool_decide_eq_true_2 (0 ≤ keep_count)) by done.
  case_bool_decide; [|done]. by rewrite drop_ge by lia.
Qed.

(** X6. Retention. With [keep_count] not negative, on a table whose ids are
    unique: of the backups of the group, the first [keep_count] of the
    query answer are kept and the others deleted, so every backup that
    is kept is at least as recent as every backup that is deleted; the
    backups of other groups stay; a file disappears only if it is the
    recorded, non-empty path of a deleted backup; and the kept backups
    are what the query answers afterwards. *)
Theorem cleanup_keeps_most_recent (st : Store) (group_id keep_count : Z)
    (backups : list Backup.t) :
  NoDup (Backup.id <$> rows st) →
  selected (rows st) group_id backups →
  0 ≤ keep_count →
  let st' := cleanup_old_backups backups keep_count st in
  let kept := take (Z.to_nat keep_count) backups in
  let deleted := drop (Z.to_nat keep_count) backups in
  filter (λ b, Backup.group_id b = group_id) (rows st') ≡ₚ kept
  ∧ filter (λ b, Backup.group_id b ≠ group_id) (rows st')
    = filter (λ b, Backup.group_id b ≠ group_id) (rows st)
  ∧ (∀ b b', b ∈ kept → b' ∈ deleted →
       Backup.created_at b' ≤ Backup.created_at b)
  ∧ (∀ f, f ∈ files st' ↔
       f ∈ files st
       ∧ ¬ (f ≠ EmptyString ∧ Some f ∈ Backup.file_path <$> deleted))
  ∧ selected (rows st') group_id kept.
Proof.
  intros Hnd Hsel Hk st'. subst st'. rewrite cleanup_eq by done.
  by apply delete_from_spec.
Qed.

(** X7. A second clean-up with the same [keep_count] changes nothing,
    whatever order the query answers the kept backups in. *)
Theorem cleanup_twice (st : Store) (group_id keep_count : Z)
    (backups backups' : list Backup.t) :
  NoDup (Backup.id <$> rows st) →
  selected (rows st) group_id backups →
  0 ≤ keep_count →
  let st' := cleanup_old_backups backups keep_count st in
  selected (rows st') group_id backups' →
  cleanup_old_backups backups' keep_count st' = st'.
Proof.
  intros Hnd Hsel Hk st' [Hperm' _].
  assert (filter (λ b, Backup.group_id b = group_id) (rows st')
          ≡ₚ take (Z.to_nat keep_count) backups) as Hkept.
  { subst st'. rewrite cleanup_eq by done.
    by apply (delete_from_spec st group_id backups (Z.to_nat keep_count)). }
  unfold cleanup_old_backups at 1.
  rewrite bool_decide_eq_true_2; [done|].
  rewrite Hperm', Hkept, length_take. lia.
Qed.

(** X8. A negative [keep_count] does not keep everything: the guard of line
    441 never holds, and the slice of line 445 counts from the end, so
    the [-keep_count] oldest backups of the group are deleted (all of
    them when there are no more than that). *)
Theorem cleanup_negative_keep_count (st : Store) (group_id keep_count : Z)
    (backups : list Backup.t) :
  NoDup (Backup.id <$> rows st) →
  selected (rows st) group_id backups →
  keep_count < 0 →
  let st' := cleanup_old_backups backups keep_count st in
  let n := (length backups - Z.to_nat (- keep_count))%nat in
  filter (λ b, Backup.group_id b = group_id) (rows st') ≡ₚ take n backups
  ∧ (∀ b b', b ∈ take n backups → b' ∈ drop n backups →
       Backup.created_at b' ≤ Backup.created_at b)
  ∧ length (drop n backups)
    = Nat.min (length backups) (Z.to_nat (- keep_count)).
Proof.
  intros Hnd Hsel Hk st' n.
  assert (st' = fold_left delete_backup (drop n backups) st) as ->.
  { subst st'. unfold cleanup_old_backups, slice_from.
    rewrite !bool_decide_eq_false_2 by lia. f_equal. f_equal. lia. }
  destruct (delete_from_spec st group_id backups n Hnd Hsel)
    as (Hkept & _ & Hrecent & _).
  split_and!; [done|done|]. rewrite length_drop. lia.
Qed.


Lemma example_ids : NoDup (Backup.id <$> rows example_store).
Proof. apply (bool_decide_unpack _). vm_compute. exact I. Defined.

Lemma example_selected : selected (rows example_store) 7 example_answer.
Proof.
  split.
  - exact (Permutation_app_comm
             [Backup.mk 2 7 30 (Some "b"%string);
              Backup.mk 4 7 20 (Some "c"%string)]
             [Backup.mk 1 7 10 (Some "a"%string)]).
  - repeat constructor; simpl; lia.
Defined.

(** Witness of [cleanup_keeps_most_recent]: keeping two of the three
    backups of group 7. *)
Lemma cleanup_keeps_most_recent_witness :
  let st' := cleanup_old_backups example_answer 2 example_store in
  let kept := take 2 example_answer in
  let deleted := drop 2 example_answer in
  filter (λ b, Backup.group_id b = 7) (rows st') ≡ₚ kept
  ∧ filter (λ b, Backup.group_id b ≠ 7) (rows st')
    = filter (λ b, Backup.group_id b ≠ 7) (rows example_store)
  ∧ (∀ b b', b ∈ kept → b' ∈ deleted →
       Backup.created_at b' ≤ Backup.created_at b)
  ∧ (∀ f, f ∈ files st' ↔
       f ∈ files example_store
       ∧ ¬ (f ≠ EmptyString ∧ Some f ∈ Backup.file_path <$> deleted))
  ∧ selected (rows st') 7 kept.
Proof.
  refine (cleanup_keeps_most_recent example_store 7 2 example_answer
            example_ids example_selected _).
  lia.
Defined.

Lemma example_selected_after :
  selected (rows (cleanup_old_backups example_answer 2 example_store)) 7
    [Backup.mk 2 7 30 (Some "b"%string); Backup.mk 4 7 20 (Some "c"%string)].
Proof. split; [reflexivity|]. repeat constructor; simpl; lia. Defined.

(** Witness of [cleanup_twice]. *)
Lemma cleanup_twice_witness :
  let st' := cleanup_old_backups example_answer 2 example_store in
  cleanup_old_backups
    [Backup.mk 2 7 30 (Some "b"%string); Backup.mk 4 7 20 (Some "c"%string)]
    2 st'
  = st'.
Proof.
  refine (cleanup_twice example_store 7 2 example_answer _
            example_ids example_selected _ example_selected_after).
  lia.
Defined.

(** Witness of [cleanup_negative_keep_count]: [keep_count = -1] deletes
    the oldest backup of group 7. *)
Lemma cleanup_negative_keep_count_witness :
  let st' := cleanup_old_backups example_answer (-1) example_store in
  filter (λ b, Backup.group_id b = 7) (rows st') ≡ₚ take 2 example_answer
  ∧ (∀ b b', b ∈ take 2 example_answer → b' ∈ drop 2 example_answer →
       Backup.created_at b' ≤ Backup.created_at b)
  ∧ length (drop 2 example_answer) = Nat.min (length example_answer) 1.
Proof.
  refine (cleanup_negative_keep_count example_store 7 (-1) example_answer
            example_ids example_selected _).
  lia.
Defined.

End RetentionFacts.

(** ** The processing order *)

Section OrderFacts.

(** X9. The processing order of [_rebuild_group]: the rows with role member,
    in snapshot order, then the rows with role admin, in snapshot order.
    The owner and rows with any other role are not processed at all, so
    the order is shorter than the snapshot as soon as it holds such a
    row. *)
Theorem all_members_order (members : list BackupMember.t) :
  let regular := filter (λ m, BackupMember.role m = "member"%string) members in
  let admins := filter (λ m, BackupMember.role m = "admin"%string) members in
  all_members members = regular ++ admins
  ∧ regular `sublist_of` members ∧ admins `sublist_of` members
  ∧ (∀ m, m ∈ all_members members ↔
       m ∈ members
       ∧ (BackupMember.role m = "member"%string
          ∨ BackupMember.role m = "admin"%string))
  ∧ (∀ m, m ∈ members → BackupMember.role m = "owner"%string →
       m ∉ all_members members)
  ∧ (length (all_members members) = length members ↔
     Forall (λ m, BackupMember.role m = "member"%string
                  ∨ BackupMember.role m = "admin"%string) members).
Proof.
  intros regular admins. subst regular admins. unfold all_members.
  split_and!.
  - reflexivity.
  - apply sublist_filter.
  - apply sublist_filter.
  - intros m. rewrite elem_of_app, !list_elem_of_filter. tauto.
  - intros m _ Ho. rewrite elem_of_app, !list_elem_of_filter, Ho.
    intros [[? _]|[? _]]; discriminate.
  - rewrite length_app. induction members as [|m ms IH]; [by split|].
    pose proof (all_members_length ms) as Hle.
    unfold all_members in Hle. rewrite length_app in Hle.
    rewrite !filter_cons, Forall_cons.
    destruct (decide (BackupMember.role m = "member"%string)) as [Hm|Hm];
      destruct (decide (BackupMember.role m = "admin"%string)) as [Ha|Ha];
      cbn [length].
    + rewrite Hm in Ha. discriminate.
    + rewrite <- IH. split; [intros; split; [by left|lia]|intros [_ ?]; lia].
    + rewrite <- IH.
      split; [intros; split; [by right|lia]|intros [_ ?]; lia].
    + split; [intros; lia|intros [[?|?] _]; done].
Qed.

End OrderFacts.

(** ** The statistics of the preview *)

Section PreviewFacts.
Context {Env : Type} `{Environment Env}.

Lemma detail_lengths (self : RebuildManager) (live : OneBotMember.t)
    (member : BackupMember.t) :
  (length (if restore_cards self then card_detail live member else []) ≤ 1
   ∧ length (if restore_titles self then title_detail live member else []) ≤ 1
   ∧ length (if restore_admins self
                && bool_decide (BackupMember.role member = "admin"%string)
             then admin_detail live member else []) ≤ 1)%nat.
Proof.
  unfold card_detail, title_detail, admin_detail.
  split_and!; repeat case_match; simpl; lia.
Qed.

Lemma dry_run_member_stats (self : RebuildManager) (bot_user_id : option Z)
    (current_map : gmap Z OneBotMember.t) (friend_ids : gset Z)
    (member : BackupMember.t) (n : nat) (s : Stats) (cs : list Change) :
  stats_agree n s cs →
  let r := dry_run_member self bot_user_id current_map friend_ids member s in
  stats_agree (S n) r.1 (cs ++ [r.2]).
Proof.
  intros (Hlen & Hsum & Hbot & Hin & Hnf & Hci & Hdet & Hc & Ht & Ha & Hle) r.
  subst r.
  unfold stats_agree. rewrite !filter_app, !length_app, sum_list_with_app.
  unfold dry_run_member.
  case_bool_decide.
  { simpl. lia. }
  destruct (current_map !! BackupMember.user_id member) as [live|].
  - pose proof (detail_lengths self live member) as (Hl1 & Hl2 & Hl3).
    set (card := if restore_cards self then card_detail live member else []) in *.
    set (title := if restore_titles self then title_detail live member else []) in *.
    set (admin := if restore_admins self
                     && bool_decide (BackupMember.role member = "admin"%string)
                  then admin_detail live member else []) in *.
    destruct (card ++ title ++ admin) as [|d ds] eqn:Ed.
    + apply app_eq_nil in Ed as [-> Ed]. apply app_eq_nil in Ed as [-> ->].
      cbn. split_and!; simpl; lia.
    + cbn -[length]. rewrite <- Ed, !length_app. split_and!; simpl; lia.
  - case_bool_decide; cbn; split_and!; simpl; lia.
Qed.

Lemma dry_run_member_totals (self : RebuildManager) (bot_user_id : option Z)
    (current_map : gmap Z OneBotMember.t) (friend_ids : gset Z)
    (member : BackupMember.t) (s : Stats) :
  let r := dry_run_member self bot_user_id current_map friend_ids member s in
  total_backup_members r.1 = total_backup_members s
  ∧ current_members r.1 = current_members s.
Proof. unfold dry_run_member. repeat case_match; done. Qed.

Lemma dry_run_loop_stats (self : RebuildManager) (bot_user_id : option Z)
    (current_map : gmap Z OneBotMember.t) (friend_ids : gset Z)
    (backup_members : list BackupMember.t) (s : Stats) :
  stats_agree 0 s [] →
  let r := dry_run_loop self bot_user_id current_map friend_ids
                        backup_members s in
  stats_agree (length backup_members) r.1 r.2
  ∧ total_backup_members r.1 = total_backup_members s
  ∧ current_members r.1 = current_members s.
Proof.
  intros Hs r. subst r. unfold dry_run_loop.
  set (f := λ (acc : Stats * list Change) (member : BackupMember.t),
              let r := dry_run_member self bot_user_id current_map
                         friend_ids member acc.1 in
              (r.1, acc.2 ++ [r.2])).
  assert (∀ ms n acc,
            stats_agree n acc.1 acc.2 →
            stats_agree (n + length ms) (fold_left f ms acc).1
                        (fold_left f ms acc).2
            ∧ total_backup_members (fold_left f ms acc).1
              = total_backup_members acc.1
            ∧ current_members (fold_left f ms acc).1 = current_members acc.1)
    as Hgen.
  { induction ms as [|m ms IH]; intros n acc Hacc; cbn [fold_left length].
    - by rewrite Nat.add_0_r.
    - destruct (IH (S n) (f acc m)) as (Hok & Ht & Hc);
        [by apply dry_run_member_stats|].
      rewrite Nat.add_succ_r. split; [exact Hok|].
      rewrite Ht, Hc. apply dry_run_member_totals. }
  apply (Hgen backup_members 0%nat (s, [])). exact Hs.
Qed.

(** X11. The statistics of the preview. Whenever the roster of the target
    group can be fetched, the dry run returns a preview whose counters
    agree with its entries ([stats_agree]); [total_backup_members] is
    the size of the snapshot and [current_members] the number of
    distinct users of the roster; [total_changes] is the number of
    itemised changes; and the warning is given exactly when some
    member cannot be invited. *)
Theorem dry_run_statistics (w : World Env) (group_id : Z)
    (backup_members : list BackupMember.t) (live : list OneBotMember.t) :
  outcome (respond (Op.get_group_member_list group_id true) (env w))
  = inr (Members live) →
  ∃ preview w',
    _dry_run_rebuild group_id backup_members w = (Ok preview, w')
    ∧ dry_run preview = true
    ∧ total_backup_members (statistics preview) = length backup_members
    ∧ current_members (statistics preview)
      = size (list_to_set (OneBotMember.user_id <$> live) : gset Z)
    ∧ stats_agree (length backup_members) (statistics preview)
                  (changes preview)
    ∧ total_changes preview
      = sum_list_with (λ c, length (change_details c)) (changes preview)
    ∧ (warning preview = None ↔ cannot_invite (statistics preview) = 0%nat).
Proof.
  intros Hlive.
  unfold _dry_run_rebuild, get_group_member_list,
    get_login_info, get_friend_list, bind, try_except, ret, gets, raise, await.
  rewrite Hlive. cbn -[respond dry_run_loop].
  set (r1 := respond _ (env w)).
  set (r2 := respond Op.get_login_info (next_env r1)).
  assert (∀ bot fr s',
            let stats0 :=
              {| total_backup_members := length backup_members;
                 current_members :=
                   size (dom (BackupManager.by_user_id OneBotMember.user_id live));
                 will_skip_bot := 0; will_skip_already_in := 0;
                 will_skip_not_friend := 0; will_restore_card := 0;
                 will_restore_title := 0; will_restore_admin := 0;
                 cannot_invite := 0 |} in
            let r := dry_run_loop s' bot
                       (BackupManager.by_user_id OneBotMember.user_id live)
                       fr backup_members stats0 in
            total_backup_members r.1 = length backup_members
            ∧ current_members r.1
              = size (list_to_set (OneBotMember.user_id <$> live) : gset Z)
            ∧ stats_agree (length backup_members) r.1 r.2
            ∧ (will_restore_card r.1 + will_restore_title r.1
               + will_restore_admin r.1)%nat
              = sum_list_with (λ c, length (change_details c)) r.2
            ∧ ((if (0 <? cannot_invite r.1)%nat
                then Some "OneBot 11 标准不支持直接邀请成员入群，只能恢复已在目标群内成员的信息"%string
                else None) = None ↔ cannot_invite r.1 = 0%nat)) as Hloop.
  { intros bot fr s' stats0 r.
    destruct (dry_run_loop_stats s' bot
                (BackupManager.by_user_id OneBotMember.user_id live) fr
                backup_members stats0) as (Hok & Ht & Hc).
    { unfold stats_agree. simpl. split_and!; done. }
    fold r in Hok, Ht, Hc. rewrite Ht, Hc. simpl.
    split_and!; try done.
    - f_equal. apply set_eq. intros uid.
      by rewrite BackupManagerFacts.elem_of_dom_by_user_id, elem_of_list_to_set.
    - by destruct Hok as (_ & _ & _ & _ & _ & _ & Hd & _).
    - destruct (cannot_invite r.1); simpl; split; intros; done. }
  destruct (outcome r2) as [e2|[| bot | |]]; cbn -[respond dry_run_loop];
    match goal with
    | |- context [respond Op.get_friend_list ?e] =>
        destruct (outcome (respond Op.get_friend_list e)) as [e3|[| | fr |]]
    end; cbn -[respond dry_run_loop];
    (eexists _, _; split; [reflexivity|]); cbn -[respond dry_run_loop];
    (split; [reflexivity|]); apply Hloop.
Qed.

End PreviewFacts.

(** ** Controls *)

Section ControlFacts.

Lemma apply_controls_snoc (cs : list Control) (c : Control) (s : RebuildManager) :
  apply_controls (cs ++ [c]) s = apply_control (apply_controls cs s) c.
Proof. unfold apply_controls. by rewrite fold_left_app. Qed.

(** X12. Any sequence of calls of [cancel], [pause] and [resume]: the
    configuration, the counters and the outcomes on record are never
    touched; the status of the job record is the one the last call
    wrote, whatever it was before; the cancel flag is set as soon as
    one of the calls is [cancel] and no later call clears it; the pause
    flag follows the last [pause] or [resume]. *)
Theorem controls_compose (cs : list Control) (s : RebuildManager) :
  same_config s (apply_controls cs s)
  ∧ job_eq (_progress s) (_progress (apply_controls cs s))
  ∧ match last cs with
    | None => apply_controls cs s = s
    | Some c =>
        RebuildProgress.status <$> _progress (apply_controls cs s)
        = (λ _, status_after c) <$> _progress s
    end
  ∧ _cancelled (apply_controls cs s)
    = _cancelled s || bool_decide (Cancel ∈ cs)
  ∧ _paused (apply_controls cs s)
    = match last (filter (λ c, c ≠ Cancel) cs) with
      | None => _paused s
      | Some c => bool_decide (c = Pause)
      end.
Proof.
  split; [apply apply_controls_same_config|].
  split; [apply apply_controls_job_eq|].
  induction cs as [|c cs IH] using rev_ind.
  - simpl. split_and!; try done. by rewrite orb_false_r.
  - destruct IH as (Hst & Hc & Hp).
    rewrite apply_controls_snoc, last_snoc, filter_app.
    pose proof (apply_controls_job_eq cs s) as Hjob.
    split_and!.
    + destruct (_progress s) as [p|] eqn:Ep;
        destruct (_progress (apply_controls cs s)) as [p'|] eqn:Ep';
        try done; destruct c; simpl; by rewrite Ep'.
    + destruct c; simpl; rewrite ?Hc;
        rewrite ?(bool_decide_eq_true_2 (Cancel ∈ cs ++ [Cancel]))
          by (apply elem_of_app; right; by left);
        rewrite ?orb_true_r; try done;
        f_equal; apply bool_decide_ext; rewrite elem_of_app, list_elem_of_singleton;
        split; try tauto; intros [?|?]; done.
    + destruct c; simpl.
      * rewrite filter_cons_False, filter_nil, app_nil_r by (intros Hn; by apply Hn).
        exact Hp.
      * rewrite filter_cons_True, filter_nil, last_snoc by done. done.
      * rewrite filter_cons_True, filter_nil, last_snoc by done. done.
Qed.

End ControlFacts.

(** ** The entry points *)

Section EntryFacts.
Context {Env : Type} `{Environment Env}.

(** The record a run of [_rebuild_group] returns keeps the counter
    bookkeeping. *)
Lemma returned_job_counters (w : World Env) (polls : nat) (target_group_id : Z)
    (members : list BackupMember.t) (progress_callback : bool)
    (p : RebuildProgress.t) :
  (_rebuild_group polls target_group_id members progress_callback w).1 = Ok p →
  counters_ok (length members) (all_members members) p.
Proof.
  unfold _rebuild_group.
  destruct (prologue_returns target_group_id members w) as [start Hst].
  destruct (prologue_counters target_group_id members w) as [_ Hj1].
  destruct (rebuild_prologue target_group_id members w) as [r1 w1] eqn:E1.
  simpl in Hst, Hj1. subst r1. rewrite (bind_ok _ _ _ _ _ E1).
  destruct (member_loop_counters (length members) (all_members members) polls
              target_group_id start.2 progress_callback (all_members members)
              [] start.1 w1 eq_refl (all_members_length members) Hj1)
    as [_ Hj2].
  destruct (member_loop polls target_group_id start.2 progress_callback start.1
              (all_members members) w1) as [[[]|e|] w2] eqn:E2; simpl in *.
  - rewrite (bind_ok _ _ _ _ _ E2).
    destruct (epilogue_counters _ _ target_group_id w2 Hj2) as (_ & _ & Hr3).
    apply Hr3.
  - by rewrite (bind_raise _ _ _ _ _ E2).
  - by rewrite (bind_polling _ _ _ _ E2).
Qed.

(** What the counter bookkeeping says of the users on record. *)
Lemma counters_ok_results (n : nat) (order : list BackupMember.t)
    (p : RebuildProgress.t) :
  counters_ok n order p →
  (RebuildProgress.processed p ≤ length order)%nat
  ∧ ∀ r, r ∈ RebuildProgress.results p →
         ∃ m, m ∈ order ∧ BackupMember.user_id m = InviteResult.user_id r.
Proof.
  intros (_ & _ & _ & Hlen & Hids). split.
  - rewrite <- Hlen, <- (length_fmap InviteResult.user_id), Hids.
    rewrite length_take, length_fmap. lia.
  - intros r Hr.
    assert (InviteResult.user_id r
            ∈ take (RebuildProgress.processed p) (BackupMember.user_id <$> order))
      as Hin by (rewrite <- Hids; by apply list_elem_of_fmap_2).
    apply elem_of_take in Hin as (i & Hi & _).
    apply list_lookup_fmap_Some in Hi as (m & Hid & Hm).
    exists m. split; [by eapply list_elem_of_lookup_2|done].
Qed.

(** X13. [rebuild_group] checks its input before any remote call. It raises
    when the backup does not exist, else when it belongs to another
    group, else when it has no member rows; in each case nothing has
    been awaited, but the three restore flags of the manager have
    already been overwritten with the arguments. *)
Theorem rebuild_group_rejects (w : World Env) (polls : nat)
    (group_id backup_id : Z) (backup : option Z)
    (backup_members : list BackupMember.t) (target_group_id : option Z)
    (cards titles admins dry_run : bool) :
  let run := rebuild_group polls group_id backup_id backup backup_members
               target_group_id cards titles admins dry_run w in
  let rejected (e : string) :=
    run = (Raise e,
           {| self := set_restore cards titles admins (self w);
              env := env w; trace := trace w |}) in
  (backup = None →
   rejected ("备份 " +:+ pretty backup_id +:+ " 不存在"))
  ∧ (∀ g, backup = Some g → g ≠ group_id →
       rejected ("备份 " +:+ pretty backup_id +:+ " 不属于群组 "
                 +:+ pretty group_id))
  ∧ (backup = Some group_id → backup_members = [] →
     rejected ("备份 " +:+ pretty backup_id +:+ " 中没有成员数据")).
Proof.
  intros run rejected. subst run rejected. unfold rebuild_group.
  rewrite bind_modify. split_and!.
  - by intros ->.
  - intros g -> Hg. by rewrite bool_decide_eq_true_2.
  - intros -> ->. by rewrite bool_decide_eq_false_2 by (intros Hn; by apply Hn).
Qed.

(** X14. The report of an execution through [rebuild_group]: when the call
    returns a report, the input was valid, [total] is the number of
    member rows, the three counts add up to the number of outcomes,
    which does not exceed [total], and the outcomes are those of the
    first members of the processing order, one each. A dry run returns
    a preview, never a report. *)
Theorem rebuild_group_report (w : World Env) (polls : nat)
    (group_id backup_id : Z) (backup : option Z)
    (backup_members : list BackupMember.t) (target_group_id : option Z)
    (cards titles admins dry_run : bool) (report : Report) :
  (rebuild_group polls group_id backup_id backup backup_members
     target_group_id cards titles admins dry_run w).1 = Ok (inr report) →
  dry_run = false
  ∧ backup = Some group_id
  ∧ backup_members ≠ []
  ∧ report_total report = length backup_members
  ∧ (success_count report + failed_count report + skipped_count report)%nat
    = length (report_results report)
  ∧ (length (report_results report) ≤ report_total report)%nat
  ∧ InviteResult.user_id <$> report_results report
    = take (length (report_results report))
           (BackupMember.user_id <$> all_members backup_members).
Proof.
  unfold rebuild_group. rewrite bind_modify.
  set (w0 := (modify _ w).2). clearbody w0.
  destruct backup as [g|]; [|done].
  case_bool_decide as Hg; [done|].
  destruct backup_members as [|m ms] eqn:Ems; [done|]. rewrite <- Ems.
  destruct dry_run.
  { unfold bind. by destruct (_dry_run_rebuild _ _ w0) as [[pv|e|] w1]. }
  unfold bind at 1.
  destruct (_rebuild_group polls (default group_id target_group_id)
              backup_members false w0) as [[p|e|] w1] eqn:E; try done.
  intros [= <-]. simpl.
  pose proof (returned_job_counters w0 polls _ backup_members false p
                ltac:(by rewrite E)) as (Ht & Hsum & Hle & Hlen & Hids).
  assert (g = group_id) as -> by (destruct (decide (g = group_id)); tauto).
  split_and!; try done.
  - by rewrite Ems.
  - lia.
  - lia.
  - by rewrite Hlen.
Qed.

(** X16. The owner is never processed. In the record a run returns, every
    outcome belongs to a row of the snapshot with role member or admin,
    and [processed] does not exceed the number of such rows, while
    [total] counts every row: as soon as the snapshot holds a row with
    another role (the owner), the job ends with [processed < total]. *)
Theorem owner_never_processed (w : World Env) (polls : nat)
    (target_group_id : Z) (members : list BackupMember.t)
    (progress_callback : bool) (p : RebuildProgress.t) :
  (_rebuild_group polls target_group_id members progress_callback w).1 = Ok p →
  (∀ r, r ∈ RebuildProgress.results p →
     ∃ m, m ∈ members
          ∧ BackupMember.user_id m = InviteResult.user_id r
          ∧ (BackupMember.role m = "member"%string
             ∨ BackupMember.role m = "admin"%string))
  ∧ (RebuildProgress.processed p ≤ length (all_members members))%nat
  ∧ (Exists (λ m, BackupMember.role m ≠ "member"%string
                  ∧ BackupMember.role m ≠ "admin"%string) members →
     (RebuildProgress.processed p < RebuildProgress.total p)%nat).
Proof.
  intros Hp.
  pose proof (returned_job_counters _ _ _ _ _ _ Hp) as Hok.
  destruct (counters_ok_results _ _ _ Hok) as [Hle Hres].
  destruct Hok as (Ht & _).
  split_and!; try done.
  - intros r Hr. destruct (Hres r Hr) as (m & Hm & Hid).
    unfold all_members in Hm.
    rewrite elem_of_app, !list_elem_of_filter in Hm.
    exists m. destruct Hm as [[Hrole Hin]|[Hrole Hin]]; split_and!; auto.
  - intros Hex. rewrite Ht.
    enough (length (all_members members) < length members)%nat by lia.
    clear -Hex. unfold all_members. rewrite length_app.
    induction Hex as [m ms [Hm Ha]|m ms Hex IH].
    + pose proof (all_members_length ms) as Hl.
      unfold all_members in Hl. rewrite length_app in Hl.
      rewrite !filter_cons_False by done. simpl. lia.
    + rewrite !filter_cons.
      destruct (decide (BackupMember.role m = "member"%string)) as [Hm|Hm];
        destruct (decide (BackupMember.role m = "admin"%string)) as [Ha|Ha];
        simpl; try lia.
      rewrite Hm in Ha. discriminate.
Qed.

End EntryFacts.

(** ** Step invariants

    A relation between worlds that is reflexive and transitive, and
    that every [await] and every write to the job record respects, is
    respected by a whole turn of the member loop, by the loop and by
    the epilogue. *)

Section Invariant.
Context {Env : Type} `{Environment Env}.
Context (R : World Env → World Env → Prop).
Context (R_refl : ∀ w, R w w).
Context (R_trans : ∀ w1 w2 w3, R w1 w2 → R w2 w3 → R w1 w3).
Context (R_await : ∀ o w, R w (await o w).2).
Context (R_progress : ∀ f w, R w (modify_progress f w).2).

Lemma bind_inv {A B : Type} (m : M A) (k : A → M B) (w : World Env) :
  R w (m w).2 → (∀ a w1, R w1 (k a w1).2) → R w (bind m k w).2.
Proof.
  intros Hm Hk. unfold bind.
  destruct (m w) as [[a|e|] w1]; simpl in *; try done.
  eapply R_trans; [exact Hm|]. apply Hk.
Qed.

Lemma try_except_inv {A : Type} (m : M A) (h : string → M A) (w : World Env) :
  R w (m w).2 → (∀ e w1, R w1 (h e w1).2) → R w (try_except m h w).2.
Proof.
  intros Hm Hh. unfold try_except.
  destruct (m w) as [[a|e|] w1]; simpl in *; try done.
  eapply R_trans; [exact Hm|]. apply Hh.
Qed.

Lemma call_inv {A : Type} (o : Op.t) (k : Answer → M A) (w : World Env) :
  (∀ a w1, (k a w1).2 = w1) → R w (bind (await o) k w).2.
Proof.
  intros Hk. apply bind_inv; [apply R_await|]. intros a w1. rewrite Hk. apply R_refl.
Qed.

Lemma get_friend_list_inv (w : World Env) : R w (get_friend_list w).2.
Proof. apply call_inv. by intros []. Qed.

Lemma get_login_info_inv (w : World Env) : R w (get_login_info w).2.
Proof. apply call_inv. by intros []. Qed.

Lemma get_group_member_list_inv (g : Z) (b : bool) (w : World Env) :
  R w (get_group_member_list g b w).2.
Proof. apply call_inv. by intros []. Qed.

Lemma guarded_inv {A : Type} (o : Op.t) (a b : A) (w : World Env) :
  R w (try_except (bind (await o) (λ _, ret a)) (λ _, ret b) w).2.
Proof. rewrite guarded_call. apply R_await. Qed.

Lemma invite_inv (group_id : Z) (m : BackupMember.t) (w : World Env) :
  R w (_invite_member group_id m w).2.
Proof. rewrite invite_member_eq. apply R_await. Qed.

Lemma restore_inv (group_id : Z) (m : BackupMember.t) (w : World Env) :
  R w (_restore_member_info group_id m w).2.
Proof.
  unfold _restore_member_info.
  apply bind_inv; [apply R_refl|]. intros rc w1.
  apply bind_inv; [destruct rc; [apply guarded_inv|apply R_refl]|]. intros l1 w2.
  apply bind_inv; [apply R_refl|]. intros rt w3.
  apply bind_inv; [destruct rt; [apply guarded_inv|apply R_refl]|]. intros l2 w4.
  apply bind_inv; [apply R_refl|]. intros ra w5.
  apply bind_inv; [|intros; apply R_refl].
  destruct (ra && _); [apply guarded_inv|apply R_refl].
Qed.

Lemma wait_inv (polls : nat) (w : World Env) : R w (wait_while_paused polls w).2.
Proof.
  revert w. induction polls as [|polls IH]; intros w; simpl.
  - apply bind_inv; [apply R_refl|]. intros paused w1. destruct paused; apply R_refl.
  - apply bind_inv; [apply R_refl|]. intros paused w1.
    destruct paused; [|apply R_refl].
    apply bind_inv; [apply R_await|]. intros _ w2.
    apply bind_inv; [apply R_refl|]. intros c w3.
    destruct c; [apply R_refl|apply IH].
Qed.

Lemma notify_inv (cb : bool) (w : World Env) : R w (notify_and_throttle cb w).2.
Proof.
  unfold notify_and_throttle. apply bind_inv.
  { destruct cb; [|apply R_refl].
    apply bind_inv.
    { unfold get_progress. destruct (_progress (self w)); apply R_refl. }
    intros p w1. apply bind_inv; [apply R_await|]. intros; apply R_refl. }
  intros _ w1. apply bind_inv; [apply R_refl|]. intros i w2.
  apply bind_inv; [apply R_await|]. intros; apply R_refl.
Qed.

Ltac progress_steps :=
  repeat (apply bind_inv; [apply R_progress|]; intros _ ?).

Lemma handle_member_inv (group_id : Z) (bot : option Z) (cb : bool)
    (ids : gset Z) (m : BackupMember.t) (w : World Env) :
  R w (handle_member group_id bot cb ids m w).2.
Proof.
  unfold handle_member.
  apply bind_inv; [apply R_progress|]. intros _ w0.
  case_bool_decide; [progress_steps; apply R_refl|].
  case_bool_decide.
  { apply bind_inv; [apply restore_inv|]. intros details w1.
    apply bind_inv.
    { destruct details; progress_steps; apply R_refl. }
    intros r wr. progress_steps. apply R_refl. }
  apply bind_inv; [apply invite_inv|]. intros r w1. progress_steps.
  apply bind_inv.
  { destruct (InviteResult.status r); progress_steps.
    - apply R_refl.
    - apply bind_inv; [apply restore_inv|]. intros; apply R_refl.
    - apply bind_inv; [apply R_refl|]. intros c ?.
      destruct c; [apply R_refl|]. progress_steps. apply R_refl.
    - apply R_refl. }
  intros ctl wc. destruct ctl; [|apply R_refl].
  apply bind_inv; [apply notify_inv|]. intros; apply R_refl.
Qed.

Lemma process_member_inv (polls : nat) (group_id : Z) (bot : option Z)
    (cb : bool) (ids : gset Z) (m : BackupMember.t) (w : World Env) :
  R w (process_member polls group_id bot cb ids m w).2.
Proof.
  unfold process_member. apply bind_inv; [apply R_refl|]. intros c w1.
  destruct c; [progress_steps; apply R_refl|].
  apply bind_inv; [apply wait_inv|]. intros _ w2. apply handle_member_inv.
Qed.

Lemma member_loop_inv (polls : nat) (group_id : Z) (bot : option Z)
    (cb : bool) (ms : list BackupMember.t) (ids : gset Z) (w : World Env) :
  R w (member_loop polls group_id bot cb ids ms w).2.
Proof.
  revert ids w. induction ms as [|m ms IH]; intros ids w; simpl; [apply R_refl|].
  apply bind_inv; [apply process_member_inv|]. intros ctl w1.
  destruct ctl; [apply IH|apply R_refl].
Qed.

Lemma epilogue_inv (group_id : Z) (w : World Env) :
  R w (rebuild_epilogue group_id w).2.
Proof.
  unfold rebuild_epilogue. apply bind_inv.
  { unfold get_progress. destruct (_progress (self w)); apply R_refl. }
  intros p w1. apply bind_inv.
  { case_bool_decide; [apply R_progress|apply R_refl]. }
  intros _ w2. progress_steps.
  apply bind_inv; [apply R_refl|]. intros welcome w3.
  apply bind_inv.
  { destruct welcome; [|apply R_refl].
    apply bind_inv.
    { unfold get_progress. destruct (_progress (self w3)); apply R_refl. }
    intros p0 w4. apply guarded_inv. }
  intros _ w4. unfold get_progress. destruct (_progress (self w4)); apply R_refl.
Qed.

(** The prologue after its first step, the reset of the job record and
    of the two flags. *)
Lemma prologue_inv (group_id : Z) (members : list BackupMember.t)
    (w : World Env) :
  R (modify (λ s, set_flags false false
                    (set_progress
                       (Some (RebuildProgress.started (length members))) s)) w).2
    (rebuild_prologue group_id members w).2.
Proof.
  unfold rebuild_prologue. rewrite bind_modify.
  set (w0 := (modify _ w).2). clearbody w0.
  apply bind_inv.
  { apply try_except_inv; [|intros; apply R_refl].
    apply bind_inv; [apply get_group_member_list_inv|]. intros; apply R_refl. }
  intros ids w1. apply bind_inv.
  { apply try_except_inv; [apply get_login_info_inv|]. intros; apply R_refl. }
  intros bot w2. apply bind_inv; [apply R_refl|]. intros welcome w3.
  apply bind_inv; [|intros; apply R_refl].
  destruct welcome; [apply guarded_inv|apply R_refl].
Qed.

End Invariant.

(** ** Cancellation *)

Section CancelFacts.
Context {Env : Type} `{Environment Env}.

Lemma apply_controls_cancelled (cs : list Control) (s : RebuildManager) :
  _cancelled (apply_controls cs s) = _cancelled s || bool_decide (Cancel ∈ cs).
Proof.
  revert s. induction cs as [|c cs IH]; intros s.
  - simpl. by rewrite orb_false_r.
  - assert (bool_decide (Cancel ∈ c :: cs)
            = bool_decide (Cancel = c) || bool_decide (Cancel ∈ cs)) as ->.
    { destruct (decide (Cancel = c)) as [<-|Hne].
      - rewrite (bool_decide_eq_true_2 (Cancel = Cancel)) by done.
        by rewrite bool_decide_eq_true_2 by (by left).
      - rewrite (bool_decide_eq_false_2 (Cancel = c)) by done.
        apply bool_decide_ext. rewrite elem_of_cons. tauto. }
    unfold apply_controls in *. cbn [fold_left]. rewrite IH.
    destruct c; simpl; by rewrite ?orb_true_r.
Qed.






Lemma member_loop_cons (polls : nat) (group_id : Z) (bot : option Z)
    (cb : bool) (ids : gset Z) (m : BackupMember.t) (rest : list BackupMember.t)
    (w : World Env) :
  member_loop polls group_id bot cb ids (m :: rest) w
  = bind (process_member polls group_id bot cb ids m)
         (λ ctl, match ctl with
                 | Break => ret tt
                 | NextMember ids' =>
                     member_loop polls group_id bot cb ids' rest
                 end) w.
Proof. reflexivity. Qed.

(** A cancelled job stops at the head of the next turn: nothing is
    awaited, no outcome is recorded, the status becomes Cancelled. *)
Lemma member_loop_cancelled (polls : nat) (group_id : Z) (bot : option Z)
    (cb : bool) (ids : gset Z) (m : BackupMember.t) (rest : list BackupMember.t)
    (w : World Env) :
  _cancelled (self w) = true →
  member_loop polls group_id bot cb ids (m :: rest) w
  = (Ok tt,
     {| self := set_progress
                  (RebuildProgress.set_status RebuildStatus.CANCELLED
                     <$> _progress (self w)) (self w);
        env := env w; trace := trace w |}).
Proof.
  intros Hc. rewrite member_loop_cons. unfold process_member.
  rewrite bind_bind, bind_gets, Hc, bind_bind, bind_modify_progress, bind_ret.
  reflexivity.
Qed.


End CancelFacts.

(** ** Restoring the attributes of a member *)

Section RestoreFacts.
Context {Env : Type} `{Environment Env}.

(** An optional guarded call, as [_restore_member_info] makes three of:
    it never raises; when enabled the call is awaited once; the item is
    reported exactly when the call did not fail. *)
Lemma optional_call (flag : bool) (o : Op.t) (item : list string)
    (w : World Env) :
  length item = 1%nat →
  let m := if flag
           then try_except (bind (await o) (λ _, ret item)) (λ _, ret [])
           else ret [] in
  ∃ r w' evs,
    m w = (Ok r, w')
    ∧ trace w' = trace w ++ evs
    ∧ op <$> evs = (if flag then [o] else [])
    ∧ same_config (self w) (self w')
    ∧ (length r ≤ length evs)%nat
    ∧ ((∀ e, flag = true → ∃ error, outcome (respond o e) = inl error) → r = [])
    ∧ ((∀ e, flag = true → ∃ a, outcome (respond o e) = inr a) →
       length r = length evs).
Proof.
  intros Hitem m. subst m. destruct flag.
  - rewrite guarded_call, await_world.
    eexists _, _, [_]. split; [reflexivity|]. simpl.
    split; [reflexivity|]. split; [reflexivity|].
    split; [apply apply_controls_same_config|].
    split_and!.
    + destruct (outcome _); simpl; lia.
    + intros Hf. destruct (Hf (env w) eq_refl) as [error ->]. done.
    + intros Hs. destruct (Hs (env w) eq_refl) as [a ->]. done.
  - exists [], w, []. rewrite app_nil_r. split_and!; done.
Qed.

(** What [_restore_member_info] awaits and reports. *)
Lemma restore_plan_spec (group_id : Z) (member : BackupMember.t)
    (w : World Env) :
  let run := _restore_member_info group_id member w in
  ∃ restored evs,
    run.1 = Ok restored
    ∧ trace run.2 = trace w ++ evs
    ∧ op <$> evs = restore_plan (self w) group_id member
    ∧ (length restored ≤ length evs)%nat
    ∧ ((∀ o e, o ∈ restore_plan (self w) group_id member →
               ∃ error, outcome (respond o e) = inl error) →
       restored = [])
    ∧ ((∀ o e, o ∈ restore_plan (self w) group_id member →
               ∃ a, outcome (respond o e) = inr a) →
       length restored = length evs).
Proof.
  intros run. subst run. unfold _restore_member_info, restore_plan.
  set (card_op := Op.set_group_card group_id (BackupMember.user_id member)
                    (or_empty (BackupMember.card member))).
  set (title_op := Op.set_group_special_title group_id
                     (BackupMember.user_id member)
                     (or_empty (BackupMember.title member))).
  set (admin_op := Op.set_group_admin group_id (BackupMember.user_id member) true).
  rewrite bind_gets.
  destruct (optional_call (restore_cards (self w)) card_op
              (if nonempty (or_empty (BackupMember.card member))
               then ["名片'" +:+ or_empty (BackupMember.card member) +:+ "'"]
               else ["清空名片"%string]) w)
    as (r1 & w1 & evs1 & E1 & Ht1 & Ho1 & Hc1 & Hl1 & Hf1 & Hs1);
    [by destruct (nonempty (or_empty (BackupMember.card member)))|].
  rewrite (bind_ok _ _ _ _ _ E1), bind_gets.
  destruct Hc1 as (_ & Ha1 & _ & Hti1 & _).
  destruct (optional_call (restore_titles (self w1)) title_op
              (if nonempty (or_empty (BackupMember.title member))
               then ["头衔'" +:+ or_empty (BackupMember.title member) +:+ "'"]
               else ["清空头衔"%string]) w1)
    as (r2 & w2 & evs2 & E2 & Ht2 & Ho2 & Hc2 & Hl2 & Hf2 & Hs2);
    [by destruct (nonempty (or_empty (BackupMember.title member)))|].
  rewrite (bind_ok _ _ _ _ _ E2), bind_gets.
  destruct Hc2 as (_ & Ha2 & _ & _).
  destruct (optional_call
              (restore_admins (self w2)
               && bool_decide (BackupMember.role member = "admin"%string))
              admin_op ["管理员权限"%string] w2)
    as (r3 & w3 & evs3 & E3 & Ht3 & Ho3 & _ & Hl3 & Hf3 & Hs3); [done|].
  rewrite (bind_ok _ _ _ _ _ E3).
  rewrite Hti1 in *. rewrite Ha2, Ha1 in *.
  exists (r1 ++ r2 ++ r3), (evs1 ++ evs2 ++ evs3). simpl.
  split; [reflexivity|].
  split; [by rewrite Ht3, Ht2, Ht1, <- !app_assoc|].
  split; [by rewrite !fmap_app, Ho1, Ho2, Ho3|].
  rewrite !length_app. split_and!.
  - lia.
  - intros Hf.
    rewrite Hf1, Hf2, Hf3; [done| | |]; intros e Hflag; apply Hf;
      rewrite Hflag; rewrite !elem_of_app, !list_elem_of_singleton; auto.
  - intros Hs.
    rewrite Hs1, Hs2, Hs3; [done| | |]; intros e Hflag; apply Hs;
      rewrite Hflag; rewrite !elem_of_app, !list_elem_of_singleton; auto.
Qed.

(** X18. Failure isolation in [_restore_member_info]. The call never raises
    and awaits exactly the calls of [restore_plan], in order, whichever
    of them fail: a failing call does not stop the later ones. It
    reports at most one item per call, none when every call fails and
    one per call when none fails. *)
Theorem restore_member_info_plan (group_id : Z) (member : BackupMember.t)
    (w : World Env) :
  let run := _restore_member_info group_id member w in
  ∃ restored evs,
    run.1 = Ok restored
    ∧ trace run.2 = trace w ++ evs
    ∧ op <$> evs = restore_plan (self w) group_id member
    ∧ (length restored ≤ length evs)%nat
    ∧ ((∀ o e, o ∈ restore_plan (self w) group_id member →
               ∃ error, outcome (respond o e) = inl error) →
       restored = [])
    ∧ ((∀ o e, o ∈ restore_plan (self w) group_id member →
               ∃ a, outcome (respond o e) = inr a) →
       length restored = length evs).
Proof. apply restore_plan_spec. Qed.

(** X19. A member already in the target group is never a failure. Its turn
    awaits the calls of [restore_plan] and nothing else (no callback, no
    throttle sleep), goes on to the next member, and records one
    outcome: a success when [_restore_member_info] reports at least one
    restored item, else skipped with the message that nothing had to be
    changed, which is also what is recorded when every restore call
    failed. *)
Theorem present_member_outcome (group_id : Z) (bot_user_id : option Z)
    (progress_callback : bool) (current_user_ids : gset Z)
    (member : BackupMember.t) (w : World Env) (p : RebuildProgress.t) :
  _progress (self w) = Some p →
  Some (BackupMember.user_id member) ≠ bot_user_id →
  BackupMember.user_id member ∈ current_user_ids →
  let run := handle_member group_id bot_user_id progress_callback
                           current_user_ids member w in
  ∃ r p' evs,
    run.1 = Ok (NextMember current_user_ids)
    ∧ trace run.2 = trace w ++ evs
    ∧ op <$> evs = restore_plan (self w) group_id member
    ∧ _progress (self run.2) = Some p'
    ∧ RebuildProgress.results p' = RebuildProgress.results p ++ [r]
    ∧ RebuildProgress.processed p' = S (RebuildProgress.processed p)
    ∧ InviteResult.user_id r = BackupMember.user_id member
    ∧ (InviteResult.status r = InviteStatus.SUCCESS
       ∨ (InviteResult.status r = InviteStatus.SKIPPED
          ∧ InviteResult.message r = "已在群内，无需更改"%string))
    ∧ ((∀ o e, o ∈ restore_plan (self w) group_id member →
               ∃ error, outcome (respond o e) = inl error) →
       InviteResult.status r = InviteStatus.SKIPPED)
    ∧ ((∀ o e, o ∈ restore_plan (self w) group_id member →
               ∃ a, outcome (respond o e) = inr a) →
       restore_plan (self w) group_id member ≠ [] →
       InviteResult.status r = InviteStatus.SUCCESS).
Proof.
  intros Hp Hbot Hin run. subst run. unfold handle_member.
  rewrite bind_modify_progress, bool_decide_eq_false_2 by done.
  rewrite bool_decide_eq_true_2 by done.
  set (w0 := (modify_progress _ w).2).
  assert (_progress (self w0)
          = Some (RebuildProgress.set_current_user
                    (Some (BackupMember.user_id member)) p)) as Hp0
    by (simpl; by rewrite Hp).
  assert (trace w0 = trace w) as Ht0 by done.
  assert (restore_plan (self w0) group_id member
          = restore_plan (self w) group_id member) as Hplan by done.
  clearbody w0.
  destruct (restore_plan_spec group_id member w0)
    as (restored & evs & Hr & Ht & Hops & Hlen & Hnone & Hall).
  pose proof (restore_suspended (λ _, True) group_id member w0 (λ _ _ _, I))
    as Hs.
  destruct (_restore_member_info group_id member w0) as [r1 w1] eqn:E.
  simpl in Hr, Ht, Hs. subst r1. rewrite (bind_ok _ _ _ _ _ E).
  destruct (suspended_chain _ _ _ _ Hs Hp0) as (p1 & _ & _ & _ & _ & Hp1 & Hf & _).
  destruct (frame_fields _ _ Hf) as (_ & Hproc & _ & _ & _ & Hres).
  simpl in Hproc, Hres. rewrite Hplan in *. rewrite Ht0 in Ht.
  destruct restored as [|d ds]; rewrite bind_bind, !bind_modify_progress;
    simpl; rewrite Hp1; simpl.
  - set (r := invite_result member InviteStatus.SKIPPED "已在群内，无需更改").
    exists r, (RebuildProgress.append_result r
                 (RebuildProgress.incr_processed
                    (RebuildProgress.incr_skipped p1))), evs.
    simpl. rewrite Hres, Hproc. split_and!; try done.
    + by right.
    + intros Hall0 Hne. exfalso. specialize (Hall Hall0).
      simpl in Hall. symmetry in Hall. apply length_zero_iff_nil in Hall.
      subst evs. by rewrite <- Hops in Hne.
  - match goal with
    | |- context [RebuildProgress.append_result ?r0 _] => set (r := r0)
    end.
    exists r, (RebuildProgress.append_result r
                 (RebuildProgress.incr_processed
                    (RebuildProgress.incr_success p1))), evs.
    simpl. rewrite Hres, Hproc. split_and!; try done.
    + by left.
    + intros Hnone0. by specialize (Hnone Hnone0).
Qed.

End RestoreFacts.

(** ** The pause loop *)

Section PauseFacts.
Context {Env : Type} `{Environment Env}.

Local Ltac finish :=
  split_and!; try done; try (simpl; lia); try apply same_config_refl;
  try (by left); try (by right); try (by repeat constructor).

(** X20. The pause loop. While it runs it awaits one-second sleeps only, at
    most [polls] of them, and writes nothing: the configuration is
    untouched and the job record changes by the status the controls
    write, nothing else. It ends normally only when the manager is no
    longer paused or has been cancelled; it is still polling only after
    [polls] sleeps with the manager still paused. *)
Theorem pause_loop_waits (polls : nat) (w : World Env) :
  let run := wait_while_paused polls w in
  ∃ evs,
    trace run.2 = trace w ++ evs
    ∧ Forall (λ ev, op ev = Op.sleep (Qmake 1 1)) evs
    ∧ (length evs ≤ polls)%nat
    ∧ chain (self w) evs (self run.2)
    ∧ same_config (self w) (self run.2)
    ∧ job_eq (_progress (self w)) (_progress (self run.2))
    ∧ (run.1 = Ok tt →
       _paused (self run.2) = false
       ∨ (_cancelled (self run.2) = true ∧ evs ≠ []))
    ∧ (run.1 = Polling →
       length evs = polls ∧ _paused (self run.2) = true).
Proof.
  revert w. induction polls as [|polls IH]; intros w; cbn [wait_while_paused].
  - rewrite bind_gets. destruct (_paused (self w)) eqn:Hp.
    + exists []. simpl. rewrite app_nil_r.
      finish.
    + exists []. simpl. rewrite app_nil_r.
      finish.
  - rewrite bind_gets. destruct (_paused (self w)) eqn:Hp.
    2:{ exists []. simpl. rewrite app_nil_r.
        finish. }
    set (o := Op.sleep (Qmake 1 1)).
    pose proof (await_world o w) as Hw1.
    pose proof (await_result o w) as Hr1.
    destruct (await o w) as [r1 w1] eqn:E1. simpl in Hw1, Hr1.
    assert (chain (self w) [event_of o w] (self w1)) as Hch1
      by (rewrite Hw1; by split).
    assert (trace w1 = trace w ++ [event_of o w]) as Ht1 by (by rewrite Hw1).
    assert (same_config (self w) (self w1)) as Hcfg1
      by (rewrite Hw1; apply apply_controls_same_config).
    assert (job_eq (_progress (self w)) (_progress (self w1))) as Hjob1
      by (rewrite Hw1; apply apply_controls_job_eq).
    destruct (outcome (respond o (env w))) as [e|a]; subst r1.
    { rewrite (bind_raise _ _ _ _ _ E1). exists [event_of o w]. cbn [fst snd].
      finish. }
    rewrite (bind_ok _ _ _ _ _ E1), bind_gets.
    destruct (_cancelled (self w1)) eqn:Hc.
    { exists [event_of o w]. cbn [fst snd].
      finish. }
    destruct (IH w1) as (evs & Ht & Hall & Hlen & Hch & Hcfg & Hjob & Hok & Hpoll).
    exists (event_of o w :: evs).
    split; [by rewrite Ht, Ht1, <- app_assoc|].
    split; [by constructor|]. split; [simpl; lia|].
    split; [apply (chain_app _ _ _ [event_of o w] evs Hch1 Hch)|].
    split; [by eapply same_config_trans|].
    split; [by eapply job_eq_trans|].
    split.
    + intros Hr. destruct (Hok Hr) as [?|[? _]]; [by left|by right].
    + intros Hr. destruct (Hpoll Hr) as [<- ?]. done.
Qed.


(** X21. A paused job that nobody resumes or cancels never proceeds: when no
    control arrives and the sleeps return, the pause loop is still
    polling after any number of polls, having slept that many times and
    left the manager as it was. *)
Theorem pause_without_controls (polls : nat) (w : World Env) :
  quiet → sleep_returns →
  _paused (self w) = true → _cancelled (self w) = false →
  let run := wait_while_paused polls w in
  run.1 = Polling
  ∧ self run.2 = self w
  ∧ ∃ evs, trace run.2 = trace w ++ evs
           ∧ op <$> evs = replicate polls (Op.sleep (Qmake 1 1)).
Proof.
  intros Hq Hsl. revert w.
  induction polls as [|polls IH]; intros w Hp Hc; cbn [wait_while_paused].
  - rewrite bind_gets, Hp. simpl. split_and!; try done.
    exists []. by rewrite app_nil_r.
  - rewrite bind_gets, Hp.
    set (o := Op.sleep (Qmake 1 1)).
    pose proof (await_world o w) as Hw1.
    pose proof (await_result o w) as Hr1.
    rewrite (Hq o (env w)) in Hw1.
    destruct (Hsl (Qmake 1 1) (env w)) as [a Ha]. fold o in Ha.
    rewrite Ha in Hr1.
    destruct (await o w) as [r1 w1] eqn:E1. simpl in Hw1, Hr1. subst r1.
    assert (self w1 = self w) as Hs1 by (by rewrite Hw1).
    assert (trace w1
            = trace w ++ [{| op := o; seen := _progress (self w); arrived := [] |}])
      as Ht1 by (by rewrite Hw1).
    rewrite (bind_ok _ _ _ _ _ E1), bind_gets, Hs1, Hc.
    destruct (IH w1) as (Hr & Hs & evs & Ht & Hops); [by rewrite Hs1..|].
    split; [done|]. split; [by rewrite Hs|].
    eexists (_ :: evs). split; [by rewrite Ht, Ht1, <- app_assoc|].
    rewrite fmap_cons, Hops. reflexivity.
Qed.

End PauseFacts.

(** ** Skipped members and the invitation *)

Section SkipFacts.
Context {Env : Type} `{Environment Env}.

(** X22. Bot-self exclusion. A snapshot row whose user is the logged-in
    account is skipped whether or not the account is in the target
    group or on the friend list: the dry run files it under the bot
    itself and counts it there only; the execution records a skipped
    outcome for it and awaits nothing, neither a call nor the throttle
    sleep. *)
Theorem bot_self_is_skipped (bot_user_id : option Z) (member : BackupMember.t) :
  Some (BackupMember.user_id member) = bot_user_id →
  (∀ (self : RebuildManager) (current_map : gmap Z OneBotMember.t)
     (friend_ids : gset Z) (stats : Stats),
     let r := dry_run_member self bot_user_id current_map friend_ids
                             member stats in
     bucket_of r.2 = Some SkipBotSelf
     ∧ change_details r.2 = []
     ∧ r.1 = add_stats stats 1 0 0 0 0 0 0)
  ∧ (∀ (w : World Env) (group_id : Z) (progress_callback : bool)
       (current_user_ids : gset Z) (p : RebuildProgress.t),
       _progress (self w) = Some p →
       let run := handle_member group_id bot_user_id progress_callback
                                current_user_ids member w in
       ∃ p',
         run.1 = Ok (NextMember current_user_ids)
         ∧ trace run.2 = trace w
         ∧ _progress (self run.2) = Some p'
         ∧ recorded (invite_result member InviteStatus.SKIPPED "Bot 自身") p p').
Proof.
  intros Hbot. split.
  - intros self current_map friend_ids stats r. subst r.
    unfold dry_run_member. by rewrite bool_decide_eq_true_2.
  - intros w group_id cb ids p Hp run. subst run.
    destruct (handle_member_bot group_id bot_user_id cb ids member w p Hp Hbot)
      as (p' & Hr & Ht & Hs & Hrec & _).
    exists p'. rewrite Hs. done.
Qed.

(** X23. [_invite_member] never raises and never changes anything remote: it
    awaits the friend list, once, and nothing else. The outcome is for
    the member at hand; it is a failure exactly when the friend list
    could not be read, and then carries the text of the exception; a
    user who is not a friend is skipped, a friend is marked as to be
    invited. *)
Theorem invite_member_outcome (group_id : Z) (member : BackupMember.t)
    (w : World Env) :
  let run := _invite_member group_id member w in
  let answer := outcome (respond Op.get_friend_list (env w)) in
  ∃ r,
    run.1 = Ok r
    ∧ trace run.2 = trace w ++ [event_of Op.get_friend_list w]
    ∧ InviteResult.user_id r = BackupMember.user_id member
    ∧ InviteResult.nickname r = BackupMember.nickname member
    ∧ (∀ friends, answer = inr (Friends friends) →
         InviteResult.status r
         = if bool_decide (BackupMember.user_id member ∈ friends)
           then InviteStatus.SUCCESS else InviteStatus.SKIPPED)
    ∧ (∀ e, answer = inl e →
         InviteResult.status r = InviteStatus.FAILED
         ∧ InviteResult.message r = e)
    ∧ (InviteResult.status r = InviteStatus.FAILED ↔
       ∀ friends, answer ≠ inr (Friends friends))
    ∧ InviteResult.status r ≠ InviteStatus.PENDING.
Proof.
  intros run answer. subst run answer. rewrite invite_member_eq. simpl.
  eexists. split; [reflexivity|]. rewrite await_world. simpl.
  split; [reflexivity|].
  destruct (outcome (respond Op.get_friend_list (env w))) as [e|[ms|b|friends|]];
    simpl; try case_bool_decide; simpl; split_and!; try done;
    try (intros ? [= <-]; try done; by rewrite ?bool_decide_eq_true_2,
           ?bool_decide_eq_false_2 by done);
    try (by intros ? [= <-]);
    try (split; [done|]; intros Hall; by destruct (Hall friends)).
Qed.

End SkipFacts.

(** ** A cancel before the first member *)

Section EarlyCancel.
Context {Env : Type} `{Environment Env}.

Lemma chain_cancelled (s s' : RebuildManager) (evs : list Event) :
  chain s evs s' → _cancelled s = true → _cancelled s' = true.
Proof.
  revert s. induction evs as [|ev evs IH]; intros s; simpl.
  - by intros ->.
  - intros [_ Hc] Hs. apply (IH _ Hc).
    by rewrite apply_controls_cancelled, Hs.
Qed.

(** The roster fetch of the prologue: whatever the answer, the world
    afterwards is that of the awaited call. *)
Lemma roster_fetch_world {A : Type} (g : Z) (f : list OneBotMember.t → A)
    (d : A) (w : World Env) :
  ∃ a, try_except (bind (get_group_member_list g true) (λ x, ret (f x)))
                  (λ _, ret d) w
       = (Ok a, (await (Op.get_group_member_list g true) w).2).
Proof.
  unfold try_except, get_group_member_list, bind, ret, raise, await.
  destruct (outcome (respond _ (env w))) as [e|[]]; simpl; eauto.
Qed.

(** The epilogue on a job record that satisfies a property [φ] which
    does not depend on the status nor on the current user: it returns,
    the record it returns satisfies [φ], and only the completion notice
    is awaited. *)
Lemma epilogue_job (φ : RebuildProgress.t → Prop) (group_id : Z)
    (w : World Env) :
  (∀ p p', job_frame p' = job_frame p → φ p → φ p') →
  (∀ p, φ p → φ (RebuildProgress.set_current_user None p)) →
  job_at φ w →
  ∃ p', (rebuild_epilogue group_id w).1 = Ok p'
        ∧ φ p'
        ∧ awaited (λ ev, frame_op group_id (op ev)) w
                  (rebuild_epilogue group_id w).2.
Proof.
  intros Hframe Huser (p & Hp & Hφ). unfold rebuild_epilogue.
  rewrite (bind_get_progress _ _ _ Hp).
  set (w1 := ((if bool_decide (RebuildProgress.status p = RebuildStatus.RUNNING)
               then modify_progress
                      (RebuildProgress.set_status RebuildStatus.COMPLETED)
               else ret tt) w).2).
  assert (∃ p1, _progress (self w1) = Some p1 ∧ φ p1 ∧ trace w1 = trace w)
    as (p1 & Hp1 & Hφ1 & Ht1).
  { subst w1. case_bool_decide; simpl; rewrite ?Hp; simpl; eauto.
    eexists. split; [reflexivity|]. split; [|done].
    eapply Hframe; [|exact Hφ]. done. }
  replace (bind _ _ w) with
    (bind (modify_progress (RebuildProgress.set_current_user None))
       (λ _, bind (gets send_welcome)
          (λ welcome,
             bind (if welcome : bool then
                     bind get_progress
                       (λ p0, try_except
                          (bind (await (Op.send_group_msg group_id
                             ("✅ 群组重建完成" +:+ newline
                              +:+ "成功: " +:+ pretty (RebuildProgress.success p0)
                              +:+ newline
                              +:+ "失败: " +:+ pretty (RebuildProgress.failed p0)
                              +:+ newline
                              +:+ "跳过: " +:+ pretty (RebuildProgress.skipped p0))))
                             (λ _, ret tt))
                          (λ _, ret tt))
                   else ret tt)
               (λ _, get_progress))) w1)
    by (subst w1; by case_bool_decide).
  clearbody w1.
  rewrite bind_modify_progress, bind_gets.
  set (w2 := (modify_progress _ w1).2).
  assert (_progress (self w2) = Some (RebuildProgress.set_current_user None p1))
    as Hp2 by (simpl; by rewrite Hp1).
  assert (trace w2 = trace w) as Ht2 by done.
  clearbody w2.
  destruct (send_welcome (self w2)).
  - rewrite (bind_bind get_progress), (bind_get_progress _ _ _ Hp2).
    rewrite (bind_ok _ _ _ _ _ (guarded_call _ _ _ _)).
    match goal with
    | |- context [await ?o w2] =>
        pose proof (await_suspended (λ ev, frame_op group_id (op ev)) o w2
                      eq_refl) as Hs;
        set (w3 := (await o w2).2) in *; clearbody w3
    end.
    destruct (suspended_job _ _ _ _ Hframe Hs
                (ex_intro _ _ (conj Hp2 (Huser _ Hφ1))))
      as [(p3 & Hp3 & Hφ3) _].
    unfold get_progress. rewrite Hp3. simpl.
    exists p3. split; [done|]. split; [done|].
    destruct Hs as (evs & Ht3 & Hall & _). exists evs. by rewrite Ht3, Ht2.
  - rewrite bind_ret. unfold get_progress. rewrite Hp2. simpl.
    eexists. split; [reflexivity|]. split; [by apply Huser|].
    exists []. by rewrite Ht2, app_nil_r.
Qed.


(** The epilogue when no control arrives with the completion notice, or
    no notice is sent: the final record is the record at hand with the
    status completed, if it was running, and no current user. *)
Lemma epilogue_exact (group_id : Z) (w : World Env) (p : RebuildProgress.t) :
  (send_welcome (self w) = true → quiet) →
  _progress (self w) = Some p →
  let p' := RebuildProgress.set_current_user None
              (if bool_decide (RebuildProgress.status p = RebuildStatus.RUNNING)
               then RebuildProgress.set_status RebuildStatus.COMPLETED p
               else p) in
  (rebuild_epilogue group_id w).1 = Ok p'.
Proof.
  intros Hq Hp p'. unfold rebuild_epilogue.
  rewrite (bind_get_progress _ _ _ Hp).
  set (w1 := ((if bool_decide (RebuildProgress.status p = RebuildStatus.RUNNING)
               then modify_progress
                      (RebuildProgress.set_status RebuildStatus.COMPLETED)
               else ret tt) w).2).
  assert (_progress (self w1)
          = Some (if bool_decide (RebuildProgress.status p = RebuildStatus.RUNNING)
                  then RebuildProgress.set_status RebuildStatus.COMPLETED p
                  else p)) as Hp1.
  { subst w1. case_bool_decide; simpl; by rewrite ?Hp. }
  assert (send_welcome (self w1) = send_welcome (self w)) as Hsw1
    by (subst w1; by case_bool_decide).
  replace (bind _ _ w) with
    (bind (modify_progress (RebuildProgress.set_current_user None))
       (λ _, bind (gets send_welcome)
          (λ welcome,
             bind (if welcome : bool then
                     bind get_progress
                       (λ p0, try_except
                          (bind (await (Op.send_group_msg group_id
                             ("✅ 群组重建完成" +:+ newline
                              +:+ "成功: " +:+ pretty (RebuildProgress.success p0)
                              +:+ newline
                              +:+ "失败: " +:+ pretty (RebuildProgress.failed p0)
                              +:+ newline
                              +:+ "跳过: " +:+ pretty (RebuildProgress.skipped p0))))
                             (λ _, ret tt))
                          (λ _, ret tt))
                   else ret tt)
               (λ _, get_progress))) w1)
    by (subst w1; by case_bool_decide).
  clearbody w1.
  rewrite bind_modify_progress, bind_gets.
  set (w2 := (modify_progress _ w1).2).
  assert (_progress (self w2) = Some p') as Hp2 by (simpl; by rewrite Hp1).
  assert (send_welcome (self w2) = send_welcome (self w)) as Hsw
    by (by rewrite <- Hsw1).
  clearbody w2. clear Hp1.
  destruct (send_welcome (self w2)).
  - rewrite (bind_bind get_progress), (bind_get_progress _ _ _ Hp2).
    rewrite (bind_ok _ _ _ _ _ (guarded_call _ _ _ _)).
    match goal with
    | |- context [await ?o w2] =>
        pose proof (await_world o w2) as Hw3;
        pose proof (Hq (eq_sym Hsw) o (env w2)) as Hq3;
        set (w3 := (await o w2).2) in *; clearbody w3
    end.
    rewrite Hq3 in Hw3. simpl in Hw3.
    unfold get_progress. rewrite Hw3. simpl. by rewrite Hp2.
  - rewrite bind_ret. unfold get_progress. by rewrite Hp2.
Qed.

(** X24. A cancel that arrives while the run fetches the roster, before the
    first member. The run returns; no member is processed: the record
    it returns is the fresh one up to its status (no outcome, every
    counter zero, no error message); nothing is awaited beyond the
    roster and login reads and the two notices; and without notices
    the status is Cancelled. *)
Theorem cancel_before_first_member (w : World Env) (polls : nat)
    (target_group_id : Z) (members : list BackupMember.t)
    (progress_callback : bool) :
  Cancel ∈ controls (respond (Op.get_group_member_list target_group_id true)
                             (env w)) →
  all_members members ≠ [] →
  let run := _rebuild_group polls target_group_id members progress_callback w in
  ∃ p evs,
    run.1 = Ok p
    ∧ job_frame p = job_frame (RebuildProgress.started (length members))
    ∧ trace run.2 = trace w ++ evs
    ∧ Forall (λ ev, frame_op target_group_id (op ev)) evs
    ∧ (send_welcome (self w) = false →
       RebuildProgress.status p = RebuildStatus.CANCELLED).
Proof.
  intros Hcancel Hne run. subst run.
  set (P := λ ev : Event, frame_op target_group_id (op ev)).
  set (fresh := RebuildProgress.started (length members)).
  set (φ := λ p : RebuildProgress.t, job_frame p = job_frame fresh).
  assert (∀ p p', job_frame p' = job_frame p → φ p → φ p') as Hframe
    by (unfold φ; congruence).
  assert (∀ p, φ p → φ (RebuildProgress.set_current_user None p)) as Huser.
  { unfold φ, job_frame. intros p Hp. destruct p. simpl in *.
    injection Hp as -> -> -> -> -> -> -> ->. reflexivity. }
  unfold _rebuild_group, rebuild_prologue. rewrite bind_bind, bind_modify.
  set (w0 := (modify _ w).2).
  assert (self w0 = set_flags false false (set_progress (Some fresh) (self w)))
    as Hs0 by done.
  assert (trace w0 = trace w ∧ env w0 = env w) as [Ht0 He0] by done.
  clearbody w0.
  rewrite bind_bind.
  destruct (roster_fetch_world target_group_id
              (BackupManager.id_set OneBotMember.user_id) ∅ w0) as [ids Eids].
  rewrite (bind_ok _ _ _ _ _ Eids).
  set (roster := Op.get_group_member_list target_group_id true) in *.
  pose proof (await_world roster w0) as Hwa.
  set (wa := (await roster w0).2) in *. clearbody wa.
  assert (_cancelled (self wa) = true) as Hca.
  { rewrite Hwa. simpl. rewrite apply_controls_cancelled, He0.
    by rewrite (bool_decide_eq_true_2 _ Hcancel), orb_true_r. }
  assert (job_at φ wa) as Hja.
  { pose proof (apply_controls_job_eq (controls (respond roster (env w0)))
                  (self w0)) as Hj.
    rewrite Hs0 in Hj. simpl in Hj. rewrite <- Hs0 in Hj.
    destruct (job_eq_some _ _ Hj) as (q & Hq & Hf).
    exists q. rewrite Hwa. simpl. split; [exact Hq|]. exact Hf. }
  assert (trace wa = trace w ++ [event_of roster w0]) as Hta
    by (rewrite Hwa; simpl; by rewrite Ht0).
  rewrite bind_bind.
  match goal with
  | |- context [bind ?m ?k wa] =>
      assert (∃ bot w1, m wa = (Ok bot, w1) ∧ suspended P wa w1)
        as (bot & w1 & Ebot & Hs1)
  end.
  { pose proof (try_except_suspended P get_login_info (λ _, ret None) wa) as Hs.
    unfold try_except, get_login_info, bind, ret, raise, await in *.
    destruct (outcome (respond Op.get_login_info (env wa))) as [e|[]];
      simpl in *; eexists _, _; (split; [reflexivity|]);
      eexists [_]; (split; [reflexivity|]); split; try done;
      by repeat constructor. }
  rewrite (bind_ok _ _ _ _ _ Ebot), bind_bind, bind_gets, bind_bind.
  match goal with
  | |- context [bind ?m ?k w1] =>
      assert (∃ w2, m w1 = (Ok tt, w2) ∧ suspended P w1 w2)
        as (w2 & Enote & Hs2)
  end.
  { destruct (send_welcome (self w1)).
    - rewrite guarded_call. eexists. split; [by destruct (outcome _)|].
      by apply await_suspended.
    - eexists. split; [reflexivity|]. apply suspended_refl. }
  rewrite (bind_ok _ _ _ _ _ Enote), bind_ret. simpl.
  pose proof (suspended_trans _ _ _ _ Hs1 Hs2) as Hs12.
  destruct (suspended_job _ _ _ _ Hframe Hs12 Hja) as [(p2 & Hp2 & Hφ2) _].
  destruct Hs12 as (evs12 & Ht12 & Hall12 & Hch12).
  pose proof (chain_cancelled _ _ _ Hch12 Hca) as Hc2.
  destruct (chain_frame _ _ _ Hch12) as (Hcfg12 & _).
  destruct (all_members members) as [|m rest] eqn:Eorder; [done|].
  rewrite (bind_ok _ _ _ _ _ (member_loop_cancelled polls target_group_id bot
                                progress_callback ids m rest w2 Hc2)).
  set (w3 := {| self := set_progress
                          (RebuildProgress.set_status RebuildStatus.CANCELLED
                             <$> _progress (self w2)) (self w2);
                env := env w2; trace := trace w2 |}).
  assert (_progress (self w3)
          = Some (RebuildProgress.set_status RebuildStatus.CANCELLED p2))
    as Hp3 by (simpl; by rewrite Hp2).
  destruct (epilogue_job φ target_group_id w3 Hframe Huser) as (p & Hr & Hφ & Haw).
  { eexists. split; [exact Hp3|]. eapply Hframe; [|exact Hφ2]. done. }
  destruct Haw as (evs3 & Ht3 & Hall3).
  exists p, (event_of roster w0 :: evs12 ++ evs3).
  split; [exact Hr|]. split; [exact Hφ|].
  split.
  { rewrite Ht3. simpl. rewrite Ht12, Hta, <- !app_assoc. reflexivity. }
  split.
  { constructor; [by repeat split|]. by apply Forall_app. }
  intros Hwelcome.
  assert (send_welcome (self w3) = false) as Hsw.
  { destruct Hcfg12 as (_ & _ & _ & _ & Hw12 & _).
    pose proof (apply_controls_same_config (controls (respond roster (env w0)))
                  (self w0)) as (_ & _ & _ & _ & Hwa0 & _).
    simpl. rewrite Hw12, Hwa. simpl. rewrite Hwa0, Hs0. exact Hwelcome. }
  assert (send_welcome (self w3) = true → quiet) as Hnq
    by (rewrite Hsw; discriminate).
  rewrite (epilogue_exact target_group_id w3 _ Hnq Hp3) in Hr.
  rewrite bool_decide_eq_false_2 in Hr by done.
  by injection Hr as <-.
Qed.

End EarlyCancel.

(** ** Excluded users *)

Section ExclusionFacts.
Context {Env : Type} `{Environment Env}.

(** A run over an empty processing order returns, whatever the
    environment answers. *)
Lemma empty_order_returns (w : World Env) (polls : nat) (target_group_id : Z)
    (members : list BackupMember.t) (progress_callback : bool) :
  all_members members = [] →
  ∃ p, (_rebuild_group polls target_group_id members progress_callback w).1
       = Ok p.
Proof.
  intros Hnone. unfold _rebuild_group.
  destruct (prologue_returns target_group_id members w) as [start Hst].
  destruct (prologue_counters target_group_id members w) as [_ Hj1].
  destruct (rebuild_prologue target_group_id members w) as [r1 w1] eqn:E1.
  simpl in Hst, Hj1. subst r1. rewrite (bind_ok _ _ _ _ _ E1), Hnone.
  cbn [member_loop]. rewrite bind_ret.
  destruct (epilogue_job (λ _, True) target_group_id w1) as (p & Hp & _);
    [done|done| |by exists p].
  destruct Hj1 as (p1 & Hp1 & _). by exists p1.
Qed.

(** X15. [rebuild_from_backup]: an empty backup is refused before anything
    is awaited or written. Otherwise the job runs over the rows whose
    user is not excluded: [total] counts these rows only, no excluded
    user has an outcome, and every outcome belongs to a row of the
    backup with role member or admin. When every row of a backup that
    is not empty is excluded the call is not refused: whatever the
    environment does, it returns a job with [total = 0], nothing
    processed and no outcome. *)
Theorem rebuild_from_backup_excludes (w : World Env) (polls : nat)
    (backup_id target_group_id : Z) (backup_members : list BackupMember.t)
    (exclude_users : option (list Z)) (progress_callback : bool) :
  let run := rebuild_from_backup polls backup_id target_group_id
               backup_members exclude_users progress_callback w in
  let excluded := default [] exclude_users in
  (backup_members = [] →
   run = (Raise ("备份 " +:+ pretty backup_id +:+ " 中没有成员数据"), w))
  ∧ (∀ p, run.1 = Ok p →
       RebuildProgress.total p
       = length (filter (λ m, BackupMember.user_id m ∉ excluded) backup_members)
       ∧ (RebuildProgress.processed p ≤ RebuildProgress.total p)%nat
       ∧ length (RebuildProgress.results p) = RebuildProgress.processed p
       ∧ (∀ r, r ∈ RebuildProgress.results p →
            (InviteResult.user_id r ∉ excluded)
            ∧ ∃ m, m ∈ backup_members
                   ∧ BackupMember.user_id m = InviteResult.user_id r
                   ∧ (BackupMember.role m = "member"%string
                      ∨ BackupMember.role m = "admin"%string)))
  ∧ (backup_members ≠ [] →
     Forall (λ m, BackupMember.user_id m ∈ excluded) backup_members →
     ∃ p, run.1 = Ok p
          ∧ RebuildProgress.total p = 0%nat
          ∧ RebuildProgress.processed p = 0%nat
          ∧ RebuildProgress.results p = []).
Proof.
  intros run excluded. subst run. unfold rebuild_from_backup. fold excluded.
  split; [by intros ->|].
  assert (∀ p,
            (_rebuild_group polls target_group_id
               (filter (λ m, BackupMember.user_id m ∉ excluded) backup_members)
               progress_callback w).1 = Ok p →
            RebuildProgress.total p
            = length (filter (λ m, BackupMember.user_id m ∉ excluded)
                             backup_members)
            ∧ (RebuildProgress.processed p ≤ RebuildProgress.total p)%nat
            ∧ length (RebuildProgress.results p) = RebuildProgress.processed p
            ∧ (∀ r, r ∈ RebuildProgress.results p →
                 (InviteResult.user_id r ∉ excluded)
                 ∧ ∃ m, m ∈ backup_members
                        ∧ BackupMember.user_id m = InviteResult.user_id r
                        ∧ (BackupMember.role m = "member"%string
                           ∨ BackupMember.role m = "admin"%string))) as Hrun.
  { intros p Hp.
    pose proof (returned_job_counters _ _ _ _ _ _ Hp) as Hok.
    destruct (counters_ok_results _ _ _ Hok) as [Hle Hres].
    destruct Hok as (Ht & Hsum & Hpt & Hlen & Hids).
    split_and!; try done.
    intros r Hr. destruct (Hres r Hr) as (m & Hm & Hid).
    unfold all_members in Hm.
    rewrite elem_of_app, !list_elem_of_filter in Hm.
    rewrite <- Hid. destruct Hm as [[Hrole [Hex Hin]]|[Hrole [Hex Hin]]].
    + split; [done|]. exists m. split_and!; try done. by left.
    + split; [done|]. exists m. split_and!; try done. by right. }
  destruct backup_members as [|m0 ms] eqn:Ems; [by split|].
  rewrite <- Ems in *. split; [exact Hrun|].
  intros _ Hall.
  assert (filter (λ m, BackupMember.user_id m ∉ excluded) backup_members = [])
    as Hnone.
  { clear -Hall. induction backup_members as [|m ms IH]; [done|].
    apply Forall_cons in Hall as [Hm Hall].
    rewrite filter_cons_False by (intros Hn; by apply Hn). by apply IH. }
  rewrite Hnone in *.
  destruct (empty_order_returns w polls target_group_id [] progress_callback
              eq_refl) as [p Hp].
  exists p. destruct (Hrun p Hp) as (Ht & Hpt & Hlen & _).
  simpl in Ht. split_and!; try done; [lia|].
  apply length_zero_iff_nil. lia.
Qed.

End ExclusionFacts.

(** ** A run that nothing interrupts *)

Section CompleteRun.
Context {Env : Type} `{Environment Env}.
Context (Hq : quiet) (Hcb : callback_returns) (Hsl : sleep_returns).

(** A turn keeps the configuration of the manager. *)
Lemma process_member_config (polls : nat) (group_id : Z) (bot : option Z)
    (cb : bool) (ids : gset Z) (m : BackupMember.t) (w : World Env) :
  same_config (self w) (self (process_member polls group_id bot cb ids m w).2).
Proof.
  apply (process_member_inv (λ w w', same_config (self w) (self w'))).
  - intros; apply same_config_refl.
  - intros w1 w2 w3. apply same_config_trans.
  - intros o w0. rewrite await_world. apply apply_controls_same_config.
  - intros f w0. simpl. by repeat split.
Qed.

(** With [continue_on_error] on, a turn without controls always goes on
    to the next member. *)
Lemma quiet_turn_next (polls : nat) (group_id : Z) (bot : option Z) (cb : bool)
    (ids : gset Z) (m : BackupMember.t) (w : World Env)
    (p : RebuildProgress.t) :
  _progress (self w) = Some p →
  _cancelled (self w) = false → _paused (self w) = false →
  continue_on_error (self w) = true →
  ∃ ids', (process_member polls group_id bot cb ids m w).1
          = Ok (NextMember ids').
Proof.
  intros Hp Hc Hpa Hcont.
  rewrite (process_member_running _ _ _ _ _ _ _ Hc Hpa).
  destruct (decide (Some (BackupMember.user_id m) = bot)) as [Hbot|Hbot];
    [|destruct (decide (BackupMember.user_id m ∈ ids)) as [Hin|Hin]].
  - destruct (handle_member_bot group_id bot cb ids m w p Hp Hbot)
      as (p' & Hr & _). by exists ids.
  - destruct (handle_member_present group_id bot cb ids m w p Hp Hbot Hin)
      as (r & p1 & p' & evs & s1 & Hr & _). by exists ids.
  - destruct (handle_member_invite group_id bot cb ids m w p Hp Hbot Hin)
      as (p1 & p2 & evs2 & s3 & _ & _ & _ & _ & _ & Hcase).
    unfold stops_job in Hcase. rewrite Hcont, andb_false_r in Hcase.
    destruct Hcase as (_ & restores & tail & _ & _ & _ & _ & _ & Hret).
    by destruct (Hret Hcb Hsl) as [_ ?].
Qed.

(** The member loop without controls and with [continue_on_error] on
    handles every member of the order. *)
Lemma quiet_loop_complete (n : nat) (order : list BackupMember.t) (polls : nat)
    (group_id : Z) (bot : option Z) (cb : bool) (ms done : list BackupMember.t)
    (ids : gset Z) (w : World Env) :
  order = done ++ ms → (length order ≤ n)%nat →
  job_at (λ p, (counters_ok n order p
                ∧ RebuildProgress.processed p = length done)
               ∧ RebuildProgress.status p = RebuildStatus.RUNNING) w →
  _cancelled (self w) = false → _paused (self w) = false →
  continue_on_error (self w) = true →
  let run := member_loop polls group_id bot cb ids ms w in
  run.1 = Ok tt
  ∧ job_at (λ p, (counters_ok n order p
                  ∧ RebuildProgress.processed p = length order)
                 ∧ RebuildProgress.status p = RebuildStatus.RUNNING) run.2.
Proof.
  revert done ids w.
  induction ms as [|m ms IH]; intros done ids w Ho Hlen Hj Hc Hpa Hcont run;
    subst run.
  - simpl. split; [done|]. rewrite app_nil_r in Ho. subst order. exact Hj.
  - rewrite member_loop_cons.
    destruct Hj as (p & Hp & [Hok Hk] & Hst).
    destruct (quiet_turn Hq Hcb Hsl polls group_id bot cb ids m w p Hp Hst Hc Hpa)
      as (p1 & evs1 & Hp1 & _ & _ & Hc1 & Hpa1 & Hcase).
    destruct (quiet_turn_next polls group_id bot cb ids m w p Hp Hc Hpa Hcont)
      as [ids' Hnext].
    destruct (process_member_counters n order done ms m polls group_id bot cb
                ids w Ho Hlen (ex_intro _ p (conj Hp (conj Hok Hk))))
      as (_ & _ & Hcount).
    pose proof (process_member_config polls group_id bot cb ids m w)
      as (_ & _ & _ & _ & _ & Hcont1 & _).
    destruct (process_member polls group_id bot cb ids m w) as [r1 w1] eqn:E.
    simpl in *. subst r1.
    destruct Hcase as [(ids'' & _ & Hst1)|[? _]]; [|done].
    rewrite (bind_ok _ _ _ _ _ E).
    destruct (Hcount ids' eq_refl) as (p1' & Hp1' & Hok1 & Hk1).
    rewrite Hp1 in Hp1'. injection Hp1' as <-.
    apply (IH (done ++ [m]) ids' w1).
    + by rewrite <- app_assoc.
    + done.
    + exists p1. split; [done|]. split; [|done]. split; [done|].
      rewrite length_app. simpl. lia.
    + done.
    + done.
    + by rewrite Hcont1.
Qed.


(** X25. A run that nobody interrupts. When no control arrives, the progress
    callback and the sleeps return and [continue_on_error] is on, the
    run returns the job completed, with exactly one outcome for every
    row of the processing order, in that order; [processed] is the
    length of the order, which is [total] only if every row of the
    snapshot has role member or admin. *)
Theorem unattended_run_completes (w : World Env) (polls : nat)
    (target_group_id : Z) (members : list BackupMember.t)
    (progress_callback : bool) :
  continue_on_error (self w) = true →
  ∃ p,
    (_rebuild_group polls target_group_id members progress_callback w).1 = Ok p
    ∧ RebuildProgress.status p = RebuildStatus.COMPLETED
    ∧ RebuildProgress.total p = length members
    ∧ RebuildProgress.processed p = length (all_members members)
    ∧ InviteResult.user_id <$> RebuildProgress.results p
      = BackupMember.user_id <$> all_members members
    ∧ RebuildProgress.processed p
      = (RebuildProgress.success p + RebuildProgress.failed p
         + RebuildProgress.skipped p)%nat
    ∧ RebuildProgress.current_user p = None.
Proof.
  intros Hcont. unfold _rebuild_group.
  destruct (quiet_prologue Hq target_group_id members w)
    as (start & w1 & evs1 & E1 & Hs1 & _ & _).
  rewrite (bind_ok _ _ _ _ _ E1).
  destruct (quiet_loop_complete (length members) (all_members members) polls
              target_group_id start.2 progress_callback (all_members members)
              [] start.1 w1 eq_refl (all_members_length members))
    as [Hr2 (p2 & Hp2 & [Hok2 Hk2] & Hst2)].
  { exists (RebuildProgress.started (length members)). rewrite Hs1.
    split; [done|]. split; [|done]. split; [apply counters_ok_started|done]. }
  { by rewrite Hs1. }
  { by rewrite Hs1. }
  { by rewrite Hs1. }
  destruct (member_loop polls target_group_id start.2 progress_callback start.1
              (all_members members) w1) as [r2 w2] eqn:E2.
  simpl in Hr2, Hp2. subst r2. rewrite (bind_ok _ _ _ _ _ E2).
  rewrite (epilogue_exact target_group_id w2 p2 (λ _, Hq) Hp2).
  rewrite bool_decide_eq_true_2 by done.
  eexists. split; [reflexivity|]. simpl.
  destruct Hok2 as (Ht & Hsum & Hle & Hlen & Hids).
  split_and!; try done.
  rewrite Hids, Hk2. apply take_ge. by rewrite length_fmap.
Qed.

End CompleteRun.

(** ** Instances of the further properties *)

Section Witnesses.

(** Witness of [dry_run_statistics]: the scenario. *)
Lemma dry_run_statistics_witness :
  ∃ preview w',
    _dry_run_rebuild 7 scenario_snapshot
      (start (manager false true false true true) (scenario []))
    = (Ok preview, w')
    ∧ dry_run preview = true
    ∧ total_backup_members (statistics preview) = length scenario_snapshot
    ∧ current_members (statistics preview)
      = size (list_to_set (OneBotMember.user_id <$> scenario_roster) : gset Z)
    ∧ stats_agree (length scenario_snapshot) (statistics preview)
                  (changes preview)
    ∧ total_changes preview
      = sum_list_with (λ c, length (change_details c)) (changes preview)
    ∧ (warning preview = None ↔ cannot_invite (statistics preview) = 0%nat).
Proof.
  exact (dry_run_statistics
           (start (manager false true false true true) (scenario []))
           7 scenario_snapshot scenario_roster eq_refl).
Defined.


(** Witness of [rebuild_group_rejects]: a missing backup, a backup of
    another group, and a backup without member rows. *)
Lemma rebuild_group_rejects_witness :
  let w := start (manager false true false false true) (scenario []) in
  let refused := {| self := set_restore true true false (self w);
                    env := env w; trace := trace w |} in
  rebuild_group 0 7 5 None scenario_snapshot None true true false true w
  = (Raise ("备份 " +:+ pretty 5 +:+ " 不存在"), refused)
  ∧ rebuild_group 0 7 5 (Some 8) scenario_snapshot None true true false true w
    = (Raise ("备份 " +:+ pretty 5 +:+ " 不属于群组 " +:+ pretty 7), refused)
  ∧ rebuild_group 0 7 5 (Some 7) [] None true true false true w
    = (Raise ("备份 " +:+ pretty 5 +:+ " 中没有成员数据"), refused).
Proof.
  split_and!.
  - exact (proj1 (rebuild_group_rejects
                    (start (manager false true false false true) (scenario []))
                    0 7 5 None scenario_snapshot None true true false true)
                 eq_refl).
  - refine (proj1 (proj2 (rebuild_group_rejects
                    (start (manager false true false false true) (scenario []))
                    0 7 5 (Some 8) scenario_snapshot None true true false true))
                  8 eq_refl _).
    lia.
  - exact (proj2 (proj2 (rebuild_group_rejects
                    (start (manager false true false false true) (scenario []))
                    0 7 5 (Some 7) [] None true true false true))
                 eq_refl eq_refl).
Defined.

(** Witness of [rebuild_group_report]: the scenario, executed. *)
Lemma rebuild_group_report_witness :
  let w := start (manager false true false false true) (scenario []) in
  ∃ report,
    (rebuild_group 0 7 5 (Some 7) scenario_snapshot None true false false
       false w).1 = Ok (inr report)
    ∧ report_total report = length scenario_snapshot
    ∧ (success_count report + failed_count report + skipped_count report)%nat
      = length (report_results report)
    ∧ (length (report_results report) ≤ report_total report)%nat
    ∧ InviteResult.user_id <$> report_results report
      = take (length (report_results report))
             (BackupMember.user_id <$> all_members scenario_snapshot).
Proof.
  eexists. split; [vm_compute; reflexivity|].
  refine (proj2 (proj2 (proj2 (rebuild_group_report
            (start (manager false true false false true) (scenario []))
            0 7 5 (Some 7) scenario_snapshot None true false false false _ _)))).
  vm_compute. reflexivity.
Defined.

(** Witness of [rebuild_from_backup_excludes]: the scenario with user 1
    excluded, and with all three users excluded. *)
Lemma rebuild_from_backup_excludes_witness :
  let w := start (manager false true false false true) (scenario []) in
  (∃ p,
     (rebuild_from_backup 0 5 7 scenario_snapshot (Some [1]) false w).1 = Ok p
     ∧ RebuildProgress.total p = 2%nat
     ∧ (∀ r, r ∈ RebuildProgress.results p → InviteResult.user_id r ∉ [1]))
  ∧ (∃ p,
       (rebuild_from_backup 0 5 7 scenario_snapshot (Some [3; 2; 1]) false w).1
       = Ok p
       ∧ RebuildProgress.total p = 0%nat
       ∧ RebuildProgress.processed p = 0%nat
       ∧ RebuildProgress.results p = []).
Proof.
  split.
  - eexists. split; [vm_compute; reflexivity|].
    pose proof (proj1 (proj2 (rebuild_from_backup_excludes
                         (start (manager false true false false true)
                                (scenario []))
                         0 5 7 scenario_snapshot (Some [1]) false))) as Hx.
    edestruct Hx as (Ht & _ & _ & Hres); [vm_compute; reflexivity|].
    split; [exact Ht|]. intros r Hr. exact (proj1 (Hres r Hr)).
  - refine (proj2 (proj2 (rebuild_from_backup_excludes
                     (start (manager false true false false true) (scenario []))
                     0 5 7 scenario_snapshot (Some [3; 2; 1]) false)) _ _).
    + discriminate.
    + apply (bool_decide_unpack _). vm_compute. exact I.
Defined.

(** Witness of [owner_never_processed]: a snapshot of the owner and one
    member. *)
Lemma owner_never_processed_witness :
  let w := start (manager false true false false true) (scenario []) in
  let members := [BackupMember.mk 1 "n" (Some "A"%string) "owner" None;
                  snapshot_member 2 "B"] in
  ∃ p,
    (_rebuild_group 0 7 members false w).1 = Ok p
    ∧ (RebuildProgress.processed p < RebuildProgress.total p)%nat.
Proof.
  eexists. split; [vm_compute; reflexivity|].
  refine (proj2 (proj2 (owner_never_processed
            (start (manager false true false false true) (scenario []))
            0 7 [BackupMember.mk 1 "n" (Some "A"%string) "owner" None;
                 snapshot_member 2 "B"] false _ _)) _).
  - vm_compute. reflexivity.
  - apply Exists_cons_hd. split; discriminate.
Defined.



(** Witness of [restore_member_info_plan]: the title call succeeds in
    the scenario, and every call fails when the remote is out of
    reach. *)
Lemma restore_member_info_plan_witness :
  let w := start (manager false false true false true) (scenario []) in
  let w' := {| self := manager true true true false true; env := offline;
               trace := [] |} in
  (∃ restored evs,
     (_restore_member_info 7 (snapshot_member 1 "A") w).1 = Ok restored
     ∧ op <$> evs = [Op.set_group_special_title 7 1 EmptyString]
     ∧ length restored = length evs)
  ∧ (_restore_member_info 7 (snapshot_member 1 "A") w').1 = Ok [].
Proof.
  split.
  - destruct (restore_member_info_plan 7 (snapshot_member 1 "A")
                (start (manager false false true false true) (scenario [])))
      as (restored & evs & Hr & _ & Hops & _ & _ & Hall).
    exists restored, evs. split; [exact Hr|]. split; [exact Hops|].
    apply Hall. intros o e Ho. cbv in Ho.
    apply list_elem_of_singleton in Ho as ->. by exists Done.
  - destruct (restore_member_info_plan 7 (snapshot_member 1 "A")
                {| self := manager true true true false true; env := offline;
                   trace := [] |})
      as (restored & evs & Hr & _ & _ & _ & Hnone & _).
    rewrite Hr. f_equal. apply Hnone. intros o e _. by exists "offline"%string.
Defined.


(** Witness of [pause_loop_waits]: a paused job that is resumed during
    its second sleep. *)
Lemma pause_loop_waits_witness :
  let w := {| self := pause (set_progress (Some (RebuildProgress.started 3))
                               (manager false true false false true));
              env := scenario [[]; [Resume]]; trace := [] |} in
  let run := wait_while_paused 5 w in
  ∃ evs,
    trace run.2 = trace w ++ evs
    ∧ Forall (λ ev, op ev = Op.sleep (Qmake 1 1)) evs
    ∧ (length evs ≤ 5)%nat
    ∧ (_paused (self run.2) = false
       ∨ (_cancelled (self run.2) = true ∧ evs ≠ [])).
Proof.
  destruct (pause_loop_waits 5
              {| self := pause (set_progress (Some (RebuildProgress.started 3))
                                  (manager false true false false true));
                 env := scenario [[]; [Resume]]; trace := [] |})
    as (evs & Ht & Hall & Hlen & _ & _ & _ & Hok & _).
  exists evs. split; [exact Ht|]. split; [exact Hall|]. split; [exact Hlen|].
  apply Hok. vm_compute. reflexivity.
Defined.

(** Witness of [pause_without_controls]: a paused job left alone. *)
Lemma pause_without_controls_witness :
  let w := {| self := pause (set_progress (Some (RebuildProgress.started 3))
                               (manager false true false false true));
              env := {| script := scenario [] |}; trace := [] |} in
  let run := wait_while_paused 4 w in
  run.1 = Polling
  ∧ self run.2 = self w
  ∧ ∃ evs, trace run.2 = trace w ++ evs
           ∧ op <$> evs = replicate 4 (Op.sleep (Qmake 1 1)).
Proof.
  exact (pause_without_controls 4
           {| self := pause (set_progress (Some (RebuildProgress.started 3))
                               (manager false true false false true));
              env := {| script := scenario [] |}; trace := [] |}
           unattended_quiet unattended_sleep_returns eq_refl eq_refl).
Defined.

(** Witness of [bot_self_is_skipped]: the bot, user 99, listed in the
    snapshot and present in the target group. *)
Lemma bot_self_is_skipped_witness :
  let w := scenario_turn (scenario []) in
  let run := handle_member 7 (Some 99) true {[99]} (snapshot_member 99 "bot") w in
  ∃ p',
    run.1 = Ok (NextMember {[99]})
    ∧ trace run.2 = trace w
    ∧ _progress (self run.2) = Some p'
    ∧ recorded (invite_result (snapshot_member 99 "bot") InviteStatus.SKIPPED
                  "Bot 自身") (RebuildProgress.started 3) p'.
Proof.
  exact (proj2 (bot_self_is_skipped (Some 99) (snapshot_member 99 "bot") eq_refl)
           (scenario_turn (scenario [])) 7 true {[99]}
           (RebuildProgress.started 3) eq_refl).
Defined.

(** Witness of [invite_member_outcome]: member 3 of the scenario, a
    friend. *)
Lemma invite_member_outcome_witness :
  let w := scenario_turn (scenario []) in
  ∃ r,
    (_invite_member 7 (snapshot_member 3 "C") w).1 = Ok r
    ∧ InviteResult.status r = InviteStatus.SUCCESS.
Proof.
  destruct (invite_member_outcome 7 (snapshot_member 3 "C")
              (scenario_turn (scenario [])))
    as (r & Hr & _ & _ & _ & Hfriends & _).
  exists r. split; [exact Hr|]. exact (Hfriends [3] eq_refl).
Defined.

(** Witness of [unattended_run_completes]: the scenario, unattended. *)
Lemma unattended_run_completes_witness :
  let w := {| self := manager false true false true true;
              env := {| script := scenario [] |}; trace := [] |} in
  ∃ p,
    (_rebuild_group 0 7 scenario_snapshot true w).1 = Ok p
    ∧ RebuildProgress.status p = RebuildStatus.COMPLETED
    ∧ RebuildProgress.total p = length scenario_snapshot
    ∧ RebuildProgress.processed p = length (all_members scenario_snapshot)
    ∧ InviteResult.user_id <$> RebuildProgress.results p
      = BackupMember.user_id <$> all_members scenario_snapshot
    ∧ RebuildProgress.processed p
      = (RebuildProgress.success p + RebuildProgress.failed p
         + RebuildProgress.skipped p)%nat
    ∧ RebuildProgress.current_user p = None.
Proof.
  exact (unattended_run_completes unattended_quiet unattended_callback_returns
           unattended_sleep_returns
           {| self := manager false true false true true;
              env := {| script := scenario [] |}; trace := [] |}
           0%nat 7 scenario_snapshot true eq_refl).
Defined.

(** Witness of [cancel_before_first_member]: the scenario, cancelled
    while the roster is fetched. *)
Lemma cancel_before_first_member_witness :
  let w := start (manager false true false false true)
                 (scenario [[Cancel]]) in
  let run := _rebuild_group 0 7 scenario_snapshot false w in
  ∃ p evs,
    run.1 = Ok p
    ∧ job_frame p = job_frame (RebuildProgress.started (length scenario_snapshot))
    ∧ trace run.2 = trace w ++ evs
    ∧ Forall (λ ev, frame_op 7 (op ev)) evs
    ∧ RebuildProgress.status p = RebuildStatus.CANCELLED.
Proof.
  destruct (cancel_before_first_member
              (start (manager false true false false true) (scenario [[Cancel]]))
              0 7 scenario_snapshot false)
    as (p & evs & Hr & Hf & Ht & Hall & Hst).
  - apply list_elem_of_singleton. reflexivity.
  - discriminate.
  - exists p, evs. split_and!; try done. by apply Hst.
Defined.

(** Witness of [present_member_outcome]: member 1 of the scenario, who
    is in the target group. *)
Lemma present_member_outcome_witness :
  let w := scenario_turn (scenario []) in
  let run := handle_member 7 (Some 99) true {[1; 99]} (snapshot_member 1 "A") w in
  ∃ r p' evs,
    run.1 = Ok (NextMember {[1; 99]})
    ∧ trace run.2 = trace w ++ evs
    ∧ op <$> evs = restore_plan (self w) 7 (snapshot_member 1 "A")
    ∧ _progress (self run.2) = Some p'
    ∧ RebuildProgress.results p'
      = RebuildProgress.results (RebuildProgress.started 3) ++ [r]
    ∧ InviteResult.user_id r = 1.
Proof.
  destruct (present_member_outcome 7 (Some 99) true {[1; 99]}
              (snapshot_member 1 "A") (scenario_turn (scenario []))
              (RebuildProgress.started 3))
    as (r & p' & evs & H1 & H2 & H3 & H4 & H5 & _ & H7 & _).
  - reflexivity.
  - discriminate.
  - apply (bool_decide_unpack _). vm_compute. exact I.
  - exists r, p', evs. split_and!; assumption.
Defined.

End Witnesses.
